(** * Emission-factor matcher: a shallow embedding of [src/core/matcher.ts]

    The matcher resolves an accounting transaction to an emission factor
    through three lookup strategies (VAT cache, account mapping, supplier
    mapping) and a four-tier fallback.  Every repository access goes
    through a [DatabaseAdapter]; its operations are asynchronous, may
    reject, and may change the adapter's own state.

    Conventions of the embedding:
    - a JavaScript [number] is an IEEE-754 binary64 value: [float];
    - a JavaScript [string] is a [string] of bytes (the ASCII fragment;
      case conversion and whitespace are the ASCII ones);
    - [T | null] and optional fields are [option T];
    - the truthiness tests of the source ([if (x)], [x || y], [!x]) are
      written out for each type they are applied to;
    - an [async] function over the adapter is a computation in the monad
      [M]: it threads the adapter state, stops at the first rejected call
      and records every call with its answer. *)

From Stdlib Require Import Bool List String Ascii ZArith PArith Lia.
From Stdlib Require Import DecimalString.
From Stdlib Require Import Floats.
Import ListNotations.

Set Warnings "-inexact-float".

Open Scope list_scope.
Open Scope string_scope.

(* ================================================================== *)
(** ** JavaScript values *)

Module Js.

(** *** Strings *)

(** [if (s)] on a string: the empty string is falsy. *)
Definition truthy_string (s : string) : bool :=
  match s with
  | EmptyString => false
  | String _ _ => true
  end.

(** [if (o)] on [string | null | undefined]. *)
Definition truthy (o : option string) : bool :=
  match o with
  | Some s => truthy_string s
  | None => false
  end.

(** [a || b] on optional strings. *)
Definition or_else (a b : option string) : option string :=
  if truthy a then a else b.

(** [s || d] where [s] is nullable and [d] a string. *)
Definition or_string (a : option string) (d : string) : string :=
  match a with
  | Some s => if truthy_string s then s else d
  | None => d
  end.

(** A string is a sequence of 8-bit characters.  The case conversions
    and the white space below are JavaScript's on ASCII text, the
    characters below 128; beyond it JavaScript also converts letters
    such as the sharp s, and trims further spaces, which are left alone
    here.  Properties of the case conversions are stated for ASCII
    text. *)
Definition ascii_char (c : ascii) : bool := (nat_of_ascii c <? 128)%nat.

Fixpoint ascii_text (s : string) : bool :=
  match s with
  | EmptyString => true
  | String c r => ascii_char c && ascii_text r
  end.

Definition lower_ascii (c : ascii) : ascii :=
  let n := nat_of_ascii c in
  if (65 <=? n)%nat && (n <=? 90)%nat then ascii_of_nat (n + 32) else c.

Definition upper_ascii (c : ascii) : ascii :=
  let n := nat_of_ascii c in
  if (97 <=? n)%nat && (n <=? 122)%nat then ascii_of_nat (n - 32) else c.

Fixpoint map_string (f : ascii -> ascii) (s : string) : string :=
  match s with
  | EmptyString => EmptyString
  | String c r => String (f c) (map_string f r)
  end.

Definition toLowerCase : string -> string := map_string lower_ascii.
Definition toUpperCase : string -> string := map_string upper_ascii.

(** [s.includes(sub)] *)
Fixpoint includes (s sub : string) : bool :=
  if String.prefix sub s then true
  else match s with
       | EmptyString => false
       | String _ r => includes r sub
       end.

(** [\s] on the ASCII fragment: space, tab, LF, VT, FF, CR. *)
Definition is_space (c : ascii) : bool :=
  let n := nat_of_ascii c in
  (n =? 32)%nat || ((9 <=? n)%nat && (n <=? 13)%nat).

Fixpoint trim_start (s : string) : string :=
  match s with
  | String c r => if is_space c then trim_start r else s
  | EmptyString => EmptyString
  end.

Fixpoint rev_string_onto (s acc : string) : string :=
  match s with
  | EmptyString => acc
  | String c r => rev_string_onto r (String c acc)
  end.

Definition rev_string (s : string) : string := rev_string_onto s EmptyString.

Definition trim_end (s : string) : string :=
  rev_string (trim_start (rev_string s)).

Definition trim (s : string) : string := trim_end (trim_start s).

(** [`${n}`] for an array length. *)
Definition string_of_nat (n : nat) : string :=
  NilEmpty.string_of_uint (Nat.to_uint n).

(** *** Numbers *)

Definition number := float.

(** An array length as a number (exact below 2^53; array lengths are
    below 2^32). *)
Definition number_of_nat (n : nat) : number :=
  PrimFloat.of_uint63 (Uint63.of_Z (Z.of_nat n)).

(** [if (x)] on a number: [0], [-0] and [NaN] are falsy. *)
Definition truthy_number (x : number) : bool :=
  negb (PrimFloat.is_zero x || PrimFloat.is_nan x).

(** [x || d] on a number. *)
Definition or_number (x d : number) : number :=
  if truthy_number x then x else d.

(** [x || d] where [x] is [number | null]. *)
Definition or_number_opt (x : option number) (d : number) : number :=
  match x with
  | Some v => or_number v d
  | None => d
  end.

(** [Math.min(a, b)]: [NaN] if either is, and [-0] below [+0]. *)
Definition min (a b : number) : number :=
  if PrimFloat.is_nan a || PrimFloat.is_nan b then PrimFloat.nan
  else if PrimFloat.ltb a b then a
  else if PrimFloat.ltb b a then b
  else if PrimFloat.get_sign a then a else b.

(** [Math.max(a, b)]: [NaN] if either is, and [+0] above [-0]. *)
Definition max (a b : number) : number :=
  if PrimFloat.is_nan a || PrimFloat.is_nan b then PrimFloat.nan
  else if PrimFloat.ltb a b then b
  else if PrimFloat.ltb b a then a
  else if PrimFloat.get_sign a then b else a.

End Js.

(* ================================================================== *)
(** ** Data model ([src/core/types.ts]) *)

Inductive Scope := scope1 | scope2 | scope3.
Inductive ConfidenceLevel := high | medium | low.

(** A value of the free-form [metadata] object. *)
Inductive MetaValue :=
| MetaNumber (x : Js.number)
| MetaString (s : string).

(** [Record<string, any>]: keys in insertion order, one entry per key. *)
Definition Metadata := list (string * MetaValue).

Fixpoint meta_set (k : string) (v : MetaValue) (m : Metadata) : Metadata :=
  match m with
  | [] => [(k, v)]
  | (k', v') :: r =>
      if String.eqb k k' then (k, v) :: r else (k', v') :: meta_set k v r
  end.

(** [{...m}] where [m] may be [undefined]. *)
Definition meta_spread (m : option Metadata) : Metadata :=
  match m with
  | Some l => l
  | None => []
  end.

Record EmissionFactor := {
  id : string;
  nace_code : option string;
  category : string;
  subcategory : option string;
  exiobase_product_code : option string;
  exiobase_product_name : option string;
  country_code : option string;
  country_name : option string;
  emission_factor_kgco2e_per_eur : Js.number;
  emission_factor_kgco2e_per_unit : option Js.number;
  physical_unit : option string;
  scope : option Scope;
  region : option string;
  data_source : option string;
  source_year : option Js.number;
  confidence_level : option ConfidenceLevel;
  total_output_eur : option Js.number;
  num_countries : option Js.number;
  metadata : option Metadata;
  is_active : option bool;
  created_at : option string;
  updated_at : option string
}.

Record Transaction := {
  tx_id : string;
  supplier_name : string;
  vat_number : option string;
  account_code : option string;
  amount : Js.number;
  currency : option string;
  description : option string;
  supplier_country : option string;
  tx_date : option string;
  tx_category : option string
}.

Inductive Tier := Tier1 | Tier2 | Tier3 | Tier4.

Inductive Method :=
| vat_lookup | account_mapping | supplier_mapping | manual | none.

Record MatchResult := {
  emissionFactor : option EmissionFactor;
  naceCode : option string;
  countryCode : option string;
  productCode : option string;
  confidence : Js.number;
  tier : option Tier;
  method : Method;
  reasoning : string;
  fallbackApplied : bool
}.

(** The rows of the learning tables; only the columns the matcher reads
    are kept. *)
Record NACEEmissionFactor := {
  nef_id : string;
  nef_nace_code : string;
  nace_description : option string;
  scope_3_factor : option Js.number;
  nef_source : option string
}.

Record SupplierNACEMapping := {
  snm_id : string;
  snm_nace_code : string
}.

Record VATCache := {
  vc_vat_number : string;
  vc_country_code : option string;
  vc_nace_code : option string;
  is_valid : bool
}.

Record EmissionCategoryMapping := {
  ecm_nace_code : option string;
  emission_factor_id : option string
}.

Record EmissionFactorQuery := {
  q_nace_code : option string;
  q_country_code : option string;
  q_country_codes : option (list string);
  q_product_hint : option string;
  q_scope : option Scope;
  q_is_active : option bool
}.

Record MatcherConfig := {
  confidenceLevels_tier1 : Js.number;
  confidenceLevels_tier2 : Js.number;
  confidenceLevels_tier3 : Js.number;
  confidenceLevels_tier4 : Js.number;
  methodConfidence_vat_lookup : Js.number;
  methodConfidence_account_mapping : Js.number;
  methodConfidence_supplier_mapping : Js.number;
  tierAdjustments_tier2 : Js.number;
  tierAdjustments_tier3 : Js.number;
  tierAdjustments_tier4 : Js.number;
  enableLearning : bool;
  cacheVAT : bool;
  cacheTTL : Js.number
}.

(* ================================================================== *)
(** ** Constants *)

Definition DEFAULT_CONFIG : MatcherConfig := {|
  confidenceLevels_tier1 := 0.95%float;
  confidenceLevels_tier2 := 0.85%float;
  confidenceLevels_tier3 := 0.75%float;
  confidenceLevels_tier4 := 0.65%float;
  methodConfidence_vat_lookup := 0.95%float;
  methodConfidence_account_mapping := 0.85%float;
  methodConfidence_supplier_mapping := 0.75%float;
  tierAdjustments_tier2 := (-0.10)%float;
  tierAdjustments_tier3 := (-0.20)%float;
  tierAdjustments_tier4 := (-0.30)%float;
  enableLearning := true;
  cacheVAT := true;
  cacheTTL := (24 * 60 * 60 * 1000)%float
|}.

(** VAT prefix to country; every prefix maps to itself. *)
Definition VAT_COUNTRY_MAP : list (string * string) :=
  map (fun c => (c, c))
    ["SE"; "NO"; "DK"; "FI"; "IS";
     "AT"; "BE"; "BG"; "HR"; "CY";
     "CZ"; "DE"; "EE"; "GR"; "ES";
     "FR"; "HU"; "IE"; "IT"; "LV";
     "LT"; "LU"; "MT"; "NL"; "PL";
     "PT"; "RO"; "SK"; "SI"; "GB";
     "CH"; "US"; "CA"; "AU"; "JP";
     "CN"; "IN"; "BR"; "MX"; "ZA";
     "KR"; "TW"; "ID"; "TR"; "RU"].

Definition EU_COUNTRIES : list string :=
  ["AT"; "BE"; "BG"; "HR"; "CY"; "CZ"; "DK"; "EE"; "FI"; "FR";
   "DE"; "GR"; "HU"; "IE"; "IT"; "LV"; "LT"; "LU"; "MT"; "NL";
   "PL"; "PT"; "RO"; "SK"; "SI"; "ES"; "SE"].

(* ================================================================== *)
(** ** Utility functions *)

(** [obj[key]] on a table of strings. *)
Fixpoint table_get (t : list (string * string)) (k : string) : option string :=
  match t with
  | [] => None
  | (k', v) :: r => if String.eqb k k' then Some v else table_get r k
  end.

Definition getCountryFromVAT (vatNumber : string) : option string :=
  if negb (Js.truthy_string vatNumber) || (String.length vatNumber <? 2)%nat
  then None
  else
    let prefix := Js.toUpperCase (String.substring 0 2 vatNumber) in
    Js.or_else (table_get VAT_COUNTRY_MAP prefix) None.

(** The legal-form suffixes of the pattern, in the order of its
    alternation. *)
Definition COMPANY_SUFFIXES : list string :=
  ["ab"; "oy"; "as"; "gmbh"; "ltd"; "llc"; "inc"; "corp"; "sa"; "srl";
   "bv"; "ag"; "nv"; "bhd"; "sdn"; "pte"].

(** Does [s] match [(ab|oy|...)\s*$] from its first character on? *)
Definition suffix_here (s : string) : bool :=
  existsb
    (fun sfx =>
       String.prefix sfx s &&
       match Js.trim_start
               (String.substring (String.length sfx)
                  (String.length s - String.length sfx) s)
       with
       | EmptyString => true
       | String _ _ => false
       end)
    COMPANY_SUFFIXES.

(** [s.replace(/\s*(ab|oy|...)\s*$/gi, '')]: the leftmost position from
    which the pattern matches up to the end is where the string is cut. *)
Fixpoint strip_company_suffix (s : string) : string :=
  if suffix_here (Js.trim_start s) then EmptyString
  else match s with
       | EmptyString => EmptyString
       | String c r => String c (strip_company_suffix r)
       end.

Definition normalizeSupplierName (name : string) : string :=
  Js.trim (strip_company_suffix (Js.toLowerCase name)).

Definition push_if (b : bool) (h : string) (hints : list string) : list string :=
  if b then (hints ++ [h])%list else hints.

Definition extractProductHints (description : option string) : list string :=
  match description with
  | None => []
  | Some d =>
      if negb (Js.truthy_string d) then []
      else
        let hints : list string := [] in
        let text := Js.toLowerCase d in
        (* Energy hints *)
        let hints := push_if (Js.includes text "wind") "wind" hints in
        let hints := push_if (Js.includes text "solar") "solar" hints in
        let hints := push_if (Js.includes text "hydro") "hydro" hints in
        let hints := push_if (Js.includes text "nuclear") "nuclear" hints in
        let hints := push_if (Js.includes text "coal") "coal" hints in
        let hints := push_if (Js.includes text "gas") "gas" hints in
        let hints := push_if (Js.includes text "electricity") "electricity" hints in
        (* Transport hints *)
        let hints := push_if (Js.includes text "flight" || Js.includes text "airline")
                       "air transport" hints in
        let hints := push_if (Js.includes text "train" || Js.includes text "railway")
                       "rail" hints in
        let hints := push_if (Js.includes text "truck" || Js.includes text "freight")
                       "freight" hints in
        (* General hints *)
        let hints := push_if (Js.includes text "biofuel" || Js.includes text "renewable")
                       "renewable" hints in
        let hints := push_if (Js.includes text "fossil") "fossil" hints in
        hints
  end.

Definition calculateEmissions
    (amount emissionFactorKgCO2ePerEur : Js.number)
    (currency : string) (exchangeRate : Js.number) : Js.number :=
  let amountInEur :=
    if String.eqb currency "EUR" then amount else (amount * exchangeRate)%float in
  (amountInEur * emissionFactorKgCO2ePerEur)%float.


(* ================================================================== *)
(** ** Maps, and the statistics over a map of results *)

(** A [Map<string, V>]: its entries in insertion order, one per key. *)
Definition JsMap (V : Type) := list (string * V).

(** [m.set(k, v)]: a present key keeps its place and takes the value,
    an absent one is appended. *)
Fixpoint map_set {V} (k : string) (v : V) (m : JsMap V) : JsMap V :=
  match m with
  | [] => [(k, v)]
  | (k', v') :: r =>
      if String.eqb k k' then (k, v) :: r else (k', v') :: map_set k v r
  end.

(** [m.get(k)] *)
Fixpoint map_get {V} (k : string) (m : JsMap V) : option V :=
  match m with
  | [] => None
  | (k', v) :: r => if String.eqb k k' then Some v else map_get k r
  end.

(** The decimal digits of a natural number of any size. *)
Definition digits_of_Z (n : Z) : string :=
  NilZero.string_of_uint (N.to_uint (Z.to_N n)).

Fixpoint zeros (n : nat) : string :=
  match n with
  | O => ""
  | S k => "0" ++ zeros k
  end.

(** Steps 10 and 11 of [Number.prototype.toFixed]: the digits of [n]
    with a point before the last [f] of them, zeros added in front when
    there are not more than [f]. *)
Definition place_point (n : Z) (f : nat) : string :=
  let m := digits_of_Z n in
  match f with
  | O => m
  | S _ =>
      let k := String.length m in
      let m := if (k <=? f)%nat then zeros (f + 1 - k) ++ m else m in
      let k := String.length m in
      String.substring 0 (k - f) m ++ "." ++ String.substring (k - f) f m
  end.

(** The integer [n] for which [n / 10^f] is closest to [m * 2^e], the
    larger one of two. *)
Definition nearest_scaled (m : positive) (e : Z) (f : nat) : Z :=
  let num := (Z.pos m * 10 ^ Z.of_nat f)%Z in
  if (0 <=? e)%Z then (num * 2 ^ e)%Z
  else ((2 * num + 2 ^ (- e)) / 2 ^ (1 - e))%Z.

(** Is [m * 2^e] at least [10^21]? *)
Definition at_least_1e21 (m : positive) (e : Z) : bool :=
  if (0 <=? e)%Z then (10 ^ 21 <=? Z.pos m * 2 ^ e)%Z
  else (10 ^ 21 * 2 ^ (- e) <=? Z.pos m)%Z.

Section Statistics.

(** [Number::toString] on the finite numbers of magnitude [10^21] and
    more, which [toFixed] hands over to it. *)
Variable numberToString : Js.number -> string.

(** [x.toFixed(f)], for [f] from 0 to 100. *)
Definition toFixed (x : Js.number) (f : nat) : string :=
  match Prim2SF x with
  | S754_nan => "NaN"
  | S754_infinity false => "Infinity"
  | S754_infinity true => "-Infinity"
  | S754_zero _ => place_point 0 f
  | S754_finite s m e =>
      (if s then "-" else "")
        ++ (if at_least_1e21 m e then numberToString (PrimFloat.abs x)
            else place_point (nearest_scaled m e f) f)
  end.

Record MatchingStatistics := {
  st_total : nat;
  st_matched : nat;
  st_unmatched : nat;
  st_tier1 : nat;
  st_tier2 : nat;
  st_tier3 : nat;
  st_tier4 : nat;
  matchRate : string;
  avgConfidence : string;
  tier1Rate : string;
  tier2Rate : string;
  tier3Rate : string;
  tier4Rate : string
}.

(** The counters of [getMatchingStatistics]: the four tiers, the
    unmatched, and the running sum of confidences. *)
Record Tally := {
  n_tier1 : nat;
  n_tier2 : nat;
  n_tier3 : nat;
  n_tier4 : nat;
  n_unmatched : nat;
  totalConfidence : Js.number
}.

(** The body of the [forEach]. *)
Definition tally_result (c : Tally) (result : MatchResult) : Tally :=
  let c' :=
    match tier result with
    | Some Tier1 =>
        {| n_tier1 := S (n_tier1 c); n_tier2 := n_tier2 c; n_tier3 := n_tier3 c;
           n_tier4 := n_tier4 c; n_unmatched := n_unmatched c;
           totalConfidence := totalConfidence c |}
    | Some Tier2 =>
        {| n_tier1 := n_tier1 c; n_tier2 := S (n_tier2 c); n_tier3 := n_tier3 c;
           n_tier4 := n_tier4 c; n_unmatched := n_unmatched c;
           totalConfidence := totalConfidence c |}
    | Some Tier3 =>
        {| n_tier1 := n_tier1 c; n_tier2 := n_tier2 c; n_tier3 := S (n_tier3 c);
           n_tier4 := n_tier4 c; n_unmatched := n_unmatched c;
           totalConfidence := totalConfidence c |}
    | Some Tier4 =>
        {| n_tier1 := n_tier1 c; n_tier2 := n_tier2 c; n_tier3 := n_tier3 c;
           n_tier4 := S (n_tier4 c); n_unmatched := n_unmatched c;
           totalConfidence := totalConfidence c |}
    | None =>
        {| n_tier1 := n_tier1 c; n_tier2 := n_tier2 c; n_tier3 := n_tier3 c;
           n_tier4 := n_tier4 c; n_unmatched := S (n_unmatched c);
           totalConfidence := totalConfidence c |}
    end in
  {| n_tier1 := n_tier1 c'; n_tier2 := n_tier2 c'; n_tier3 := n_tier3 c';
     n_tier4 := n_tier4 c'; n_unmatched := n_unmatched c';
     totalConfidence := (totalConfidence c' + confidence result)%float |}.

(** [(count / total * 100).toFixed(1) + '%'] *)
Definition rate (count total : nat) : string :=
  toFixed (Js.number_of_nat count / Js.number_of_nat total * 100)%float 1 ++ "%".

(** Get matching statistics from results.  The counters are whole
    numbers far below [2^53]: they are counted in [nat] and turned into
    numbers where the source divides. *)
Definition getMatchingStatistics (results : JsMap MatchResult) : MatchingStatistics :=
  let total := List.length results in
  let c := fold_left (fun c kv => tally_result c (snd kv)) results
             {| n_tier1 := 0; n_tier2 := 0; n_tier3 := 0; n_tier4 := 0;
                n_unmatched := 0; totalConfidence := 0%float |} in
  {| st_total := total;
     st_matched := total - n_unmatched c;
     st_unmatched := n_unmatched c;
     st_tier1 := n_tier1 c;
     st_tier2 := n_tier2 c;
     st_tier3 := n_tier3 c;
     st_tier4 := n_tier4 c;
     matchRate := rate (total - n_unmatched c) total;
     avgConfidence := toFixed (totalConfidence c / Js.number_of_nat total)%float 2;
     tier1Rate := rate (n_tier1 c) total;
     tier2Rate := rate (n_tier2 c) total;
     tier3Rate := rate (n_tier3 c) total;
     tier4Rate := rate (n_tier4 c) total |}.

End Statistics.

(* ================================================================== *)
(** ** The repository and the monad of [async] code *)

Section Matcher.

(** The adapter's own state, and what a rejected promise carries. *)
Variable State : Type.
Variable Err : Type.

(** How an awaited promise settles. *)
Inductive Outcome (A : Type) : Type :=
| Resolved (a : A)
| Rejected (e : Err).
Arguments Resolved {A} a.
Arguments Rejected {A} e.

(** [findEmissionFactors] is declared to return an array; the source
    also guards against a missing one ([!factors]), hence the option. *)
Record DatabaseAdapter := {
  findEmissionFactor :
    EmissionFactorQuery -> State -> Outcome (option EmissionFactor) * State;
  findEmissionFactors :
    EmissionFactorQuery -> State -> Outcome (option (list EmissionFactor)) * State;
  getEmissionFactorById :
    string -> State -> Outcome (option EmissionFactor) * State;
  findNACEEmissionFactor :
    string -> State -> Outcome (option NACEEmissionFactor) * State;
  getVATCache :
    string -> State -> Outcome (option VATCache) * State;
  getAccountMapping :
    string -> string -> State -> Outcome (option EmissionCategoryMapping) * State;
  getSupplierMapping :
    string -> State -> Outcome (option SupplierNACEMapping) * State;
  incrementSupplierUsage :
    string -> State -> Outcome unit * State
}.

(** One repository call, with its arguments and how it settled. *)
Inductive Call : Type :=
| FindEmissionFactor (q : EmissionFactorQuery) (r : Outcome (option EmissionFactor))
| FindEmissionFactors (q : EmissionFactorQuery) (r : Outcome (option (list EmissionFactor)))
| GetEmissionFactorById (i : string) (r : Outcome (option EmissionFactor))
| FindNACEEmissionFactor (n : string) (r : Outcome (option NACEEmissionFactor))
| GetVATCache (v : string) (r : Outcome (option VATCache))
| GetAccountMapping (c a : string) (r : Outcome (option EmissionCategoryMapping))
| GetSupplierMapping (n : string) (r : Outcome (option SupplierNACEMapping))
| IncrementSupplierUsage (i : string) (r : Outcome unit).

(** An [async] computation: from the adapter state to how it settles,
    the state it leaves, and the calls it made, in order. *)
Definition M (A : Type) : Type := State -> Outcome A * State * list Call.

Definition ret {A} (a : A) : M A := fun s => (Resolved a, s, []).

Definition bind {A B} (m : M A) (k : A -> M B) : M B :=
  fun s =>
    match m s with
    | (Resolved a, s1, t1) =>
        match k a s1 with
        | (o, s2, t2) => (o, s2, (t1 ++ t2)%list)
        end
    | (Rejected e, s1, t1) => (Rejected e, s1, t1)
    end.

(** [await db.op(args)] *)
Definition await {A} (op : State -> Outcome A * State)
    (log : Outcome A -> Call) : M A :=
  fun s => match op s with (o, s1) => (o, s1, [log o]) end.

Notation "x <- m ;; k" := (bind m (fun x => k))
  (at level 100, m at next level, right associativity).
Notation "' p <- m ;; k" := (bind m (fun x => match x with p => k end))
  (at level 100, p pattern, m at next level, right associativity).

Variable db : DatabaseAdapter.

(* ---------------------------------------------------------------- *)
(** ** Tier functions *)

Definition tier1_query (naceCode countryCode : string) (hint : option string)
  : EmissionFactorQuery :=
  {| q_nace_code := Some naceCode;
     q_country_code := Some countryCode;
     q_country_codes := None;
     q_product_hint := hint;
     q_scope := Some scope3;
     q_is_active := Some true |}.

Definition tier2_query (naceCode countryCode : string) : EmissionFactorQuery :=
  {| q_nace_code := Some naceCode;
     q_country_code := Some countryCode;
     q_country_codes := None;
     q_product_hint := None;
     q_scope := Some scope3;
     q_is_active := Some true |}.

Definition tier3_query (naceCode : string) : EmissionFactorQuery :=
  {| q_nace_code := Some naceCode;
     q_country_code := None;
     q_country_codes := Some EU_COUNTRIES;
     q_product_hint := None;
     q_scope := Some scope3;
     q_is_active := Some true |}.

(** The [for (const hint of productHints)] loop of tier 1; [Some f] is
    the [return factor] from inside the loop. *)
Fixpoint tier1_hint_loop (naceCode countryCode : string) (hints : list string)
  : M (option EmissionFactor) :=
  match hints with
  | [] => ret None
  | hint :: rest =>
      factor <- await (findEmissionFactor db (tier1_query naceCode countryCode (Some hint)))
                      (FindEmissionFactor (tier1_query naceCode countryCode (Some hint))) ;;
      match factor with
      | Some f => ret (Some f)
      | None => tier1_hint_loop naceCode countryCode rest
      end
  end.

(** Tier 1: exact match (country + NACE + product). *)
Definition getEmissionFactorTier1 (naceCode countryCode : string)
    (productHints : option (list string)) : M (option EmissionFactor) :=
  returned <- match productHints with
              | Some ((_ :: _) as hints) => tier1_hint_loop naceCode countryCode hints
              | _ => ret None
              end ;;
  match returned with
  | Some f => ret (Some f)
  | None =>
      await (findEmissionFactor db (tier1_query naceCode countryCode None))
            (FindEmissionFactor (tier1_query naceCode countryCode None))
  end.

(** [factors.reduce((sum, f) => sum + f.emission_factor_kgco2e_per_eur, 0)
     / factors.length] *)
Definition avgEmissionFactor (factors : list EmissionFactor) : Js.number :=
  (fold_left (fun sum f => sum + emission_factor_kgco2e_per_eur f) factors 0
   / Js.number_of_nat (List.length factors))%float.

(** The synthetic factor of tier 2: the first row with the averaged
    intensity and the fields the source overwrites. *)
Definition countryAverage (first : EmissionFactor) (factors : list EmissionFactor)
  : EmissionFactor :=
  {| id := id first;
     nace_code := nace_code first;
     category := category first;
     subcategory := subcategory first;
     exiobase_product_code := None;
     exiobase_product_name :=
       Some ("Country Average (" ++ Js.string_of_nat (List.length factors)
               ++ " products)");
     country_code := country_code first;
     country_name := country_name first;
     emission_factor_kgco2e_per_eur := avgEmissionFactor factors;
     emission_factor_kgco2e_per_unit := emission_factor_kgco2e_per_unit first;
     physical_unit := physical_unit first;
     scope := scope first;
     region := region first;
     data_source := data_source first;
     source_year := source_year first;
     confidence_level := Some medium;
     total_output_eur := total_output_eur first;
     num_countries := num_countries first;
     metadata :=
       Some (meta_set "fallback_reason"
               (MetaString "No exact product match, using country average")
            (meta_set "num_products_averaged"
               (MetaNumber (Js.number_of_nat (List.length factors)))
            (meta_set "tier" (MetaNumber 2%float)
            (meta_spread (metadata first)))));
     is_active := is_active first;
     created_at := created_at first;
     updated_at := updated_at first |}.

(** Tier 2: country average (country + NACE, averaged across products). *)
Definition getEmissionFactorTier2 (naceCode countryCode : string)
  : M (option EmissionFactor) :=
  factors <- await (findEmissionFactors db (tier2_query naceCode countryCode))
                   (FindEmissionFactors (tier2_query naceCode countryCode)) ;;
  match factors with
  | None | Some [] => ret None
  | Some ((first :: _) as factors) => ret (Some (countryAverage first factors))
  end.

(** The synthetic factor of tier 3. *)
Definition euAverage (first : EmissionFactor) (factors : list EmissionFactor)
  : EmissionFactor :=
  {| id := id first;
     nace_code := nace_code first;
     category := category first;
     subcategory := subcategory first;
     exiobase_product_code := None;
     exiobase_product_name :=
       Some ("EU Average (" ++ Js.string_of_nat (List.length factors)
               ++ " factors)");
     country_code := Some "EU";
     country_name := Some "European Union (Average)";
     emission_factor_kgco2e_per_eur := avgEmissionFactor factors;
     emission_factor_kgco2e_per_unit := emission_factor_kgco2e_per_unit first;
     physical_unit := physical_unit first;
     scope := scope first;
     region := region first;
     data_source := data_source first;
     source_year := source_year first;
     confidence_level := Some medium;
     total_output_eur := total_output_eur first;
     num_countries := num_countries first;
     metadata :=
       Some (meta_set "fallback_reason"
               (MetaString "No country-specific data, using EU average")
            (meta_set "num_factors_averaged"
               (MetaNumber (Js.number_of_nat (List.length factors)))
            (meta_set "tier" (MetaNumber 3%float)
            (meta_spread (metadata first)))));
     is_active := is_active first;
     created_at := created_at first;
     updated_at := updated_at first |}.

(** Tier 3: EU average (NACE only, averaged across EU countries). *)
Definition getEmissionFactorTier3 (naceCode : string) : M (option EmissionFactor) :=
  factors <- await (findEmissionFactors db (tier3_query naceCode))
                   (FindEmissionFactors (tier3_query naceCode)) ;;
  match factors with
  | None | Some [] => ret None
  | Some ((first :: _) as factors) => ret (Some (euAverage first factors))
  end.

(** The synthetic factor of tier 4. *)
Definition sectorAverage (naceCode : string) (naceFactors : NACEEmissionFactor)
  : EmissionFactor :=
  {| id := nef_id naceFactors;
     nace_code := Some (nef_nace_code naceFactors);
     category := Js.or_string (nace_description naceFactors)
                   ("NACE " ++ naceCode);
     subcategory := None;
     exiobase_product_code := None;
     exiobase_product_name := Some "Sector Average";
     country_code := Some "XX";
     country_name := Some "Global Average";
     emission_factor_kgco2e_per_eur :=
       Js.or_number_opt (scope_3_factor naceFactors) 0%float;
     emission_factor_kgco2e_per_unit := None;
     physical_unit := None;
     scope := Some scope3;
     region := None;
     data_source :=
       Some (Js.or_string (nef_source naceFactors) "EXIOBASE_AGGREGATED");
     source_year := None;
     confidence_level := Some low;
     total_output_eur := None;
     num_countries := None;
     metadata :=
       Some [("tier", MetaNumber 4%float);
             ("fallback_reason",
              MetaString "No detailed data available, using global sector average")];
     is_active := None;
     created_at := None;
     updated_at := None |}.

(** Tier 4: sector average (global fallback). *)
Definition getEmissionFactorTier4 (naceCode : string) : M (option EmissionFactor) :=
  naceFactors <- await (findNACEEmissionFactor db naceCode)
                       (FindNACEEmissionFactor naceCode) ;;
  match naceFactors with
  | None => ret None
  | Some naceFactors => ret (Some (sectorAverage naceCode naceFactors))
  end.

(** What the tier resolver returns. *)
Record Resolution := {
  res_factor : option EmissionFactor;
  res_tier : option Tier;
  res_reasoning : string
}.

(** [productHints?.length ? ` + ${productHints[0]}` : ''] *)
Definition productInfo (productHints : option (list string)) : string :=
  match productHints with
  | Some (h :: _) => " + " ++ h
  | _ => ""
  end.

(** Get emission factor with tier fallback.  [Some r] out of the
    country block is a [return r] from inside it. *)
Definition getEmissionFactorWithFallback (naceCode : string)
    (config : MatcherConfig) (countryCode : option string)
    (productHints : option (list string)) : M Resolution :=
  returned <-
    match countryCode with
    | Some cc =>
        if Js.truthy_string cc then
          (* Tier 1: exact match *)
          tier1 <- getEmissionFactorTier1 naceCode cc productHints ;;
          match tier1 with
          | Some f =>
              ret (Some {| res_factor := Some f;
                           res_tier := Some Tier1;
                           res_reasoning :=
                             "Exact match: " ++ cc ++ " + NACE " ++ naceCode
                               ++ productInfo productHints |})
          | None =>
              (* Tier 2: country average *)
              tier2 <- getEmissionFactorTier2 naceCode cc ;;
              match tier2 with
              | Some f =>
                  ret (Some {| res_factor := Some f;
                               res_tier := Some Tier2;
                               res_reasoning :=
                                 "Country average for " ++ cc ++ " + NACE " ++ naceCode
                                   ++ " (product-averaged)" |})
              | None => ret None
              end
          end
        else ret None
    | None => ret None
    end ;;
  match returned with
  | Some r => ret r
  | None =>
      (* Tier 3: EU average *)
      tier3 <- getEmissionFactorTier3 naceCode ;;
      match tier3 with
      | Some f =>
          ret {| res_factor := Some f;
                 res_tier := Some Tier3;
                 res_reasoning :=
                   "EU average for NACE " ++ naceCode
                     ++ " (country-averaged across EU)" |}
      | None =>
          (* Tier 4: sector average *)
          tier4 <- getEmissionFactorTier4 naceCode ;;
          match tier4 with
          | Some f =>
              ret {| res_factor := Some f;
                     res_tier := Some Tier4;
                     res_reasoning := "Global sector average for NACE " ++ naceCode |}
          | None =>
              ret {| res_factor := None;
                     res_tier := None;
                     res_reasoning := "No emission factor found for NACE " ++ naceCode |}
          end
      end
  end.

(* ---------------------------------------------------------------- *)
(** ** Matching strategies *)

(** Strategy 1: VAT-based matching.  Returns [(naceCode, countryCode)]. *)
Definition matchByVAT (transaction : Transaction) (config : MatcherConfig)
  : M (option string * option string) :=
  match vat_number transaction with
  | None => ret (None, None)
  | Some vat =>
      if negb (Js.truthy_string vat) then ret (None, None)
      else
        (* Extract country from VAT *)
        let countryCode := getCountryFromVAT vat in
        (* Look up NACE from VAT cache *)
        returned <-
          (if cacheVAT config then
             cached <- await (getVATCache db vat) (GetVATCache vat) ;;
             match cached with
             | Some c =>
                 if is_valid c
                 then ret (Some (vc_nace_code c,
                                 Js.or_else countryCode (vc_country_code c)))
                 else ret None
             | None => ret None
             end
           else ret None) ;;
        match returned with
        | Some r => ret r
        | None => ret (None, countryCode)
        end
  end.

(** Strategy 2: account code mapping.  Returns
    [(naceCode, emissionFactorId)]. *)
Definition matchByAccountCode (transaction : Transaction)
    (companyId : option string) : M (option string * option string) :=
  match account_code transaction, companyId with
  | Some account, Some company =>
      if negb (Js.truthy_string account) || negb (Js.truthy_string company)
      then ret (None, None)
      else
        mapping <- await (getAccountMapping db company account)
                         (GetAccountMapping company account) ;;
        match mapping with
        | None => ret (None, None)
        | Some m => ret (ecm_nace_code m, emission_factor_id m)
        end
  | _, _ => ret (None, None)
  end.

(** Strategy 3: supplier name lookup. *)
Definition matchBySupplierName (transaction : Transaction)
    (config : MatcherConfig) : M (option string) :=
  if negb (Js.truthy_string (supplier_name transaction)) then ret None
  else
    let normalized := normalizeSupplierName (supplier_name transaction) in
    mapping <- await (getSupplierMapping db normalized)
                     (GetSupplierMapping normalized) ;;
    match mapping with
    | None => ret None
    | Some m =>
        (* Increment usage counter (learning system) *)
        _ <- (if enableLearning config && Js.truthy_string (snm_id m)
              then await (incrementSupplierUsage db (snm_id m))
                         (IncrementSupplierUsage (snm_id m))
              else ret tt) ;;
        ret (Some (snm_nace_code m))
    end.

(* ---------------------------------------------------------------- *)
(** ** Main matching function *)

(** [tier === 1] *)
Definition is_tier1 (tier : option Tier) : bool :=
  match tier with
  | Some Tier1 => true
  | _ => false
  end.

(** [tier === 1 ? 0 : config.tierAdjustments[`tier${tier}`] || 0];
    the table has no entry for a null tier. *)
Definition tierAdjustment (config : MatcherConfig) (tier : option Tier)
  : Js.number :=
  match tier with
  | Some Tier1 => 0%float
  | Some Tier2 => Js.or_number (tierAdjustments_tier2 config) 0%float
  | Some Tier3 => Js.or_number (tierAdjustments_tier3 config) 0%float
  | Some Tier4 => Js.or_number (tierAdjustments_tier4 config) 0%float
  | None => 0%float
  end.

(** [Math.max(0, Math.min(1, x))] *)
Definition clamp01 (x : Js.number) : Js.number :=
  Js.max 0%float (Js.min 1%float x).

(** [countryCode || null] *)
Definition or_null (countryCode : option string) : option string :=
  Js.or_else countryCode None.

(** A truthy nullable string, as the string it holds. *)
Definition truthy_value (o : option string) : option string :=
  match o with
  | Some s => if Js.truthy_string s then Some s else None
  | None => None
  end.

Definition NO_MATCH : MatchResult :=
  {| emissionFactor := None;
     naceCode := None;
     countryCode := None;
     productCode := None;
     confidence := 0%float;
     tier := None;
     method := none;
     reasoning := "No automatic match found. Manual assignment required.";
     fallbackApplied := false |}.

(** [if (!countryCode && vatCountry) countryCode = vatCountry;] as the
    value [countryCode] has afterwards. *)
Definition adoptVatCountry (countryCode vatCountry : option string)
  : option string :=
  if negb (Js.truthy countryCode) && Js.truthy vatCountry
  then vatCountry else countryCode.

(** Strategy 1 of [matchTransaction].  It leaves the country code it
    settled on, and [Some result] when it returned one. *)
Definition strategy_vat (transaction : Transaction) (config : MatcherConfig)
    (productHints : list string) (countryCode : option string)
  : M (option string * option MatchResult) :=
  if Js.truthy (vat_number transaction) then
    '(naceCode, vatCountry) <- matchByVAT transaction config ;;
    let countryCode := adoptVatCountry countryCode vatCountry in
    match truthy_value naceCode with
    | Some naceCode =>
        r <- getEmissionFactorWithFallback naceCode config countryCode
               (Some productHints) ;;
        match res_factor r with
        | Some factor =>
            let baseConfidence := methodConfidence_vat_lookup config in
            let tierAdjustment := tierAdjustment config (res_tier r) in
            let confidence := clamp01 (baseConfidence + tierAdjustment)%float in
            ret (countryCode,
                 Some {| emissionFactor := Some factor;
                         naceCode := Some naceCode;
                         countryCode := or_null countryCode;
                         productCode := exiobase_product_code factor;
                         confidence := confidence;
                         tier := res_tier r;
                         method := vat_lookup;
                         reasoning := "VAT lookup → " ++ res_reasoning r;
                         fallbackApplied := negb (is_tier1 (res_tier r)) |})
        | None => ret (countryCode, None)
        end
    | None => ret (countryCode, None)
    end
  else ret (countryCode, None).

(** Strategy 2 of [matchTransaction]. *)
Definition strategy_account (transaction : Transaction)
    (companyId : option string) (config : MatcherConfig)
    (productHints : list string) (countryCode : option string)
  : M (option MatchResult) :=
  if Js.truthy (account_code transaction) && Js.truthy companyId then
    '(naceCode, emissionFactorId) <- matchByAccountCode transaction companyId ;;
    returned <-
      match truthy_value emissionFactorId with
      | Some emissionFactorId =>
          factor <- await (getEmissionFactorById db emissionFactorId)
                          (GetEmissionFactorById emissionFactorId) ;;
          match factor with
          | Some factor =>
              ret (Some {| emissionFactor := Some factor;
                           naceCode := naceCode;
                           countryCode := country_code factor;
                           productCode := exiobase_product_code factor;
                           confidence := methodConfidence_account_mapping config;
                           tier := Some Tier1;
                           method := account_mapping;
                           reasoning :=
                             "Account code "
                               ++ Js.or_string (account_code transaction) ""
                               ++ " → Pre-mapped emission factor";
                           fallbackApplied := false |})
          | None => ret None
          end
      | None => ret None
      end ;;
    match returned with
    | Some result => ret (Some result)
    | None =>
        match truthy_value naceCode with
        | Some naceCode =>
            r <- getEmissionFactorWithFallback naceCode config countryCode
                   (Some productHints) ;;
            match res_factor r with
            | Some factor =>
                let baseConfidence := methodConfidence_account_mapping config in
                let tierAdjustment := tierAdjustment config (res_tier r) in
                let confidence := clamp01 (baseConfidence + tierAdjustment)%float in
                ret (Some {| emissionFactor := Some factor;
                             naceCode := Some naceCode;
                             countryCode := or_null countryCode;
                             productCode := exiobase_product_code factor;
                             confidence := confidence;
                             tier := res_tier r;
                             method := account_mapping;
                             reasoning :=
                               "Account code "
                                 ++ Js.or_string (account_code transaction) ""
                                 ++ " → " ++ res_reasoning r;
                             fallbackApplied := negb (is_tier1 (res_tier r)) |})
            | None => ret None
            end
        | None => ret None
        end
    end
  else ret None.

(** Strategy 3 of [matchTransaction]. *)
Definition strategy_supplier (transaction : Transaction)
    (config : MatcherConfig)
    (productHints : list string) (countryCode : option string)
  : M (option MatchResult) :=
  naceCode <- matchBySupplierName transaction config ;;
  match truthy_value naceCode with
  | Some naceCode =>
      r <- getEmissionFactorWithFallback naceCode config countryCode
             (Some productHints) ;;
      match res_factor r with
      | Some factor =>
          let baseConfidence := methodConfidence_supplier_mapping config in
          let tierAdjustment := tierAdjustment config (res_tier r) in
          let confidence := clamp01 (baseConfidence + tierAdjustment)%float in
          ret (Some {| emissionFactor := Some factor;
                       naceCode := Some naceCode;
                       countryCode := or_null countryCode;
                       productCode := exiobase_product_code factor;
                       confidence := confidence;
                       tier := res_tier r;
                       method := supplier_mapping;
                       reasoning := "Supplier name → " ++ res_reasoning r;
                       fallbackApplied := negb (is_tier1 (res_tier r)) |})
      | None => ret None
      end
  | None => ret None
  end.

(** Match a transaction to an emission factor.  The three blocks of
    the source are the three strategies above, each left by its
    [return] as soon as it has a result. *)
Definition matchTransaction (transaction : Transaction)
    (companyId : option string) (config : MatcherConfig) : M MatchResult :=
  let productHints := extractProductHints (description transaction) in
  let countryCode := supplier_country transaction in
  (* Strategy 1: VAT-based matching (highest confidence) *)
  '(countryCode, returned) <-
     strategy_vat transaction config productHints countryCode ;;
  match returned with
  | Some result => ret result
  | None =>
      (* Strategy 2: account code mapping *)
      returned <- strategy_account transaction companyId config
                    productHints countryCode ;;
      match returned with
      | Some result => ret result
      | None =>
          (* Strategy 3: supplier name lookup *)
          returned <- strategy_supplier transaction config
                        productHints countryCode ;;
          match returned with
          | Some result => ret result
          | None => ret NO_MATCH  (* No match found *)
          end
      end
  end.

(* ---------------------------------------------------------------- *)
(** ** Reading the record of calls *)

(** What a settled promise was rejected with, if it was. *)
Definition outcome_error {A} (o : Outcome A) : option Err :=
  match o with
  | Resolved _ => None
  | Rejected e => Some e
  end.

Definition rejection (c : Call) : option Err :=
  match c with
  | FindEmissionFactor _ r => outcome_error r
  | FindEmissionFactors _ r => outcome_error r
  | GetEmissionFactorById _ r => outcome_error r
  | FindNACEEmissionFactor _ r => outcome_error r
  | GetVATCache _ r => outcome_error r
  | GetAccountMapping _ _ r => outcome_error r
  | GetSupplierMapping _ r => outcome_error r
  | IncrementSupplierUsage _ r => outcome_error r
  end.

(** No call of the record was rejected. *)
Definition quiet (t : list Call) : Prop :=
  forall c, In c t -> rejection c = None.

(** A call that only the account-code or the supplier-name strategy
    makes. *)
Definition later_strategy_call (c : Call) : bool :=
  match c with
  | GetAccountMapping _ _ _ | GetEmissionFactorById _ _
  | GetSupplierMapping _ _ | IncrementSupplierUsage _ _ => true
  | _ => false
  end.

(** The single country a factor query asks for, if it asks for one. *)
Definition query_country (c : Call) : option string :=
  match c with
  | FindEmissionFactor q _ => q_country_code q
  | FindEmissionFactors q _ => q_country_code q
  | _ => None
  end.

(** The product hints of the tier-1 queries, in the order they are
    made: one per hint, then the query without a hint. *)
Definition tier1_hints (productHints : option (list string)) : list (option string) :=
  (map Some (match productHints with Some l => l | None => [] end) ++ [None])%list.

Definition tier1_miss (naceCode countryCode : string) (hint : option string) : Call :=
  FindEmissionFactor (tier1_query naceCode countryCode hint) (Resolved None).

Definition tier1_hit (naceCode countryCode : string) (hint : option string)
    (f : EmissionFactor) : Call :=
  FindEmissionFactor (tier1_query naceCode countryCode hint) (Resolved (Some f)).

(** An answer to an aggregate query that holds no row. *)
Definition no_rows (r : option (list EmissionFactor)) : bool :=
  match r with
  | Some (_ :: _) => false
  | _ => true
  end.

(** Tier 1 found [f]: the queries before the one that found it all
    returned null, and none was made after it. *)
Definition tier1_found (naceCode countryCode : string)
    (productHints : option (list string)) (f : EmissionFactor)
    (t : list Call) : Prop :=
  exists before hint after,
    tier1_hints productHints = (before ++ hint :: after)%list /\
    t = (map (tier1_miss naceCode countryCode) before
           ++ [tier1_hit naceCode countryCode hint f])%list.

(** Tier 1 missed: every query, per hint then without hint, returned
    null. *)
Definition tier1_missed (naceCode countryCode : string)
    (productHints : option (list string)) (t : list Call) : Prop :=
  t = map (tier1_miss naceCode countryCode) (tier1_hints productHints).

Definition tier2_found (naceCode countryCode : string) (f : EmissionFactor)
    (t : list Call) : Prop :=
  exists first rest,
    t = [FindEmissionFactors (tier2_query naceCode countryCode)
           (Resolved (Some (first :: rest)))] /\
    f = countryAverage first (first :: rest).

Definition tier2_missed (naceCode countryCode : string) (t : list Call) : Prop :=
  exists r, no_rows r = true /\
    t = [FindEmissionFactors (tier2_query naceCode countryCode) (Resolved r)].

Definition tier3_found (naceCode : string) (f : EmissionFactor)
    (t : list Call) : Prop :=
  exists first rest,
    t = [FindEmissionFactors (tier3_query naceCode)
           (Resolved (Some (first :: rest)))] /\
    f = euAverage first (first :: rest).

Definition tier3_missed (naceCode : string) (t : list Call) : Prop :=
  exists r, no_rows r = true /\
    t = [FindEmissionFactors (tier3_query naceCode) (Resolved r)].

Definition tier4_found (naceCode : string) (f : EmissionFactor)
    (t : list Call) : Prop :=
  exists row,
    t = [FindNACEEmissionFactor naceCode (Resolved (Some row))] /\
    f = sectorAverage naceCode row.

Definition tier4_missed (naceCode : string) (t : list Call) : Prop :=
  t = [FindNACEEmissionFactor naceCode (Resolved None)].

(** Tiers 1 and 2 did not produce a factor: the country is unknown and
    neither was attempted, or both were attempted, in order, and
    missed. *)
Definition country_tiers_missed (naceCode : string) (countryCode : option string)
    (productHints : option (list string)) (t : list Call) : Prop :=
  match truthy_value countryCode with
  | None => t = []
  | Some cc =>
      exists t1 t2, t = (t1 ++ t2)%list /\
        tier1_missed naceCode cc productHints t1 /\
        tier2_missed naceCode cc t2
  end.

(** The record of calls behind each answer of the tier resolver. *)
Definition resolution_record (naceCode : string) (countryCode : option string)
    (productHints : option (list string)) (r : Resolution) (t : list Call) : Prop :=
  match res_tier r with
  | Some Tier1 =>
      exists cc f, truthy_value countryCode = Some cc /\
        res_factor r = Some f /\
        tier1_found naceCode cc productHints f t
  | Some Tier2 =>
      exists cc f t1 t2, truthy_value countryCode = Some cc /\
        res_factor r = Some f /\
        t = (t1 ++ t2)%list /\
        tier1_missed naceCode cc productHints t1 /\
        tier2_found naceCode cc f t2
  | Some Tier3 =>
      exists f t12 t3,
        res_factor r = Some f /\
        t = (t12 ++ t3)%list /\
        country_tiers_missed naceCode countryCode productHints t12 /\
        tier3_found naceCode f t3
  | Some Tier4 =>
      exists f t12 t3 t4,
        res_factor r = Some f /\
        t = (t12 ++ t3 ++ t4)%list /\
        country_tiers_missed naceCode countryCode productHints t12 /\
        tier3_missed naceCode t3 /\
        tier4_found naceCode f t4
  | None =>
      exists t12 t3 t4,
        res_factor r = None /\
        t = (t12 ++ t3 ++ t4)%list /\
        country_tiers_missed naceCode countryCode productHints t12 /\
        tier3_missed naceCode t3 /\
        tier4_missed naceCode t4
  end.

(** How a computation may settle, given the calls it made: resolved
    only if no call was rejected, and rejected only with what its last
    call was rejected with, every call before that one having resolved. *)
Definition settled {A} (o : Outcome A) (t : list Call) : Prop :=
  match o with
  | Resolved _ => quiet t
  | Rejected e =>
      exists t0 c, t = (t0 ++ [c])%list /\ quiet t0 /\ rejection c = Some e
  end.

(** A computation that rejects exactly when the repository does. *)
Definition Faithful {A} (m : M A) : Prop :=
  forall s, match m s with (o, _, t) => settled o t end.

(** Run from the state [s], every call [m] makes satisfies [P], and a
    value it resolves with satisfies [Q]. *)
Definition ensures_from {A} (s : State) (m : M A)
    (P : Call -> Prop) (Q : A -> Prop) : Prop :=
  match m s with
  | (o, _, t) =>
      (forall c, In c t -> P c) /\
      match o with
      | Resolved a => Q a
      | Rejected _ => True
      end
  end.

(** The same from every state. *)
Definition ensures {A} (m : M A) (P : Call -> Prop) (Q : A -> Prop) : Prop :=
  forall s, ensures_from s m P Q.

(** A call that, if it asks for a single country, asks for the truthy
    [countryCode]. *)
Definition asks_for (countryCode : option string) (c : Call) : Prop :=
  forall cc, query_country c = Some cc -> truthy_value countryCode = Some cc.

(* ---------------------------------------------------------------- *)
(** ** The country given to the tier resolver *)

(** A call of a strategy's own lookup, as opposed to a factor query of
    the tiers. *)
Definition lookup_call (c : Call) : bool :=
  match c with
  | GetVATCache _ _ | GetAccountMapping _ _ _ | GetEmissionFactorById _ _
  | GetSupplierMapping _ _ | IncrementSupplierUsage _ _ => true
  | _ => false
  end.

(** A record made of lookups and of runs of the tier resolver, every
    run one for [country]. *)
Inductive resolutions_with (config : MatcherConfig) (country : option string)
    (productHints : option (list string)) : list Call -> Prop :=
| rw_nil : resolutions_with config country productHints []
| rw_lookup c t :
    lookup_call c = true ->
    resolutions_with config country productHints t ->
    resolutions_with config country productHints (c :: t)
| rw_resolution n s o s' t1 t :
    getEmissionFactorWithFallback n config country productHints s = (o, s', t1) ->
    resolutions_with config country productHints t ->
    resolutions_with config country productHints (t1 ++ t)%list.

(** Every record of [m] is one of lookups and of resolutions for
    [country]. *)
Definition segmented {A} (config : MatcherConfig) (country : option string)
    (productHints : option (list string)) (m : M A) : Prop :=
  forall s,
    match m s with
    | (_, _, t) => resolutions_with config country productHints t
    end.

(** After the calls [before], which left the state [s1], the run of
    [matchTransaction] from [s] goes on with the tier resolver for [n]
    and [country]: the resolver's calls come next, its rejection is the
    run's, and a factor it finds is the result, under that country. *)
Definition resolves_next (transaction : Transaction) (companyId : option string)
    (config : MatcherConfig) (s : State) (country : option string)
    (before : list Call) (s1 : State) (n : string) : Prop :=
  match getEmissionFactorWithFallback n config country
          (Some (extractProductHints (description transaction))) s1,
        matchTransaction transaction companyId config s with
  | (o1, s2, t1), (o, s', t) =>
      (exists after, t = (before ++ t1 ++ after)%list)
      /\ (forall e, o1 = Rejected e ->
            o = Rejected e /\ s' = s2 /\ t = (before ++ t1)%list)
      /\ (forall r f, o1 = Resolved r -> res_factor r = Some f ->
            s' = s2 /\ t = (before ++ t1)%list
            /\ exists result,
                 o = Resolved result
                 /\ emissionFactor result = Some f
                 /\ naceCode result = Some n
                 /\ countryCode result = truthy_value country
                 /\ tier result = res_tier r)
  end.

(** The run of [matchTransaction] from [s], in which the VAT strategy's
    lookup returned the NACE code [vatNace] after the calls [t1], which
    left the state [s1], gives [country] to the tier resolver.  Every
    run of the resolver in it is one for [country], and a query that
    names a country names that one; and the resolver is run for
    [country] on the NACE code of the VAT strategy, and when there is
    none on that of the account mapping and on that of the supplier
    mapping. *)
Definition passes_country (transaction : Transaction) (companyId : option string)
    (config : MatcherConfig) (s : State) (vatNace : option string)
    (s1 : State) (t1 : list Call) (country : option string) : Prop :=
  (match matchTransaction transaction companyId config s with
   | (_, _, t) =>
       resolutions_with config country
         (Some (extractProductHints (description transaction))) t
       /\ (forall call cc, In call t -> query_country call = Some cc ->
                           truthy_value country = Some cc)
   end)
  /\ (forall n, truthy_value vatNace = Some n ->
        resolves_next transaction companyId config s country t1 s1 n)
  /\ (truthy_value vatNace = None ->
      Js.truthy (account_code transaction) && Js.truthy companyId = true ->
      forall accountNace emissionFactorId s2 t2 n,
        matchByAccountCode transaction companyId s1
          = (Resolved (accountNace, emissionFactorId), s2, t2) ->
        truthy_value emissionFactorId = None ->
        truthy_value accountNace = Some n ->
        resolves_next transaction companyId config s country (t1 ++ t2)%list s2 n)
  /\ (truthy_value vatNace = None ->
      Js.truthy (account_code transaction) && Js.truthy companyId = false ->
      forall supplierNace s2 t2 n,
        matchBySupplierName transaction config s1
          = (Resolved supplierNace, s2, t2) ->
        truthy_value supplierNace = Some n ->
        resolves_next transaction companyId config s country (t1 ++ t2)%list s2 n).

(* ---------------------------------------------------------------- *)
(** ** Batch matching *)

(** The [for (const transaction of transactions)] loop, from the
    results gathered so far. *)
Fixpoint batch_loop (transactions : list Transaction) (companyId : option string)
    (config : MatcherConfig) (results : JsMap MatchResult)
  : M (JsMap MatchResult) :=
  match transactions with
  | [] => ret results
  | transaction :: rest =>
      result <- matchTransaction transaction companyId config ;;
      batch_loop rest companyId config (map_set (tx_id transaction) result results)
  end.

(** Batch match multiple transactions. *)
Definition batchMatchTransactions (transactions : list Transaction)
    (companyId : option string) (config : MatcherConfig)
  : M (JsMap MatchResult) :=
  batch_loop transactions companyId config [].

(** From every state, [m] makes at most [n] calls. *)
Definition at_most {A} (n : nat) (m : M A) : Prop :=
  forall s, match m s with (_, _, t) => (List.length t <= n)%nat end.

End Matcher.

Arguments Resolved {Err A} a.
Arguments Rejected {Err A} e.
Arguments findEmissionFactor {State Err} _ _ _.
Arguments findEmissionFactors {State Err} _ _ _.
Arguments getEmissionFactorById {State Err} _ _ _.
Arguments findNACEEmissionFactor {State Err} _ _ _.
Arguments getVATCache {State Err} _ _ _.
Arguments getAccountMapping {State Err} _ _ _ _.
Arguments getSupplierMapping {State Err} _ _ _.
Arguments incrementSupplierUsage {State Err} _ _ _.
Arguments ret {State Err A} a _.
Arguments bind {State Err A B} m k _.
Arguments await {State Err A} op log _.
Arguments tier1_hint_loop {State Err} db naceCode countryCode hints _.
Arguments getEmissionFactorTier1 {State Err} db naceCode countryCode productHints _.
Arguments getEmissionFactorTier2 {State Err} db naceCode countryCode _.
Arguments getEmissionFactorTier3 {State Err} db naceCode _.
Arguments getEmissionFactorTier4 {State Err} db naceCode _.
Arguments getEmissionFactorWithFallback {State Err} db naceCode config countryCode productHints _.
Arguments matchByVAT {State Err} db transaction config _.
Arguments matchByAccountCode {State Err} db transaction companyId _.
Arguments matchBySupplierName {State Err} db transaction config _.
Arguments strategy_vat {State Err} db transaction config productHints countryCode _.
Arguments strategy_account {State Err} db transaction companyId config productHints countryCode _.
Arguments strategy_supplier {State Err} db transaction config productHints countryCode _.
Arguments matchTransaction {State Err} db transaction companyId config _.
Arguments batch_loop {State Err} db transactions companyId config results _.
Arguments batchMatchTransactions {State Err} db transactions companyId config _.
Arguments at_most {State Err A} n m.
Arguments outcome_error {Err A} o.
Arguments rejection {Err} c.
Arguments quiet {Err} t.
Arguments later_strategy_call {Err} c.
Arguments query_country {Err} c.
Arguments tier1_miss {Err} naceCode countryCode hint.
Arguments tier1_hit {Err} naceCode countryCode hint f.
Arguments tier1_found {Err} naceCode countryCode productHints f t.
Arguments tier1_missed {Err} naceCode countryCode productHints t.
Arguments tier2_found {Err} naceCode countryCode f t.
Arguments tier2_missed {Err} naceCode countryCode t.
Arguments tier3_found {Err} naceCode f t.
Arguments tier3_missed {Err} naceCode t.
Arguments tier4_found {Err} naceCode f t.
Arguments tier4_missed {Err} naceCode t.
Arguments country_tiers_missed {Err} naceCode countryCode productHints t.
Arguments resolution_record {Err} naceCode countryCode productHints r t.
Arguments settled {Err A} o t.
Arguments Faithful {State Err A} m.
Arguments ensures_from {State Err A} s m P Q.
Arguments ensures {State Err A} m P Q.
Arguments asks_for {Err} countryCode c.
Arguments lookup_call {Err} c.
Arguments resolutions_with {State Err} db config country productHints _.
Arguments segmented {State Err} db {A} config country productHints m.
Arguments resolves_next {State Err} db transaction companyId config s country before s1 n.
Arguments passes_country {State Err} db transaction companyId config s vatNace s1 t1 country.
Arguments FindEmissionFactor {Err} q r.
Arguments FindEmissionFactors {Err} q r.
Arguments GetEmissionFactorById {Err} i r.
Arguments FindNACEEmissionFactor {Err} n r.
Arguments GetVATCache {Err} v r.
Arguments GetAccountMapping {Err} c a r.
Arguments GetSupplierMapping {Err} n r.
Arguments IncrementSupplierUsage {Err} i r.

(* ================================================================== *)
(** ** An in-memory repository

    A test double for the adapter: tables held in memory, a counter of
    usage increments as its state, and a switch that makes the VAT cache
    unreachable. *)

Record Tables := {
  factor_rows : list EmissionFactor;
  nace_rows : list NACEEmissionFactor;
  vat_rows : list VATCache;
  account_rows : list (string * string * EmissionCategoryMapping);
  supplier_rows : list (string * SupplierNACEMapping);
  vat_cache_down : bool
}.

Definition opt_string_eqb (a b : option string) : bool :=
  match a, b with
  | Some x, Some y => String.eqb x y
  | None, None => true
  | _, _ => false
  end.

(** Does a row answer a query?  An absent criterion does not filter; the
    product hint is looked for in the product name. *)
Definition row_matches (q : EmissionFactorQuery) (f : EmissionFactor) : bool :=
  match q_nace_code q with
  | Some _ => opt_string_eqb (q_nace_code q) (nace_code f)
  | None => true
  end &&
  match q_country_code q with
  | Some _ => opt_string_eqb (q_country_code q) (country_code f)
  | None => true
  end &&
  match q_country_codes q with
  | Some cs => existsb (fun c => opt_string_eqb (Some c) (country_code f)) cs
  | None => true
  end &&
  match q_product_hint q with
  | Some h => Js.includes (Js.toLowerCase (Js.or_string (exiobase_product_name f) "")) h
  | None => true
  end.

Definition memory_db (T : Tables) : DatabaseAdapter nat string := {|
  findEmissionFactor q s :=
    (Resolved (find (row_matches q) (factor_rows T)), s);
  findEmissionFactors q s :=
    (Resolved (Some (filter (row_matches q) (factor_rows T))), s);
  getEmissionFactorById i s :=
    (Resolved (find (fun f => String.eqb (id f) i) (factor_rows T)), s);
  findNACEEmissionFactor n s :=
    (Resolved (find (fun r => String.eqb (nef_nace_code r) n) (nace_rows T)), s);
  getVATCache v s :=
    if vat_cache_down T then (Rejected "VAT cache unreachable", s)
    else (Resolved (find (fun r => String.eqb (vc_vat_number r) v) (vat_rows T)), s);
  getAccountMapping c a s :=
    (Resolved
       (option_map snd
          (find (fun r => String.eqb (fst (fst r)) c && String.eqb (snd (fst r)) a)
                (account_rows T))), s);
  getSupplierMapping n s :=
    (Resolved (option_map snd (find (fun r => String.eqb (fst r) n) (supplier_rows T))), s);
  incrementSupplierUsage _ s := (Resolved tt, S s)
|}.

Definition product_row (i nace product_code product_name country : string)
    (kgco2e_per_eur : Js.number) : EmissionFactor :=
  {| id := i;
     nace_code := Some nace;
     category := "Energy";
     subcategory := Some product_name;
     exiobase_product_code := Some product_code;
     exiobase_product_name := Some product_name;
     country_code := Some country;
     country_name := None;
     emission_factor_kgco2e_per_eur := kgco2e_per_eur;
     emission_factor_kgco2e_per_unit := None;
     physical_unit := None;
     scope := Some scope3;
     region := None;
     data_source := Some "EXIOBASE";
     source_year := None;
     confidence_level := Some high;
     total_output_eur := None;
     num_countries := None;
     metadata := None;
     is_active := Some true;
     created_at := None;
     updated_at := None |}.

Definition sample_transaction : Transaction :=
  {| tx_id := "txn_001";
     supplier_name := "Vattenfall AB";
     vat_number := Some "SE556036-2138";
     account_code := Some "5910";
     amount := 25000%float;
     currency := Some "SEK";
     description := Some "Monthly electricity - wind power";
     supplier_country := None;
     tx_date := None;
     tx_category := None |}.

Definition sample_tables : Tables :=
  {| factor_rows :=
       [product_row "ef-1" "35.11" "p40.11.e" "Electricity by wind" "SE" 0.012%float;
        product_row "ef-2" "35.11" "p40.11.a" "Electricity by coal" "PL" 0.95%float];
     nace_rows :=
       [{| nef_id := "nace-35.11"; nef_nace_code := "35.11";
           nace_description := Some "Production of electricity";
           scope_3_factor := Some 0.4%float; nef_source := None |}];
     vat_rows :=
       [{| vc_vat_number := "SE556036-2138"; vc_country_code := Some "SE";
           vc_nace_code := Some "35.11"; is_valid := true |}];
     account_rows :=
       [("acme", "5910",
         {| ecm_nace_code := Some "35.11"; emission_factor_id := Some "ef-2" |})];
     supplier_rows :=
       [("vattenfall", {| snm_id := "sup-1"; snm_nace_code := "35.11" |})];
     vat_cache_down := false |}.


(* ================================================================== *)
(** ** The confidence rule, in the words of the specification *)

(** The configured base confidence of a matching method. *)
Definition baseConfidence (config : MatcherConfig) (m : Method) : Js.number :=
  match m with
  | vat_lookup => methodConfidence_vat_lookup config
  | account_mapping => methodConfidence_account_mapping config
  | supplier_mapping => methodConfidence_supplier_mapping config
  | manual | none => 0%float
  end.

(** The penalty of a tier: none for tier 1, the configured adjustment
    for the others. *)
Definition penalty (config : MatcherConfig) (t : Tier) : Js.number :=
  match t with
  | Tier1 => 0%float
  | Tier2 => tierAdjustments_tier2 config
  | Tier3 => tierAdjustments_tier3 config
  | Tier4 => tierAdjustments_tier4 config
  end.

(** [clamp(baseConfidence[method] + penalty[tier], 0, 1)] *)
Definition ruleConfidence (config : MatcherConfig) (m : Method) (t : Tier)
  : Js.number :=
  clamp01 (baseConfidence config m + penalty config t)%float.

(** The two shapes of a successful result.  One built from the tier
    resolver's answer for the method [m]: *)
Definition tiered_result (config : MatcherConfig) (m : Method)
    (result : MatchResult) : Prop :=
  exists f t,
    emissionFactor result = Some f /\
    tier result = Some t /\
    method result = m /\
    confidence result
      = clamp01 (baseConfidence config m + tierAdjustment config (Some t))%float /\
    fallbackApplied result = negb (is_tier1 (Some t)).

(** and one built from a pre-mapped emission factor: *)
Definition premapped_result (config : MatcherConfig) (result : MatchResult) : Prop :=
  exists f,
    emissionFactor result = Some f /\
    tier result = Some Tier1 /\
    method result = account_mapping /\
    confidence result = methodConfidence_account_mapping config /\
    fallbackApplied result = false.

Definition result_shape (config : MatcherConfig) (result : MatchResult) : Prop :=
  result = NO_MATCH
  \/ premapped_result config result
  \/ tiered_result config vat_lookup result
  \/ tiered_result config account_mapping result
  \/ tiered_result config supplier_mapping result.

(** A number in [[0, 1]], negative zero apart. *)
Definition in_unit_interval (x : Js.number) : bool :=
  (0 <=? x)%float && (x <=? 1)%float
    && negb (PrimFloat.is_zero x && PrimFloat.get_sign x).

(** A configuration whose base confidences are confidences and whose
    tier adjustments are numbers. *)
Definition well_formed_config (config : MatcherConfig) : bool :=
  in_unit_interval (methodConfidence_vat_lookup config)
  && in_unit_interval (methodConfidence_account_mapping config)
  && in_unit_interval (methodConfidence_supplier_mapping config)
  && negb (PrimFloat.is_nan (tierAdjustments_tier2 config))
  && negb (PrimFloat.is_nan (tierAdjustments_tier3 config))
  && negb (PrimFloat.is_nan (tierAdjustments_tier4 config)).

(** The unweighted arithmetic mean of a sequence of numbers, summed from
    the left as [reduce] does. *)
Definition arithmetic_mean (xs : list Js.number) : Js.number :=
  (fold_left PrimFloat.add xs 0 / Js.number_of_nat (List.length xs))%float.

(** [a] occurs in [l] at a position before one where [b] occurs. *)
Definition appears_before (a b : string) (l : list string) : Prop :=
  exists i j, nth_error l i = Some a /\ nth_error l j = Some b /\ (i < j)%nat.

(** [{0.01, 0.02, 0.03}] as three rows of one activity and country. *)
Definition three_products : list EmissionFactor :=
  [product_row "ef-a" "01.11" "p01.a" "Wheat" "DE" 0.01%float;
   product_row "ef-b" "01.11" "p01.b" "Rice" "DE" 0.02%float;
   product_row "ef-c" "01.11" "p01.c" "Maize" "DE" 0.03%float].

(** A repository with factors for every country and activity it is
    asked about, and nothing in its three learning tables. *)
Definition factors_only_db : DatabaseAdapter nat string := {|
  findEmissionFactor q s :=
    (Resolved (Some (product_row "ef-any" (Js.or_string (q_nace_code q) "")
                       "p40.11.e" "Electricity by wind"
                       (Js.or_string (q_country_code q) "") 0.012%float)), s);
  findEmissionFactors q s :=
    (Resolved (Some [product_row "ef-any" (Js.or_string (q_nace_code q) "")
                       "p40.11.e" "Electricity by wind"
                       (Js.or_string (q_country_code q) "") 0.012%float]), s);
  getEmissionFactorById i s := (Resolved None, s);
  findNACEEmissionFactor n s := (Resolved None, s);
  getVATCache v s := (Resolved None, s);
  getAccountMapping c a s := (Resolved None, s);
  getSupplierMapping n s := (Resolved None, s);
  incrementSupplierUsage _ s := (Resolved tt, S s)
|}.

(** The default configuration with the account-mapping confidence set
    to 2. *)
Definition overconfident_config : MatcherConfig :=
  {| confidenceLevels_tier1 := confidenceLevels_tier1 DEFAULT_CONFIG;
     confidenceLevels_tier2 := confidenceLevels_tier2 DEFAULT_CONFIG;
     confidenceLevels_tier3 := confidenceLevels_tier3 DEFAULT_CONFIG;
     confidenceLevels_tier4 := confidenceLevels_tier4 DEFAULT_CONFIG;
     methodConfidence_vat_lookup := methodConfidence_vat_lookup DEFAULT_CONFIG;
     methodConfidence_account_mapping := 2%float;
     methodConfidence_supplier_mapping := methodConfidence_supplier_mapping DEFAULT_CONFIG;
     tierAdjustments_tier2 := tierAdjustments_tier2 DEFAULT_CONFIG;
     tierAdjustments_tier3 := tierAdjustments_tier3 DEFAULT_CONFIG;
     tierAdjustments_tier4 := tierAdjustments_tier4 DEFAULT_CONFIG;
     enableLearning := enableLearning DEFAULT_CONFIG;
     cacheVAT := cacheVAT DEFAULT_CONFIG;
     cacheTTL := cacheTTL DEFAULT_CONFIG |}.

(** A purchase booked on a pre-mapped account, without a VAT number. *)
Definition premapped_transaction : Transaction :=
  {| tx_id := "txn_002";
     supplier_name := "Tauron";
     vat_number := None;
     account_code := Some "5910";
     amount := 100%float;
     currency := Some "EUR";
     description := None;
     supplier_country := None;
     tx_date := None;
     tx_category := None |}.

(** The sample purchase with the supplier's country stated as Poland,
    against the Swedish VAT number. *)
Definition polish_transaction : Transaction :=
  {| tx_id := "txn_003";
     supplier_name := "Vattenfall AB";
     vat_number := Some "SE556036-2138";
     account_code := None;
     amount := 25000%float;
     currency := Some "SEK";
     description := Some "Monthly electricity - wind power";
     supplier_country := Some "PL";
     tx_date := None;
     tx_category := None |}.

(** A purchase from a known supplier in France, for which the sample
    tables hold no row. *)
Definition french_transaction : Transaction :=
  {| tx_id := "txn_004";
     supplier_name := "Vattenfall AB";
     vat_number := None;
     account_code := None;
     amount := 100%float;
     currency := Some "EUR";
     description := None;
     supplier_country := Some "FR";
     tx_date := None;
     tx_category := None |}.

(** The purchase booked against the Swedish VAT number, with an empty
    supplier country. *)
Definition empty_country_transaction : Transaction :=
  {| tx_id := "txn_005";
     supplier_name := "Vattenfall AB";
     vat_number := Some "SE556036-2138";
     account_code := None;
     amount := 25000%float;
     currency := Some "SEK";
     description := Some "Monthly electricity - wind power";
     supplier_country := Some "";
     tx_date := None;
     tx_category := None |}.

(** The sample tables behind an unreachable VAT cache. *)
Definition outage_tables : Tables :=
  {| factor_rows := factor_rows sample_tables;
     nace_rows := nace_rows sample_tables;
     vat_rows := vat_rows sample_tables;
     account_rows := account_rows sample_tables;
     supplier_rows := supplier_rows sample_tables;
     vat_cache_down := true |}.

(** An aggregated record without a scope-3 value, *)
Definition unscoped_row : NACEEmissionFactor :=
  {| nef_id := "nace-99.00";
     nef_nace_code := "99.00";
     nace_description := None;
     scope_3_factor := None;
     nef_source := None |}.

(** and tables that hold nothing else for its activity. *)
Definition sector_only_tables : Tables :=
  {| factor_rows := [];
     nace_rows := [unscoped_row];
     vat_rows := [];
     account_rows := [];
     supplier_rows := [("vattenfall", {| snm_id := "sup-9"; snm_nace_code := "99.00" |})];
     vat_cache_down := false |}.

(* ================================================================== *)
(** ** Vocabulary of the further properties *)

(** The product hints, in the order [extractProductHints] tests for
    them. *)
Definition HINT_VOCABULARY : list string :=
  ["wind"; "solar"; "hydro"; "nuclear"; "coal"; "gas"; "electricity";
   "air transport"; "rail"; "freight"; "renewable"; "fossil"].

(** [l] is [l'] with some of its elements left out. *)
Inductive subseq {A : Type} : list A -> list A -> Prop :=
| subseq_nil : subseq [] []
| subseq_skip x l l' : subseq l l' -> subseq l (x :: l')
| subseq_take x l l' : subseq l l' -> subseq (x :: l) (x :: l').

(** [m[k]] on a metadata object. *)
Fixpoint meta_get (k : string) (m : Metadata) : option MetaValue :=
  match m with
  | [] => None
  | (k', v) :: r => if String.eqb k k' then Some v else meta_get k r
  end.

(** The identifiers of a list of transactions, each once, in the order
    of their first occurrence. *)
Fixpoint distinct_ids (seen : list string) (transactions : list Transaction)
  : list string :=
  match transactions with
  | [] => []
  | t :: rest =>
      if existsb (String.eqb (tx_id t)) seen then distinct_ids seen rest
      else tx_id t :: distinct_ids (seen ++ [tx_id t])%list rest
  end.

(** The results a tally has counted. *)
Definition tally_sum (c : Tally) : nat :=
  n_tier1 c + n_tier2 c + n_tier3 c + n_tier4 c + n_unmatched c.

(** A confidence that is a probability, or not a number at all. *)
Definition unit_or_nan (x : Js.number) : bool :=
  PrimFloat.is_nan x || ((0 <=? x)%float && (x <=? 1)%float).

(** A purchase that carries nothing to look up but the supplier's name. *)
Definition unknown_transaction : Transaction :=
  {| tx_id := "txn_005";
     supplier_name := "Nobody Knows Oy";
     vat_number := None;
     account_code := None;
     amount := 10%float;
     currency := None;
     description := None;
     supplier_country := None;
     tx_date := None;
     tx_category := None |}.

(** The sample tables with a mapping of account 5910 to a factor that is
    not in the catalogue. *)
Definition dangling_tables : Tables :=
  {| factor_rows := factor_rows sample_tables;
     nace_rows := nace_rows sample_tables;
     vat_rows := vat_rows sample_tables;
     account_rows :=
       [("acme", "5910",
         {| ecm_nace_code := Some "35.11"; emission_factor_id := Some "ef-404" |})];
     supplier_rows := supplier_rows sample_tables;
     vat_cache_down := false |}.

(** How many results of a map carry no emission factor. *)
Definition without_factor (results : JsMap MatchResult) : nat :=
  List.length
    (filter (fun kv => match emissionFactor (snd kv) with
                       | None => true
                       | Some _ => false
                       end) results).

(** Tables that know the supplier, and hold no factor for its activity. *)
Definition orphan_tables : Tables :=
  {| factor_rows := [];
     nace_rows := [];
     vat_rows := [];
     account_rows := [];
     supplier_rows := [("vattenfall", {| snm_id := "sup-7"; snm_nace_code := "12.34" |})];
     vat_cache_down := false |}.

(** The French purchase, sent again under the identifier of the sample
    purchase. *)
Definition resubmitted_transaction : Transaction :=
  {| tx_id := tx_id sample_transaction;
     supplier_name := supplier_name french_transaction;
     vat_number := vat_number french_transaction;
     account_code := account_code french_transaction;
     amount := amount french_transaction;
     currency := currency french_transaction;
     description := description french_transaction;
     supplier_country := supplier_country french_transaction;
     tx_date := tx_date french_transaction;
     tx_category := tx_category french_transaction |}.

(** The default configuration with the VAT cache and the learning
    counter switched off. *)
Definition quiet_config : MatcherConfig :=
  {| confidenceLevels_tier1 := confidenceLevels_tier1 DEFAULT_CONFIG;
     confidenceLevels_tier2 := confidenceLevels_tier2 DEFAULT_CONFIG;
     confidenceLevels_tier3 := confidenceLevels_tier3 DEFAULT_CONFIG;
     confidenceLevels_tier4 := confidenceLevels_tier4 DEFAULT_CONFIG;
     methodConfidence_vat_lookup := methodConfidence_vat_lookup DEFAULT_CONFIG;
     methodConfidence_account_mapping := methodConfidence_account_mapping DEFAULT_CONFIG;
     methodConfidence_supplier_mapping := methodConfidence_supplier_mapping DEFAULT_CONFIG;
     tierAdjustments_tier2 := tierAdjustments_tier2 DEFAULT_CONFIG;
     tierAdjustments_tier3 := tierAdjustments_tier3 DEFAULT_CONFIG;
     tierAdjustments_tier4 := tierAdjustments_tier4 DEFAULT_CONFIG;
     enableLearning := false;
     cacheVAT := false;
     cacheTTL := cacheTTL DEFAULT_CONFIG |}.

(* ================================================================== *)
(** * Properties *)

Open Scope list_scope.

(** ** Binary64 facts behind the clamp *)

Lemma float_of_zero (x : float) (s : bool) :
  Prim2SF x = S754_zero s -> x = if s then neg_zero else zero.
Proof.
  intros H. apply Prim2SF_inj. rewrite H. destruct s; reflexivity.
Qed.

Lemma float_add_signed_zero (x z : float) (s : bool) :
  Prim2SF z = S754_zero s ->
  (forall s', Prim2SF x <> S754_zero s') ->
  (x + z)%float = x.
Proof.
  intros Hz Hx. apply Prim2SF_inj. rewrite add_spec, Hz.
  destruct (Prim2SF x) as [s'| [] | | sx m e] eqn:E; simpl; try reflexivity.
  destruct (Hx s'); reflexivity.
Qed.

Lemma SFcompare_refl (x : spec_float) :
  x <> S754_nan -> SFcompare x x = Some Eq.
Proof.
  destruct x as [s| s | | s m e]; simpl; intros H; try reflexivity.
  - destruct s; reflexivity.
  - congruence.
  - rewrite Z.compare_refl, Pos.compare_cont_refl. destruct s; reflexivity.
Qed.

Lemma leb_not_nan_l (x y : float) : (x <=? y)%float = true -> is_nan x = false.
Proof.
  unfold is_nan. rewrite leb_spec, eqb_spec. unfold SFleb, SFeqb. intros H.
  rewrite SFcompare_refl; [reflexivity |].
  intros E. rewrite E in H. discriminate.
Qed.

Lemma leb_not_nan_r (x y : float) : (x <=? y)%float = true -> is_nan y = false.
Proof.
  unfold is_nan. rewrite leb_spec, eqb_spec. unfold SFleb, SFeqb. intros H.
  rewrite SFcompare_refl; [reflexivity |].
  intros E. rewrite E in H. destruct (Prim2SF x); discriminate.
Qed.

Lemma js_min_one (x : float) : (x <=? 1)%float = true -> Js.min 1%float x = x.
Proof.
  intros H. unfold Js.min.
  rewrite (leb_not_nan_l _ _ H).
  change (is_nan 1) with false. change (get_sign 1) with false.
  cbn [orb].
  revert H. rewrite leb_spec, !ltb_spec. unfold SFleb, SFltb.
  change (Prim2SF 1) with (S754_finite false 4503599627370496 (-52)).
  destruct (Prim2SF x) as [s| s | | s m e] eqn:E; cbn [SFcompare].
  - reflexivity.
  - destruct s; [reflexivity | discriminate].
  - discriminate.
  - destruct s; [reflexivity |].
    rewrite (Z.compare_antisym e (-52)).
    destruct (e ?= -52)%Z eqn:Ee; cbn [CompOpp]; try reflexivity; try discriminate.
    replace (Pos.compare_cont Eq 4503599627370496 m)
      with (CompOpp (Pos.compare_cont Eq m 4503599627370496))
      by apply Pos.compare_cont_antisym.
    destruct (Pos.compare_cont Eq m 4503599627370496) eqn:Em; cbn [CompOpp];
      try reflexivity; try discriminate.
Qed.

Lemma js_max_zero (x : float) :
  (0 <=? x)%float = true -> x <> neg_zero -> Js.max 0%float x = x.
Proof.
  intros H Hz. unfold Js.max.
  rewrite (leb_not_nan_r _ _ H).
  change (is_nan 0) with false. change (get_sign 0) with false.
  cbn [orb].
  revert H. rewrite leb_spec, !ltb_spec. unfold SFleb, SFltb.
  change (Prim2SF 0) with (S754_zero false).
  destruct (Prim2SF x) as [s| s | | s m e] eqn:E; cbn [SFcompare].
  - intros _. apply float_of_zero in E. destruct s; [congruence | subst x; reflexivity].
  - destruct s; [discriminate | reflexivity].
  - discriminate.
  - destruct s; [discriminate | reflexivity].
Qed.

Lemma float_add_zero_r (x : float) : x <> neg_zero -> (x + 0)%float = x.
Proof.
  intros Hz.
  destruct (Prim2SF x) as [s| s | | s m e] eqn:E.
  - apply float_of_zero in E. destruct s; [congruence | subst x; reflexivity].
  - apply (float_add_signed_zero x 0 false); [reflexivity |]. intros s'. rewrite E. discriminate.
  - apply (float_add_signed_zero x 0 false); [reflexivity |]. intros s'. rewrite E. discriminate.
  - apply (float_add_signed_zero x 0 false); [reflexivity |]. intros s'. rewrite E. discriminate.
Qed.

(** On [[0, 1]] (negative zero apart) the clamp and a zero penalty leave
    a confidence as it is. *)
Lemma clamp01_unit (x : float) :
  (0 <=? x)%float = true -> (x <=? 1)%float = true -> x <> neg_zero ->
  clamp01 (x + 0)%float = x.
Proof.
  intros H0 H1 Hz. rewrite (float_add_zero_r x Hz). unfold clamp01.
  rewrite (js_min_one x H1). apply js_max_zero; assumption.
Qed.

Lemma clamp01_add_zero_sign (x : float) :
  clamp01 (x + neg_zero)%float = clamp01 (x + zero)%float.
Proof.
  destruct (Prim2SF x) as [s| s | | s m e] eqn:E.
  - apply float_of_zero in E. subst x. destruct s; vm_compute; reflexivity.
  - rewrite (float_add_signed_zero x neg_zero true), (float_add_signed_zero x zero false);
      try reflexivity; intros s'; rewrite E; discriminate.
  - rewrite (float_add_signed_zero x neg_zero true), (float_add_signed_zero x zero false);
      try reflexivity; intros s'; rewrite E; discriminate.
  - rewrite (float_add_signed_zero x neg_zero true), (float_add_signed_zero x zero false);
      try reflexivity; intros s'; rewrite E; discriminate.
Qed.

Lemma float_is_zero_cases (x : float) :
  is_zero x = true -> x = zero \/ x = neg_zero.
Proof.
  unfold is_zero. rewrite eqb_spec. unfold SFeqb.
  change (Prim2SF zero) with (S754_zero false).
  destruct (Prim2SF x) as [s| s | | s m e] eqn:E; simpl.
  - intros _. apply float_of_zero in E. destruct s; auto.
  - destruct s; discriminate.
  - discriminate.
  - destruct s; discriminate.
Qed.

(** [x || 0] never changes the clamped sum, unless [x] is NaN. *)
Lemma clamp01_or_number (b x : float) :
  is_nan x = false ->
  clamp01 (b + Js.or_number x 0)%float = clamp01 (b + x)%float.
Proof.
  intros Hn. unfold Js.or_number, Js.truthy_number.
  rewrite Hn, orb_false_r.
  destruct (is_zero x) eqn:Hz; simpl; [| reflexivity].
  destruct (float_is_zero_cases x Hz) as [-> | ->].
  - reflexivity.
  - symmetry. apply clamp01_add_zero_sign.
Qed.


Section Properties.

Context {State Err : Type}.
Variable db : DatabaseAdapter State Err.


(** *** Running [ret], [await] and [bind] *)

Lemma bind_inv {A B} (m : M State Err A) (k : A -> M State Err B) s o s' t :
  bind m k s = (o, s', t) ->
  (exists a s1 t1 t2,
      m s = (Resolved a, s1, t1) /\ k a s1 = (o, s', t2) /\ t = t1 ++ t2)
  \/ (exists e, m s = (Rejected e, s', t) /\ o = Rejected e).
Proof.
  unfold bind. destruct (m s) as [[[a | e] s1] t1].
  - destruct (k a s1) as [[o2 s2] t2] eqn:Ek. intros H. inversion H; subst.
    left. exists a, s1, t1, t2. auto.
  - intros H. inversion H; subst. right. exists e. auto.
Qed.

Lemma bind_resolved_inv {A B} (m : M State Err A) (k : A -> M State Err B) s b s' t :
  bind m k s = (Resolved b, s', t) ->
  exists a s1 t1 t2,
    m s = (Resolved a, s1, t1) /\ k a s1 = (Resolved b, s', t2) /\ t = t1 ++ t2.
Proof.
  intros H. apply bind_inv in H. destruct H as [H | [e [_ H]]]; [exact H | discriminate].
Qed.

Lemma await_inv {A} (op : State -> Outcome Err A * State) log s o s' t :
  await op log s = (o, s', t) -> op s = (o, s') /\ t = [log o].
Proof.
  unfold await. destruct (op s) as [o1 s1]. intros H. inversion H; subst. auto.
Qed.

Lemma ret_inv {A} (a : A) (s : State) (o : Outcome Err A) s' t :
  ret a s = (o, s', t) -> o = Resolved a /\ s' = s /\ t = [].
Proof. unfold ret. intros H. inversion H; subst. auto. Qed.

(** *** Tier 1 *)

Lemma tier1_hint_loop_resolved naceCode countryCode hints s x s' t :
  tier1_hint_loop db naceCode countryCode hints s = (Resolved x, s', t) ->
  match x with
  | None => t = map (tier1_miss naceCode countryCode) (map Some hints)
  | Some f =>
      exists before hint after,
        hints = before ++ hint :: after /\
        t = map (tier1_miss naceCode countryCode) (map Some before)
              ++ [tier1_hit naceCode countryCode (Some hint) f]
  end.
Proof.
  revert s t. induction hints as [| h rest IH]; intros s t H.
  - apply ret_inv in H. destruct H as [H [_ ->]]. inversion H; subst. reflexivity.
  - cbn [tier1_hint_loop] in H. apply bind_resolved_inv in H.
    destruct H as (a & s1 & t1 & t2 & Ha & Hk & ->).
    apply await_inv in Ha. destruct Ha as [_ ->].
    destruct a as [f |].
    + apply ret_inv in Hk. destruct Hk as [Hx [_ ->]]. inversion Hx; subst.
      exists [], h, rest. auto.
    + apply IH in Hk. destruct x as [f |].
      * destruct Hk as (before & hint & after & -> & ->).
        exists (h :: before), hint, after. auto.
      * subst t2. reflexivity.
Qed.

Lemma getEmissionFactorTier1_resolved naceCode countryCode productHints s x s' t :
  getEmissionFactorTier1 db naceCode countryCode productHints s = (Resolved x, s', t) ->
  match x with
  | None => tier1_missed naceCode countryCode productHints t
  | Some f => tier1_found naceCode countryCode productHints f t
  end.
Proof.
  unfold getEmissionFactorTier1. intros H. apply bind_resolved_inv in H.
  destruct H as (a & s1 & t1 & t2 & Ha & Hk & ->).
  assert (Hloop : tier1_hint_loop db naceCode countryCode
                    (match productHints with Some l => l | None => [] end) s
                  = (Resolved a, s1, t1)).
  { destruct productHints as [[| h l] |]; exact Ha. }
  clear Ha. apply tier1_hint_loop_resolved in Hloop.
  unfold tier1_missed, tier1_found, tier1_hints.
  set (hints := match productHints with Some l => l | None => [] end) in *.
  destruct a as [f |].
  - apply ret_inv in Hk. destruct Hk as [Hx [_ ->]]. inversion Hx; subst x.
    destruct Hloop as (before & hint & after & Hh & ->).
    exists (map Some before), (Some hint), (map Some after ++ [None]).
    split.
    + rewrite Hh, map_app. cbn [map]. rewrite <- app_assoc. reflexivity.
    + rewrite app_nil_r. reflexivity.
  - subst t1. apply await_inv in Hk. destruct Hk as [_ ->].
    destruct x as [f |].
    + exists (map Some hints), None, []. split; reflexivity.
    + rewrite map_app. reflexivity.
Qed.


(** *** Tiers 2, 3 and 4 *)

Lemma getEmissionFactorTier2_resolved naceCode countryCode s x s' t :
  getEmissionFactorTier2 db naceCode countryCode s = (Resolved x, s', t) ->
  match x with
  | None => tier2_missed naceCode countryCode t
  | Some f => tier2_found naceCode countryCode f t
  end.
Proof.
  unfold getEmissionFactorTier2. intros H. apply bind_resolved_inv in H.
  destruct H as (r & s1 & t1 & t2 & Ha & Hk & ->).
  apply await_inv in Ha. destruct Ha as [_ ->].
  unfold tier2_missed, tier2_found.
  destruct r as [[| first rest] |];
    apply ret_inv in Hk; destruct Hk as [Hx [_ ->]]; inversion Hx; subst x.
  - exists (Some []). auto.
  - exists first, rest. split; reflexivity.
  - exists None. auto.
Qed.

Lemma getEmissionFactorTier3_resolved naceCode s x s' t :
  getEmissionFactorTier3 db naceCode s = (Resolved x, s', t) ->
  match x with
  | None => tier3_missed naceCode t
  | Some f => tier3_found naceCode f t
  end.
Proof.
  unfold getEmissionFactorTier3. intros H. apply bind_resolved_inv in H.
  destruct H as (r & s1 & t1 & t2 & Ha & Hk & ->).
  apply await_inv in Ha. destruct Ha as [_ ->].
  unfold tier3_missed, tier3_found.
  destruct r as [[| first rest] |];
    apply ret_inv in Hk; destruct Hk as [Hx [_ ->]]; inversion Hx; subst x.
  - exists (Some []). auto.
  - exists first, rest. split; reflexivity.
  - exists None. auto.
Qed.

Lemma getEmissionFactorTier4_resolved naceCode s x s' t :
  getEmissionFactorTier4 db naceCode s = (Resolved x, s', t) ->
  match x with
  | None => tier4_missed naceCode t
  | Some f => tier4_found naceCode f t
  end.
Proof.
  unfold getEmissionFactorTier4. intros H. apply bind_resolved_inv in H.
  destruct H as (r & s1 & t1 & t2 & Ha & Hk & ->).
  apply await_inv in Ha. destruct Ha as [_ ->].
  unfold tier4_missed, tier4_found.
  destruct r as [row |];
    apply ret_inv in Hk; destruct Hk as [Hx [_ ->]]; inversion Hx; subst x.
  - exists row. split; reflexivity.
  - reflexivity.
Qed.

(** *** The tier resolver *)

Lemma getEmissionFactorWithFallback_resolved
    naceCode config countryCode productHints s r s' t :
  getEmissionFactorWithFallback db naceCode config countryCode productHints s
    = (Resolved r, s', t) ->
  resolution_record naceCode countryCode productHints r t.
Proof.
  unfold getEmissionFactorWithFallback. intros H.
  apply bind_resolved_inv in H.
  destruct H as (returned & s1 & t12 & t34 & Hc & Hk & ->).
  (* the country block *)
  assert (Hblock :
    match returned with
    | Some r0 =>
        exists cc, truthy_value countryCode = Some cc /\
          ((exists f, r0 = {| res_factor := Some f; res_tier := Some Tier1;
                               res_reasoning := res_reasoning r0 |} /\
                      tier1_found naceCode cc productHints f t12)
           \/ (exists f t1 t2, r0 = {| res_factor := Some f; res_tier := Some Tier2;
                                        res_reasoning := res_reasoning r0 |} /\
                      t12 = t1 ++ t2 /\
                      tier1_missed naceCode cc productHints t1 /\
                      tier2_found naceCode cc f t2))
    | None => country_tiers_missed naceCode countryCode productHints t12
    end).
  { unfold country_tiers_missed.
    destruct countryCode as [cc |]; cbn [truthy_value];
      [destruct (Js.truthy_string cc) eqn:Ecc |].
    - apply bind_resolved_inv in Hc.
      destruct Hc as (tier1 & s0 & t1 & t2 & H1 & Hk1 & ->).
      apply getEmissionFactorTier1_resolved in H1.
      destruct tier1 as [f |].
      + apply ret_inv in Hk1. destruct Hk1 as [Hx [_ ->]]. inversion Hx; subst returned.
        exists cc. split; [reflexivity |]. left. exists f. rewrite app_nil_r. auto.
      + apply bind_resolved_inv in Hk1.
        destruct Hk1 as (tier2 & s0' & t2a & t2b & H2 & Hk2 & ->).
        apply getEmissionFactorTier2_resolved in H2.
        destruct tier2 as [f |];
          apply ret_inv in Hk2; destruct Hk2 as [Hx [_ ->]]; inversion Hx; subst returned;
          rewrite app_nil_r.
        * exists cc. split; [reflexivity |]. right. exists f, t1, t2a. auto.
        * exists t1, t2a. auto.
    - apply ret_inv in Hc. destruct Hc as [Hx [_ ->]]. inversion Hx; subst. reflexivity.
    - apply ret_inv in Hc. destruct Hc as [Hx [_ ->]]. inversion Hx; subst. reflexivity. }
  clear Hc. unfold resolution_record.
  destruct returned as [r0 |].
  - apply ret_inv in Hk. destruct Hk as [Hx [_ ->]]. inversion Hx; subst r0.
    rewrite app_nil_r.
    destruct Hblock as (cc & Hcc & [(f & -> & Hf) | (f & t1 & t2 & -> & -> & H1 & H2)]);
      cbn [res_tier res_factor].
    + exists cc, f. auto.
    + exists cc, f, t1, t2. auto.
  - apply bind_resolved_inv in Hk.
    destruct Hk as (tier3 & s3 & t3 & t4 & H3 & Hk3 & ->).
    apply getEmissionFactorTier3_resolved in H3.
    destruct tier3 as [f |].
    + apply ret_inv in Hk3. destruct Hk3 as [Hx [_ ->]]. inversion Hx; subst r.
      cbn [res_tier res_factor]. rewrite app_nil_r.
      exists f, t12, t3. auto.
    + apply bind_resolved_inv in Hk3.
      destruct Hk3 as (tier4 & s4 & t4a & t4b & H4 & Hk4 & ->).
      apply getEmissionFactorTier4_resolved in H4.
      destruct tier4 as [f |];
        apply ret_inv in Hk4; destruct Hk4 as [Hx [_ ->]]; inversion Hx; subst r;
        cbn [res_tier res_factor]; rewrite app_nil_r.
      * exists f, t12, t3, t4a. auto.
      * exists t12, t3, t4a. auto.
Qed.



(** *** Rejections come from the repository, and go through *)

Lemma quiet_nil : @quiet Err [].
Proof. intros c []. Qed.

Lemma quiet_app (t1 t2 : list (Call Err)) :
  quiet t1 -> quiet t2 -> quiet (t1 ++ t2).
Proof.
  intros H1 H2 c Hc. apply in_app_or in Hc. destruct Hc; auto.
Qed.

Lemma Faithful_ret {A} (a : A) : Faithful (@ret State Err A a).
Proof. intros s. exact quiet_nil. Qed.

Lemma Faithful_await {A} (op : State -> Outcome Err A * State) log :
  (forall o, rejection (log o) = outcome_error o) ->
  Faithful (await op log).
Proof.
  intros Hlog s. unfold await. destruct (op s) as [[a | e] s1]; cbn.
  - intros c [<- | []]. apply Hlog.
  - exists [], (log (Rejected e)). repeat split.
    + exact quiet_nil.
    + apply Hlog.
Qed.

Lemma Faithful_bind {A B} (m : M State Err A) (k : A -> M State Err B) :
  Faithful m -> (forall a, Faithful (k a)) -> Faithful (bind m k).
Proof.
  intros Hm Hk s. unfold bind. specialize (Hm s).
  destruct (m s) as [[[a | e] s1] t1]; [| exact Hm].
  specialize (Hk a s1). destruct (k a s1) as [[[b | e] s2] t2]; cbn in *.
  - apply quiet_app; assumption.
  - destruct Hk as (t0 & c & -> & Hq & Hc).
    exists (t1 ++ t0), c. rewrite app_assoc. repeat split; auto.
    apply quiet_app; assumption.
Qed.

Create HintDb faithful.

Ltac faithful :=
  repeat first
    [ apply Faithful_ret
    | apply Faithful_await; intros ?; reflexivity
    | apply Faithful_bind; [| intros ?]
    | progress cbv zeta
    | match goal with
      | |- Faithful (match ?x with _ => _ end) => destruct x
      end
    | solve [auto with faithful] ].

Lemma Faithful_tier1_hint_loop naceCode countryCode hints :
  Faithful (tier1_hint_loop db naceCode countryCode hints).
Proof.
  induction hints as [| h rest IH]; cbn [tier1_hint_loop]; faithful.
Qed.
#[local] Hint Resolve Faithful_tier1_hint_loop : faithful.

Lemma Faithful_getEmissionFactorWithFallback naceCode config countryCode productHints :
  Faithful (getEmissionFactorWithFallback db naceCode config countryCode productHints).
Proof.
  unfold getEmissionFactorWithFallback, getEmissionFactorTier1,
    getEmissionFactorTier2, getEmissionFactorTier3, getEmissionFactorTier4.
  faithful.
Qed.
#[local] Hint Resolve Faithful_getEmissionFactorWithFallback : faithful.

Lemma Faithful_matchTransaction transaction companyId config :
  Faithful (matchTransaction db transaction companyId config).
Proof.
  unfold matchTransaction, strategy_vat, strategy_account, strategy_supplier,
    matchByVAT, matchByAccountCode, matchBySupplierName.
  faithful.
Qed.

(** C8.  For every transaction and every adapter: a call the
    repository rejects makes [matchTransaction] reject with the same
    error; a resolved [matchTransaction], the no-match result included,
    has seen no rejected call; and when no call is rejected, whatever
    null or empty answers the repository gave, [matchTransaction]
    resolves. *)
Theorem repository_failure_propagates transaction companyId config s :
  match matchTransaction db transaction companyId config s with
  | (o, _, t) =>
      (forall c e, In c t -> rejection c = Some e -> o = Rejected e)
      /\ (forall result, o = Resolved result -> quiet t)
      /\ (quiet t -> exists result, o = Resolved result)
  end.
Proof.
  pose proof (Faithful_matchTransaction transaction companyId config s) as H.
  destruct (matchTransaction db transaction companyId config s) as [[[r | e] s'] t];
    cbn in H.
  - repeat split.
    + intros c e Hc He. rewrite (H c Hc) in He. discriminate.
    + intros _ _. exact H.
    + intros _. exists r. reflexivity.
  - destruct H as (t0 & c0 & -> & Hq & Hc0). repeat split.
    + intros c e' Hc He. apply in_app_or in Hc. destruct Hc as [Hc | [<- | []]].
      * rewrite (Hq c Hc) in He. discriminate.
      * congruence.
    + intros result Hr. discriminate.
    + intros Hquiet. rewrite (Hquiet c0) in Hc0; [discriminate |].
      apply in_or_app. right. left. reflexivity.
Qed.


(** *** The shape of a result *)

Lemma resolved_factor_has_tier naceCode config countryCode productHints s r s' t f :
  getEmissionFactorWithFallback db naceCode config countryCode productHints s
    = (Resolved r, s', t) ->
  res_factor r = Some f ->
  exists tr, res_tier r = Some tr.
Proof.
  intros H Hf. apply getEmissionFactorWithFallback_resolved in H.
  unfold resolution_record in H.
  destruct (res_tier r) as [tr |]; [exists tr; reflexivity |].
  destruct H as (_ & _ & _ & Hnone & _). congruence.
Qed.

Ltac inv_ret H :=
  apply ret_inv in H;
  let E := fresh "E" in
  destruct H as (E & _ & _); inversion E; subst; clear E.

Lemma strategy_vat_resolved transaction config productHints countryCode
    s cc returned s' t :
  strategy_vat db transaction config productHints countryCode s
    = (Resolved (cc, returned), s', t) ->
  match returned with
  | Some result => tiered_result config vat_lookup result
  | None => True
  end.
Proof.
  unfold strategy_vat. intros H.
  destruct (Js.truthy (vat_number transaction)); [| inv_ret H; exact I].
  apply bind_resolved_inv in H.
  destruct H as ([naceCode vatCountry] & s1 & t1 & t2 & _ & H & _).
  destruct (truthy_value naceCode) as [n |]; [| inv_ret H; exact I].
  apply bind_resolved_inv in H.
  destruct H as (r & s2 & t3 & t4 & Hr & H & _).
  destruct (res_factor r) as [f |] eqn:Ef; [| inv_ret H; exact I].
  destruct (resolved_factor_has_tier _ _ _ _ _ _ _ _ _ Hr Ef) as [tr Etr].
  inv_ret H. exists f, tr. cbn. rewrite Etr. auto.
Qed.

Lemma strategy_account_resolved transaction companyId config productHints countryCode
    s returned s' t :
  strategy_account db transaction companyId config productHints countryCode s
    = (Resolved returned, s', t) ->
  match returned with
  | Some result =>
      premapped_result config result \/ tiered_result config account_mapping result
  | None => True
  end.
Proof.
  unfold strategy_account. intros H.
  destruct (Js.truthy (account_code transaction) && Js.truthy companyId);
    [| inv_ret H; exact I].
  apply bind_resolved_inv in H.
  destruct H as ([naceCode emissionFactorId] & s1 & t1 & t2 & _ & H & _).
  apply bind_resolved_inv in H.
  destruct H as (premapped & s2 & t3 & t4 & Hp & H & _).
  destruct premapped as [result |].
  - inv_ret H. left.
    destruct (truthy_value emissionFactorId) as [i |]; [| inv_ret Hp].
    apply bind_resolved_inv in Hp.
    destruct Hp as ([f |] & s3 & t5 & t6 & _ & Hp & _); inv_ret Hp.
    exists f. cbn. auto.
  - destruct (truthy_value naceCode) as [n |]; [| inv_ret H; exact I].
    apply bind_resolved_inv in H.
    destruct H as (r & s3 & t5 & t6 & Hr & H & _).
    destruct (res_factor r) as [f |] eqn:Ef; [| inv_ret H; exact I].
    destruct (resolved_factor_has_tier _ _ _ _ _ _ _ _ _ Hr Ef) as [tr Etr].
    inv_ret H. right. exists f, tr. cbn. rewrite Etr. auto.
Qed.

Lemma strategy_supplier_resolved transaction config productHints countryCode
    s returned s' t :
  strategy_supplier db transaction config productHints countryCode s
    = (Resolved returned, s', t) ->
  match returned with
  | Some result => tiered_result config supplier_mapping result
  | None => True
  end.
Proof.
  unfold strategy_supplier. intros H.
  apply bind_resolved_inv in H.
  destruct H as (naceCode & s1 & t1 & t2 & _ & H & _).
  destruct (truthy_value naceCode) as [n |]; [| inv_ret H; exact I].
  apply bind_resolved_inv in H.
  destruct H as (r & s2 & t3 & t4 & Hr & H & _).
  destruct (res_factor r) as [f |] eqn:Ef; [| inv_ret H; exact I].
  destruct (resolved_factor_has_tier _ _ _ _ _ _ _ _ _ Hr Ef) as [tr Etr].
  inv_ret H. exists f, tr. cbn. rewrite Etr. auto.
Qed.

Lemma matchTransaction_resolved transaction companyId config s result s' t :
  matchTransaction db transaction companyId config s = (Resolved result, s', t) ->
  result_shape config result.
Proof.
  unfold matchTransaction, result_shape. intros H.
  apply bind_resolved_inv in H.
  destruct H as ([cc [r1 |]] & s1 & t1 & t2 & H1 & H & _).
  - inv_ret H. apply strategy_vat_resolved in H1. auto.
  - clear H1. apply bind_resolved_inv in H.
    destruct H as ([r2 |] & s2 & t3 & t4 & H2 & H & _).
    + inv_ret H. apply strategy_account_resolved in H2. tauto.
    + clear H2. apply bind_resolved_inv in H.
      destruct H as ([r3 |] & s3 & t5 & t6 & H3 & H & _); inv_ret H.
      * apply strategy_supplier_resolved in H3. auto.
      * auto.
Qed.

(** C6.  In every result of [matchTransaction], [fallbackApplied] is
    true if and only if the tier is 2, 3 or 4; it is false when the
    tier is 1 and when the match failed, which is when the tier is null
    and the method is "none". *)
Theorem fallbackApplied_iff_lower_tier transaction companyId config s result s' t :
  matchTransaction db transaction companyId config s = (Resolved result, s', t) ->
  (fallbackApplied result = true <->
     tier result = Some Tier2 \/ tier result = Some Tier3 \/ tier result = Some Tier4)
  /\ (tier result = Some Tier1 -> fallbackApplied result = false)
  /\ (tier result = None -> method result = none /\ fallbackApplied result = false)
  /\ (method result = none -> tier result = None).
Proof.
  intros H. apply matchTransaction_resolved in H.
  assert (Htiered : forall m, m <> none -> tiered_result config m result ->
    (fallbackApplied result = true <->
       tier result = Some Tier2 \/ tier result = Some Tier3 \/ tier result = Some Tier4)
    /\ (tier result = Some Tier1 -> fallbackApplied result = false)
    /\ (tier result = None -> method result = none /\ fallbackApplied result = false)
    /\ (method result = none -> tier result = None)).
  { intros m Hm (f & tr & _ & Et & Em & _ & Efb). rewrite Et, Efb, Em.
    destruct tr; cbn; repeat split; intros; try discriminate; try congruence;
      try tauto; intuition discriminate. }
  destruct H as [-> | [(f & _ & Et & Em & _ & Efb) | [H | [H | H]]]].
  - cbn. repeat split; intros; try discriminate; intuition discriminate.
  - rewrite Et, Em, Efb.
    repeat split; intros; try discriminate; intuition discriminate.
  - apply (Htiered vat_lookup); [discriminate | exact H].
  - apply (Htiered account_mapping); [discriminate | exact H].
  - apply (Htiered supplier_mapping); [discriminate | exact H].
Qed.


(** *** The confidence rule *)

Lemma in_unit_interval_clamp (x : float) :
  in_unit_interval x = true -> clamp01 (x + 0)%float = x.
Proof.
  unfold in_unit_interval. intros H.
  apply andb_prop in H. destruct H as [H Hz].
  apply andb_prop in H. destruct H as [H0 H1].
  apply clamp01_unit; try assumption.
  intros ->. vm_compute in Hz. discriminate.
Qed.

Lemma tierAdjustment_penalty config base tr :
  well_formed_config config = true ->
  clamp01 (base + tierAdjustment config (Some tr))%float
    = clamp01 (base + penalty config tr)%float.
Proof.
  unfold well_formed_config. intros H.
  do 5 (apply andb_prop in H; destruct H as [H ?]).
  destruct tr; cbn [tierAdjustment penalty]; try reflexivity;
    apply clamp01_or_number; apply negb_true_iff; assumption.
Qed.

Lemma baseConfidence_in_unit_interval config m :
  well_formed_config config = true ->
  m <> none -> m <> manual ->
  in_unit_interval (baseConfidence config m) = true.
Proof.
  unfold well_formed_config. intros H Hn Hm.
  do 5 (apply andb_prop in H; destruct H as [H ?]).
  destruct m; cbn [baseConfidence]; first [assumption | congruence].
Qed.

Lemma confidence_of_result config result :
  well_formed_config config = true ->
  result_shape config result ->
  method result <> none ->
  exists tr,
    tier result = Some tr /\
    confidence result = ruleConfidence config (method result) tr /\
    (tr = Tier1 -> confidence result = baseConfidence config (method result)).
Proof.
  intros Hwf Hshape Hmethod. unfold ruleConfidence.
  assert (Htiered : forall m, m <> none -> m <> manual ->
            tiered_result config m result ->
            exists tr,
              tier result = Some tr /\
              confidence result
                = clamp01 (baseConfidence config (method result) + penalty config tr)%float /\
              (tr = Tier1 -> confidence result = baseConfidence config (method result))).
  { intros m Hn Hm (f & tr & _ & Et & Em & Ec & _).
    exists tr. rewrite Em, Ec. repeat split.
    - exact Et.
    - apply tierAdjustment_penalty. exact Hwf.
    - intros ->. cbn [tierAdjustment]. apply in_unit_interval_clamp.
      apply baseConfidence_in_unit_interval; assumption. }
  destruct Hshape as [-> | [(f & _ & Et & Em & Ec & _) | [H | [H | H]]]].
  - cbn in Hmethod. congruence.
  - exists Tier1. rewrite Em, Ec. cbn [baseConfidence penalty].
    assert (Hc : clamp01 (methodConfidence_account_mapping config + 0)%float
                 = methodConfidence_account_mapping config).
    { apply in_unit_interval_clamp.
      apply (baseConfidence_in_unit_interval config account_mapping);
        [exact Hwf | discriminate | discriminate]. }
    rewrite Hc. auto.
  - apply (Htiered vat_lookup); [discriminate | discriminate | exact H].
  - apply (Htiered account_mapping); [discriminate | discriminate | exact H].
  - apply (Htiered supplier_mapping); [discriminate | discriminate | exact H].
Qed.

(** C2, amended.  Under a configuration whose three base confidences
    lie in [[0, 1]] and whose three tier adjustments are numbers, every
    successful result has confidence
    [clamp(baseConfidence[method] + penalty[tier], 0, 1)], with no
    penalty for tier 1 and the configured adjustment for tiers 2 to 4;
    and every tier-1 result, the pre-mapped account-code one included,
    has exactly the base confidence of its method. *)
Theorem confidence_rule transaction companyId config s result s' t :
  well_formed_config config = true ->
  matchTransaction db transaction companyId config s = (Resolved result, s', t) ->
  method result <> none ->
  exists tr,
    tier result = Some tr /\
    confidence result = ruleConfidence config (method result) tr /\
    (tr = Tier1 -> confidence result = baseConfidence config (method result)).
Proof.
  intros Hwf H. apply confidence_of_result; [exact Hwf |].
  exact (matchTransaction_resolved _ _ _ _ _ _ _ H).
Qed.


(** *** What a computation calls *)

Lemma ensures_ret {A} (a : A) (P : Call Err -> Prop) (Q : A -> Prop) :
  Q a -> ensures (@ret State Err A a) P Q.
Proof. intros H s. split; [intros c [] | exact H]. Qed.

Lemma ensures_await {A} (op : State -> Outcome Err A * State) log
    (P : Call Err -> Prop) (Q : A -> Prop) :
  (forall o, P (log o)) -> (forall a, Q a) -> ensures (await op log) P Q.
Proof.
  intros HP HQ s. unfold ensures_from, await. destruct (op s) as [o s1]. split.
  - intros c [<- | []]. apply HP.
  - destruct o; auto.
Qed.

Lemma ensures_from_bind {A B} s (m : M State Err A) (k : A -> M State Err B)
    (P : Call Err -> Prop) (Q : A -> Prop) (R : B -> Prop) :
  ensures_from s m P Q ->
  (forall a, Q a -> ensures (k a) P R) ->
  ensures_from s (bind m k) P R.
Proof.
  unfold ensures_from, bind. intros Hm Hk.
  destruct (m s) as [[[a | e] s1] t1]; [| exact Hm].
  destruct Hm as [Hc Ha]. specialize (Hk a Ha s1). unfold ensures_from in Hk.
  destruct (k a s1) as [[o s2] t2]. destruct Hk as [Hc2 Ho]. split; [| exact Ho].
  intros c Hin. apply in_app_or in Hin. destruct Hin; auto.
Qed.

Lemma ensures_bind {A B} (m : M State Err A) (k : A -> M State Err B)
    (P : Call Err -> Prop) (Q : A -> Prop) (R : B -> Prop) :
  ensures m P Q ->
  (forall a, Q a -> ensures (k a) P R) ->
  ensures (bind m k) P R.
Proof.
  intros Hm Hk s. apply (ensures_from_bind s m k P Q R); [apply Hm | exact Hk].
Qed.

Lemma ensures_from_run {A} s (m : M State Err A) P Q o s' t :
  ensures_from s m P Q -> m s = (o, s', t) ->
  (forall c, In c t -> P c) /\ (forall a, o = Resolved a -> Q a).
Proof.
  unfold ensures_from. intros H E. rewrite E in H. destruct H as [Hc Ho].
  split; [exact Hc |]. intros a ->. exact Ho.
Qed.

Create HintDb ensures.

Ltac ensure :=
  repeat first
    [ solve [eauto with ensures]
    | apply ensures_ret; exact I
    | apply ensures_await; [intros ? | intros ?; exact I]
    | apply (fun m k P R => ensures_bind m k P (fun _ => True) R); [| intros ? _]
    | progress cbv zeta
    | match goal with
      | |- ensures (match ?x with _ => _ end) _ _ => destruct x eqn:?
      end ].

Lemma ensures_tier1_hint_loop naceCode countryCode hints (P : Call Err -> Prop) :
  (forall h r, P (FindEmissionFactor (tier1_query naceCode countryCode h) r)) ->
  ensures (tier1_hint_loop db naceCode countryCode hints) P (fun _ => True).
Proof.
  intros HP. induction hints as [| h rest IH]; cbn [tier1_hint_loop]; ensure.
Qed.

(** The calls of the tier resolver are factor queries for the activity
    and, where a country is asked for, for the truthy country code. *)
Lemma ensures_getEmissionFactorWithFallback
    naceCode config countryCode productHints (P : Call Err -> Prop) :
  (forall cc h r, truthy_value countryCode = Some cc ->
                  P (FindEmissionFactor (tier1_query naceCode cc h) r)) ->
  (forall cc r, truthy_value countryCode = Some cc ->
                P (FindEmissionFactors (tier2_query naceCode cc) r)) ->
  (forall r, P (FindEmissionFactors (tier3_query naceCode) r)) ->
  (forall r, P (FindNACEEmissionFactor naceCode r)) ->
  ensures (getEmissionFactorWithFallback db naceCode config countryCode productHints)
    P (fun _ => True).
Proof.
  intros H1 H2 H3 H4.
  unfold getEmissionFactorWithFallback, getEmissionFactorTier1,
    getEmissionFactorTier2, getEmissionFactorTier3, getEmissionFactorTier4.
  assert (Hcc : forall cc, countryCode = Some cc -> Js.truthy_string cc = true ->
                           truthy_value countryCode = Some cc).
  { intros cc -> E. cbn. rewrite E. reflexivity. }
  ensure; try (apply ensures_tier1_hint_loop; intros); auto.
Qed.

Lemma ensures_matchByVAT transaction config (P : Call Err -> Prop) :
  (forall v r, P (GetVATCache v r)) ->
  ensures (matchByVAT db transaction config) P (fun _ => True).
Proof.
  intros HP. unfold matchByVAT. ensure.
Qed.


(** *** Running the VAT strategy *)

Lemma matchByVAT_some_vat transaction config s n vc s1 t1 :
  matchByVAT db transaction config s = (Resolved (Some n, vc), s1, t1) ->
  Js.truthy (vat_number transaction) = true.
Proof.
  unfold matchByVAT. destruct (vat_number transaction) as [vat |]; cbn.
  - destruct (Js.truthy_string vat); [reflexivity |]. cbn. discriminate.
  - discriminate.
Qed.

Lemma matchTransaction_vat_run transaction companyId config s n vc s1 t1 r s2 t2 f :
  matchByVAT db transaction config s = (Resolved (Some n, vc), s1, t1) ->
  Js.truthy_string n = true ->
  getEmissionFactorWithFallback db n config
    (adoptVatCountry (supplier_country transaction) vc)
    (Some (extractProductHints (description transaction))) s1
    = (Resolved r, s2, t2) ->
  res_factor r = Some f ->
  exists result,
    matchTransaction db transaction companyId config s
      = (Resolved result, s2, t1 ++ t2) /\
    emissionFactor result = Some f /\
    naceCode result = Some n /\
    tier result = res_tier r /\
    method result = vat_lookup /\
    confidence result
      = clamp01 (methodConfidence_vat_lookup config
                 + tierAdjustment config (res_tier r))%float /\
    fallbackApplied result = negb (is_tier1 (res_tier r)).
Proof.
  intros Hvat Hn Hres Hf.
  unfold matchTransaction, strategy_vat.
  rewrite (matchByVAT_some_vat _ _ _ _ _ _ _ Hvat).
  unfold bind at 1. unfold bind at 1. rewrite Hvat.
  cbn [truthy_value]. rewrite Hn.
  unfold bind at 1. rewrite Hres, Hf. cbn [ret].
  rewrite !app_nil_r.
  eexists. split; [reflexivity |]. cbn. auto 10.
Qed.

(** C3.  When the VAT strategy yields a NACE code and the tier
    resolver a factor for it, [matchTransaction] returns that factor
    with method "vat_lookup", whatever the account-code and
    supplier-name strategies would find; the calls made are those of
    the VAT lookup and of the tier resolver, and none of them is an
    account-mapping, by-id, supplier-mapping or usage-increment call. *)
Theorem vat_strategy_wins transaction companyId config s n vc s1 t1 r s2 t2 f :
  matchByVAT db transaction config s = (Resolved (Some n, vc), s1, t1) ->
  Js.truthy_string n = true ->
  getEmissionFactorWithFallback db n config
    (adoptVatCountry (supplier_country transaction) vc)
    (Some (extractProductHints (description transaction))) s1
    = (Resolved r, s2, t2) ->
  res_factor r = Some f ->
  exists result,
    matchTransaction db transaction companyId config s
      = (Resolved result, s2, t1 ++ t2) /\
    method result = vat_lookup /\
    emissionFactor result = Some f /\
    (forall c, In c (t1 ++ t2) -> later_strategy_call c = false).
Proof.
  intros Hvat Hn Hres Hf.
  destruct (matchTransaction_vat_run transaction companyId config
              _ _ _ _ _ _ _ _ _ Hvat Hn Hres Hf)
    as (result & Hrun & Hfactor & _ & _ & Hmethod & _).
  exists result. repeat split; try assumption.
  intros c Hin. apply in_app_or in Hin. destruct Hin as [Hin | Hin].
  - assert (HE : ensures (matchByVAT db transaction config)
                    (fun c => later_strategy_call c = false) (fun _ => True))
      by (apply ensures_matchByVAT; reflexivity).
    exact (proj1 (ensures_from_run _ _ _ _ _ _ _ (HE s) Hvat) c Hin).
  - assert (HE : ensures
                   (getEmissionFactorWithFallback db n config
                      (adoptVatCountry (supplier_country transaction) vc)
                      (Some (extractProductHints (description transaction))))
                   (fun c => later_strategy_call c = false) (fun _ => True))
      by (apply ensures_getEmissionFactorWithFallback; reflexivity).
    exact (proj1 (ensures_from_run _ _ _ _ _ _ _ (HE s1) Hres) c Hin).
Qed.


(** *** The country that tier resolution is given *)

Ltac asks :=
  let cc := fresh "cc" in
  let Hq := fresh "Hq" in
  intros cc Hq; cbn in Hq;
  first [discriminate Hq | inversion Hq; subst; assumption].

Lemma ensures_resolver_asks_for naceCode config countryCode productHints :
  ensures (getEmissionFactorWithFallback db naceCode config countryCode productHints)
    (asks_for countryCode) (fun _ => True).
Proof.
  apply ensures_getEmissionFactorWithFallback; intros; asks.
Qed.

#[local] Hint Resolve ensures_resolver_asks_for : ensures.

Lemma ensures_strategy_account transaction companyId config productHints countryCode :
  ensures (strategy_account db transaction companyId config productHints countryCode)
    (asks_for countryCode) (fun _ => True).
Proof.
  unfold strategy_account, matchByAccountCode.
  ensure; asks.
Qed.

Lemma ensures_strategy_supplier transaction config productHints countryCode :
  ensures (strategy_supplier db transaction config productHints countryCode)
    (asks_for countryCode) (fun _ => True).
Proof.
  unfold strategy_supplier, matchBySupplierName.
  ensure; asks.
Qed.

Lemma adoptVatCountry_none countryCode : adoptVatCountry countryCode None = countryCode.
Proof. unfold adoptVatCountry. cbn. rewrite andb_false_r. reflexivity. Qed.

Lemma adoptVatCountry_set c vatCountry :
  Js.truthy_string c = true -> adoptVatCountry (Some c) vatCountry = Some c.
Proof. unfold adoptVatCountry. cbn. intros ->. reflexivity. Qed.

Lemma matchByVAT_no_vat transaction config s :
  Js.truthy (vat_number transaction) = false ->
  matchByVAT db transaction config s = (Resolved (None, None), s, []).
Proof.
  unfold matchByVAT. destruct (vat_number transaction) as [vat |]; cbn.
  - intros ->. reflexivity.
  - reflexivity.
Qed.

(** The VAT strategy leaves the country it adopted, and asks for no
    other. *)
Lemma strategy_vat_country s transaction config productHints country :
  (forall n vc s1 t1,
      matchByVAT db transaction config s = (Resolved (n, vc), s1, t1) ->
      adoptVatCountry (supplier_country transaction) vc = country) ->
  ensures_from s
    (strategy_vat db transaction config productHints (supplier_country transaction))
    (asks_for country) (fun x => fst x = country).
Proof.
  intros H. unfold strategy_vat.
  destruct (Js.truthy (vat_number transaction)) eqn:Ev.
  - apply (ensures_from_bind s _ _ _
             (fun x => adoptVatCountry (supplier_country transaction) (snd x) = country)).
    + assert (HE : ensures (matchByVAT db transaction config)
                     (asks_for country) (fun _ => True))
        by (apply ensures_matchByVAT; intros; asks).
      specialize (HE s). unfold ensures_from in *.
      destruct (matchByVAT db transaction config s) as [[[[n vc] | e] s1] t1] eqn:E;
        split; try apply HE.
      exact (H n vc s1 t1 eq_refl).
    + intros [n vc] Hq. cbn [snd] in Hq. cbv zeta. rewrite Hq.
      destruct (truthy_value n) as [naceCode |]; [| apply ensures_ret; reflexivity].
      apply (ensures_bind _ _ _ (fun _ => True)).
      * apply ensures_resolver_asks_for.
      * intros r _. destruct (res_factor r); apply ensures_ret; reflexivity.
  - apply ensures_ret. cbn [fst].
    rewrite <- (H None None s [] (matchByVAT_no_vat _ _ _ Ev)).
    symmetry. apply adoptVatCountry_none.
Qed.

Lemma matchTransaction_country s transaction companyId config country :
  (forall n vc s1 t1,
      matchByVAT db transaction config s = (Resolved (n, vc), s1, t1) ->
      adoptVatCountry (supplier_country transaction) vc = country) ->
  ensures_from s (matchTransaction db transaction companyId config)
    (asks_for country) (fun _ => True).
Proof.
  intros H. unfold matchTransaction. cbv zeta.
  apply (ensures_from_bind s _ _ _ (fun x => fst x = country)).
  - apply strategy_vat_country. exact H.
  - intros [cc returned] Hcc. cbn [fst] in Hcc. subst cc.
    destruct returned; [apply ensures_ret; exact I |].
    apply (ensures_bind _ _ _ (fun _ => True)).
    + apply ensures_strategy_account.
    + intros [result |] _; [apply ensures_ret; exact I |].
      apply (ensures_bind _ _ _ (fun _ => True)).
      * apply ensures_strategy_supplier.
      * intros [result |] _; apply ensures_ret; exact I.
Qed.

(** What [matchByVAT] returns as the country: the one derived from the
    identifier, and the cached one only when none was derived. *)
Lemma matchByVAT_country transaction config vat s n vc s1 t1 :
  vat_number transaction = Some vat ->
  matchByVAT db transaction config s = (Resolved (n, vc), s1, t1) ->
  vc = getCountryFromVAT vat
  \/ (Js.truthy (getCountryFromVAT vat) = false /\
      exists cached,
        In (GetVATCache vat (Resolved (Some cached))) t1 /\
        is_valid cached = true /\ vc = vc_country_code cached).
Proof.
  intros Ev. unfold matchByVAT. rewrite Ev.
  destruct (Js.truthy_string vat) eqn:Etv; cbn [negb];
    [| intros H; inv_ret H].
  - intros H. apply bind_resolved_inv in H.
    destruct H as (returned & s0 & t0 & t2 & Hc & H & ->).
    destruct returned as [r0 |]; inv_ret H; [| left; reflexivity].
    destruct (cacheVAT config); [| inv_ret Hc].
    apply bind_resolved_inv in Hc.
    destruct Hc as (cached & s3 & t3 & t4 & Ha & Hc & ->).
    apply await_inv in Ha. destruct Ha as [_ ->].
    destruct cached as [c |]; [| inv_ret Hc].
    destruct (is_valid c) eqn:Evalid; inv_ret Hc.
    unfold Js.or_else.
    destruct (Js.truthy (getCountryFromVAT vat)) eqn:Et; [left; reflexivity |].
    right. split; [reflexivity |]. exists c. cbn. auto.
  - left. (* an empty identifier derives no country *)
    destruct vat; [reflexivity | discriminate Etv].
Qed.

Lemma resolutions_with_app config country hints t t' :
  resolutions_with db config country hints t ->
  resolutions_with db config country hints t' ->
  resolutions_with db config country hints (t ++ t').
Proof.
  intros H H'. induction H as [| c t Hc _ IH | n s o s' t1 t Hr _ IH].
  - exact H'.
  - cbn. apply rw_lookup; assumption.
  - rewrite <- app_assoc. eapply rw_resolution; eassumption.
Qed.

Lemma segmented_ret {A} config country hints (a : A) :
  segmented db config country hints (ret a).
Proof. intros s. constructor. Qed.

Lemma segmented_await {A} config country hints op (log : Outcome Err A -> Call Err) :
  (forall o, lookup_call (log o) = true) ->
  segmented db config country hints (await op log).
Proof.
  intros H s. unfold await. destruct (op s) as [o s1].
  apply rw_lookup; [apply H | constructor].
Qed.

Lemma segmented_bind {A B} config country hints (m : M State Err A) (k : A -> M State Err B) :
  segmented db config country hints m ->
  (forall a, segmented db config country hints (k a)) ->
  segmented db config country hints (bind m k).
Proof.
  intros Hm Hk s. unfold bind. specialize (Hm s).
  destruct (m s) as [[[a | e] s1] t1]; [| exact Hm].
  specialize (Hk a s1). destruct (k a s1) as [[o s2] t2].
  apply resolutions_with_app; assumption.
Qed.

Lemma segmented_resolver config country hints n :
  segmented db config country hints
    (getEmissionFactorWithFallback db n config country hints).
Proof.
  intros s.
  destruct (getEmissionFactorWithFallback db n config country hints s)
    as [[o s'] t] eqn:E.
  rewrite <- (app_nil_r t). eapply rw_resolution; [exact E | constructor].
Qed.

Ltac segment :=
  repeat first
    [ apply segmented_ret
    | apply segmented_resolver
    | apply segmented_await; intros; reflexivity
    | apply segmented_bind; [| intros ?]
    | match goal with
      | |- segmented _ _ _ _ (match ?x with _ => _ end) => destruct x
      | |- segmented _ _ _ _ (if ?b then _ else _) => destruct b
      end ].

Lemma segmented_matchByVAT config country hints transaction :
  segmented db config country hints (matchByVAT db transaction config).
Proof. unfold matchByVAT. segment. Qed.

Lemma segmented_strategy_account config hints transaction companyId country :
  segmented db config country (Some hints)
    (strategy_account db transaction companyId config hints country).
Proof. unfold strategy_account, matchByAccountCode. segment. Qed.

Lemma segmented_strategy_supplier config hints transaction country :
  segmented db config country (Some hints)
    (strategy_supplier db transaction config hints country).
Proof. unfold strategy_supplier, matchBySupplierName. segment. Qed.

Lemma strategy_vat_segmented s transaction config country :
  (forall n vc s1 t1,
      matchByVAT db transaction config s = (Resolved (n, vc), s1, t1) ->
      adoptVatCountry (supplier_country transaction) vc = country) ->
  match strategy_vat db transaction config
          (extractProductHints (description transaction))
          (supplier_country transaction) s with
  | (o, _, t) =>
      resolutions_with db config country
        (Some (extractProductHints (description transaction))) t
      /\ forall cc r, o = Resolved (cc, r) -> cc = country
  end.
Proof.
  intros H. unfold strategy_vat.
  destruct (Js.truthy (vat_number transaction)) eqn:Ev.
  - unfold bind at 1.
    pose proof (segmented_matchByVAT config country
                  (Some (extractProductHints (description transaction)))
                  transaction s) as Hv.
    destruct (matchByVAT db transaction config s) as [[[[n vc] | e] s1] t1] eqn:E.
    + specialize (H n vc s1 t1 eq_refl). cbv zeta. rewrite H.
      destruct (truthy_value n) as [naceCode |].
      * unfold bind.
        pose proof (segmented_resolver config country
                      (Some (extractProductHints (description transaction)))
                      naceCode s1) as Hr.
        destruct (getEmissionFactorWithFallback db naceCode config country
                    (Some (extractProductHints (description transaction))) s1)
          as [[[r | e] s2] t2].
        -- destruct (res_factor r); cbn; rewrite app_nil_r;
             (split; [apply resolutions_with_app; assumption |]);
             intros cc r0 Hx; inversion Hx; reflexivity.
        -- split; [apply resolutions_with_app; assumption | discriminate].
      * cbn. rewrite app_nil_r. split; [exact Hv |].
        intros cc r0 Hx; inversion Hx; reflexivity.
    + split; [exact Hv | discriminate].
  - cbn. split; [constructor |]. intros cc r Hx. inversion Hx; subst.
    rewrite <- (H None None s [] (matchByVAT_no_vat _ _ _ Ev)).
    symmetry. apply adoptVatCountry_none.
Qed.

Lemma matchTransaction_segmented s transaction companyId config country :
  (forall n vc s1 t1,
      matchByVAT db transaction config s = (Resolved (n, vc), s1, t1) ->
      adoptVatCountry (supplier_country transaction) vc = country) ->
  match matchTransaction db transaction companyId config s with
  | (_, _, t) =>
      resolutions_with db config country
        (Some (extractProductHints (description transaction))) t
  end.
Proof.
  intros H. apply strategy_vat_segmented in H.
  unfold matchTransaction. cbv zeta. unfold bind at 1.
  destruct (strategy_vat db transaction config
              (extractProductHints (description transaction))
              (supplier_country transaction) s) as [[[[cc returned] | e] s1] t1];
    destruct H as [Ht Hcc]; [| exact Ht].
  rewrite (Hcc cc returned eq_refl).
  assert (Hk : segmented db config country
                 (Some (extractProductHints (description transaction)))
                 (match returned with
                  | Some result => ret result
                  | None =>
                      bind (strategy_account db transaction companyId config
                              (extractProductHints (description transaction)) country)
                        (fun returned0 =>
                           match returned0 with
                           | Some result => ret result
                           | None =>
                               bind (strategy_supplier db transaction config
                                       (extractProductHints (description transaction))
                                       country)
                                 (fun returned1 =>
                                    match returned1 with
                                    | Some result => ret result
                                    | None => ret NO_MATCH
                                    end)
                           end)
                  end)).
  { destruct returned; [apply segmented_ret |].
    apply segmented_bind; [apply segmented_strategy_account |].
    intros [result |]; [apply segmented_ret |].
    apply segmented_bind; [apply segmented_strategy_supplier |].
    intros [result |]; apply segmented_ret. }
  specialize (Hk s1).
  match goal with
  | |- match (match ?x with _ => _ end) with _ => _ end =>
      destruct x as [[o s2] t2]
  end.
  apply resolutions_with_app; assumption.
Qed.

(** What the VAT strategy leaves when its lookup returned no NACE
    code. *)
Lemma strategy_vat_no_nace transaction config hints s vatNace vc s1 t1 :
  matchByVAT db transaction config s = (Resolved (vatNace, vc), s1, t1) ->
  truthy_value vatNace = None ->
  strategy_vat db transaction config hints (supplier_country transaction) s
  = (Resolved (adoptVatCountry (supplier_country transaction) vc, None), s1, t1).
Proof.
  intros Hv Hn. unfold strategy_vat.
  destruct (Js.truthy (vat_number transaction)) eqn:Ev.
  - unfold bind. rewrite Hv. cbv zeta. rewrite Hn. cbn. rewrite app_nil_r.
    reflexivity.
  - rewrite (matchByVAT_no_vat _ _ _ Ev) in Hv. inversion Hv; subst.
    rewrite adoptVatCountry_none. reflexivity.
Qed.

Lemma or_null_truthy_value country : or_null country = truthy_value country.
Proof.
  unfold or_null, Js.or_else, truthy_value, Js.truthy.
  destruct country as [c |]; [destruct (Js.truthy_string c) |]; reflexivity.
Qed.

Lemma resolves_next_vat transaction companyId config s vatNace vc s1 t1 n :
  matchByVAT db transaction config s = (Resolved (vatNace, vc), s1, t1) ->
  truthy_value vatNace = Some n ->
  resolves_next db transaction companyId config s
    (adoptVatCountry (supplier_country transaction) vc) t1 s1 n.
Proof.
  intros Hv Hn. unfold resolves_next.
  assert (Ev : Js.truthy (vat_number transaction) = true).
  { destruct (Js.truthy (vat_number transaction)) eqn:Ev; [reflexivity |].
    rewrite (matchByVAT_no_vat _ _ _ Ev) in Hv. inversion Hv; subst.
    discriminate Hn. }
  unfold matchTransaction, strategy_vat. cbv zeta. rewrite Ev.
  unfold bind at 1. unfold bind at 1. rewrite Hv. cbv zeta. rewrite Hn.
  unfold bind at 1.
  destruct (getEmissionFactorWithFallback db n config
              (adoptVatCountry (supplier_country transaction) vc)
              (Some (extractProductHints (description transaction))) s1)
    as [[[r | e] s2] t2].
  - destruct (res_factor r) as [f |] eqn:Ef.
    + cbn. rewrite !app_nil_r. split; [exists []; rewrite app_nil_r; reflexivity |].
      split; [discriminate |].
      intros r0 f0 Hx Hf. inversion Hx; subst r0. rewrite Ef in Hf.
      inversion Hf; subst f0. split; [reflexivity |]. split; [reflexivity |].
      eexists. split; [reflexivity |]. cbn.
      rewrite or_null_truthy_value. auto.
    + unfold ret at 1. cbv iota beta. rewrite app_nil_r.
      match goal with
      | |- match (match ?x with _ => _ end) with _ => _ end =>
          destruct x as [[o s3] t3]
      end.
      split; [exists t3; rewrite app_assoc; reflexivity |].
      split; [discriminate |].
      intros r0 f0 Hx Hf. inversion Hx; subst r0. congruence.
  - split; [exists []; rewrite app_nil_r; reflexivity |].
    split; [intros e0 Hx; inversion Hx; auto | discriminate].
Qed.

Lemma resolves_next_account transaction companyId config s vatNace vc s1 t1
    accountNace emissionFactorId s2 t2 n :
  matchByVAT db transaction config s = (Resolved (vatNace, vc), s1, t1) ->
  truthy_value vatNace = None ->
  Js.truthy (account_code transaction) && Js.truthy companyId = true ->
  matchByAccountCode db transaction companyId s1
    = (Resolved (accountNace, emissionFactorId), s2, t2) ->
  truthy_value emissionFactorId = None ->
  truthy_value accountNace = Some n ->
  resolves_next db transaction companyId config s
    (adoptVatCountry (supplier_country transaction) vc) (t1 ++ t2) s2 n.
Proof.
  intros Hv Hn Ha Hm Hi Hc. unfold resolves_next.
  unfold matchTransaction. cbv zeta. unfold bind at 1.
  rewrite (strategy_vat_no_nace _ _ _ _ _ _ _ _ Hv Hn).
  unfold strategy_account. rewrite Ha.
  unfold bind at 1. unfold bind at 1. rewrite Hm. cbv iota beta. rewrite Hi.
  unfold bind at 1. unfold ret at 1. cbv iota beta. rewrite Hc.
  unfold bind at 1.
  destruct (getEmissionFactorWithFallback db n config
              (adoptVatCountry (supplier_country transaction) vc)
              (Some (extractProductHints (description transaction))) s2)
    as [[[r | e] s3] t3].
  - destruct (res_factor r) as [f |] eqn:Ef.
    + cbn. rewrite !app_nil_r.
      split; [exists []; rewrite app_nil_r, app_assoc; reflexivity |].
      split; [discriminate |].
      intros r0 f0 Hx Hf. inversion Hx; subst r0. rewrite Ef in Hf.
      inversion Hf; subst f0. split; [reflexivity |].
      split; [rewrite app_assoc; reflexivity |].
      eexists. split; [reflexivity |]. cbn.
      rewrite or_null_truthy_value. auto.
    + cbv beta iota delta [ret]. rewrite app_nil_r. cbn [app].
      match goal with
      | |- context [bind (strategy_supplier ?a ?b ?c ?d ?e) ?k ?st] =>
          destruct (bind (strategy_supplier a b c d e) k st) as [[o s4] t4]
      end.
      split; [exists t4; rewrite !app_assoc; reflexivity |].
      split; [discriminate |].
      intros r0 f0 Hx Hf. inversion Hx; subst r0. congruence.
  - cbn. rewrite ?app_nil_r.
    split; [exists []; rewrite app_nil_r, app_assoc; reflexivity |].
    split; [intros e0 Hx; inversion Hx; rewrite app_assoc; auto | discriminate].
Qed.

Lemma resolves_next_supplier transaction companyId config s vatNace vc s1 t1
    supplierNace s2 t2 n :
  matchByVAT db transaction config s = (Resolved (vatNace, vc), s1, t1) ->
  truthy_value vatNace = None ->
  Js.truthy (account_code transaction) && Js.truthy companyId = false ->
  matchBySupplierName db transaction config s1 = (Resolved supplierNace, s2, t2) ->
  truthy_value supplierNace = Some n ->
  resolves_next db transaction companyId config s
    (adoptVatCountry (supplier_country transaction) vc) (t1 ++ t2) s2 n.
Proof.
  intros Hv Hn Ha Hm Hc. unfold resolves_next.
  unfold matchTransaction. cbv zeta. unfold bind at 1.
  rewrite (strategy_vat_no_nace _ _ _ _ _ _ _ _ Hv Hn).
  unfold strategy_account. rewrite Ha.
  unfold bind at 1. unfold ret at 1. cbv iota beta.
  unfold strategy_supplier.
  unfold bind at 1. unfold bind at 1. rewrite Hm. cbv iota beta. rewrite Hc.
  unfold bind at 1.
  destruct (getEmissionFactorWithFallback db n config
              (adoptVatCountry (supplier_country transaction) vc)
              (Some (extractProductHints (description transaction))) s2)
    as [[[r | e] s3] t3].
  - destruct (res_factor r) as [f |] eqn:Ef.
    + cbn. rewrite ?app_nil_r. rewrite !app_assoc.
      split; [exists []; rewrite app_nil_r; reflexivity |].
      split; [discriminate |].
      intros r0 f0 Hx Hf. inversion Hx; subst r0. rewrite Ef in Hf.
      inversion Hf; subst f0. split; [reflexivity |]. split; [reflexivity |].
      eexists. split; [reflexivity |]. cbn.
      rewrite or_null_truthy_value. auto.
    + cbn. rewrite ?app_nil_r. rewrite !app_assoc.
      split; [exists []; rewrite app_nil_r; reflexivity |].
      split; [discriminate |].
      intros r0 f0 Hx Hf. inversion Hx; subst r0. congruence.
  - cbn. rewrite ?app_nil_r. rewrite !app_assoc.
    split; [exists []; rewrite app_nil_r; reflexivity |].
    split; [intros e0 Hx; inversion Hx; auto | discriminate].
Qed.

Lemma passes_adopted_country transaction companyId config s vatNace vc s1 t1 :
  matchByVAT db transaction config s = (Resolved (vatNace, vc), s1, t1) ->
  passes_country db transaction companyId config s vatNace s1 t1
    (adoptVatCountry (supplier_country transaction) vc).
Proof.
  intros Hv.
  assert (Hc : forall n' vc' s1' t1',
             matchByVAT db transaction config s = (Resolved (n', vc'), s1', t1') ->
             adoptVatCountry (supplier_country transaction) vc'
             = adoptVatCountry (supplier_country transaction) vc).
  { intros n' vc' s1' t1' Hv'. rewrite Hv in Hv'. congruence. }
  unfold passes_country. split; [| split; [| split]].
  - pose proof (matchTransaction_segmented s transaction companyId config _ Hc) as Hs.
    pose proof (matchTransaction_country s transaction companyId config _ Hc) as Hq.
    unfold ensures_from in Hq.
    destruct (matchTransaction db transaction companyId config s) as [[o s'] t].
    split; [exact Hs |]. intros call cc Hin Hcc. exact (proj1 Hq call Hin cc Hcc).
  - intros n Hn. eapply resolves_next_vat; eassumption.
  - intros Hn Ha accountNace i s2 t2 n Hm Hi Hnn.
    eapply resolves_next_account; eassumption.
  - intros Hn Ha supplierNace s2 t2 n Hm Hnn.
    eapply resolves_next_supplier; eassumption.
Qed.

Lemma passes_stated_country transaction companyId config s
    vatNace vatCountry s1 t1 :
  matchByVAT db transaction config s = (Resolved (vatNace, vatCountry), s1, t1) ->
  (forall c, supplier_country transaction = Some c -> Js.truthy_string c = true ->
     passes_country db transaction companyId config s vatNace s1 t1 (Some c))
  /\ (Js.truthy (supplier_country transaction) = false ->
      Js.truthy vatCountry = true ->
      passes_country db transaction companyId config s vatNace s1 t1 vatCountry)
  /\ (Js.truthy (supplier_country transaction) = false ->
      Js.truthy vatCountry = false ->
      passes_country db transaction companyId config s vatNace s1 t1
        (supplier_country transaction))
  /\ (forall vat, vat_number transaction = Some vat ->
        vatCountry = getCountryFromVAT vat
        \/ (Js.truthy (getCountryFromVAT vat) = false /\
            exists cached,
              In (GetVATCache vat (Resolved (Some cached))) t1 /\
              is_valid cached = true /\ vatCountry = vc_country_code cached)).
Proof.
  intros Hv. pose proof (passes_adopted_country _ companyId _ _ _ _ _ _ Hv) as H.
  split; [| split; [| split]].
  - intros c Hc Ht. rewrite Hc in H. rewrite (adoptVatCountry_set _ _ Ht) in H.
    exact H.
  - intros Hs Hvc. unfold adoptVatCountry in H. rewrite Hs, Hvc in H. exact H.
  - intros Hs Hvc. unfold adoptVatCountry in H. rewrite Hs, Hvc in H. exact H.
  - intros vat Ev. eapply matchByVAT_country; eassumption.
Qed.

Lemma matchByVAT_rejected transaction companyId config s e s1 t1 :
  matchByVAT db transaction config s = (Rejected e, s1, t1) ->
  matchTransaction db transaction companyId config s = (Rejected e, s1, t1).
Proof.
  intros Hv.
  assert (Ev : Js.truthy (vat_number transaction) = true).
  { destruct (Js.truthy (vat_number transaction)) eqn:Ev; [reflexivity |].
    rewrite (matchByVAT_no_vat _ _ _ Ev) in Hv. discriminate Hv. }
  unfold matchTransaction, strategy_vat. cbv zeta. rewrite Ev.
  unfold bind. rewrite Hv. reflexivity.
Qed.



(** *** A recognised VAT prefix, a cached activity and an exact factor *)

Lemma getCountryFromVAT_truthy vat c :
  getCountryFromVAT vat = Some c ->
  Js.truthy_string vat = true /\ Js.truthy_string c = true.
Proof.
  unfold getCountryFromVAT.
  destruct (Js.truthy_string vat); cbn [negb orb]; [| discriminate].
  destruct (String.length vat <? 2)%nat; [discriminate |].
  unfold Js.or_else.
  destruct (Js.truthy (table_get VAT_COUNTRY_MAP
                         (Js.toUpperCase (substring 0 2 vat)))) eqn:E;
    [| discriminate].
  intros H. rewrite H in E. auto.
Qed.

Lemma matchByVAT_cached transaction config s vat cached s1 :
  vat_number transaction = Some vat ->
  Js.truthy_string vat = true ->
  cacheVAT config = true ->
  getVATCache db vat s = (Resolved (Some cached), s1) ->
  is_valid cached = true ->
  matchByVAT db transaction config s
  = (Resolved (vc_nace_code cached,
               Js.or_else (getCountryFromVAT vat) (vc_country_code cached)),
     s1, [GetVATCache vat (Resolved (Some cached))]).
Proof.
  intros Ev Et Ec Hc Hvalid. unfold matchByVAT. rewrite Ev, Et, Ec.
  cbn [negb]. unfold bind, await. rewrite Hc, Hvalid. reflexivity.
Qed.

Lemma getEmissionFactorWithFallback_tier1 naceCode config cc productHints s f s' t :
  Js.truthy_string cc = true ->
  getEmissionFactorTier1 db naceCode cc productHints s = (Resolved (Some f), s', t) ->
  exists r,
    getEmissionFactorWithFallback db naceCode config (Some cc) productHints s
      = (Resolved r, s', t) /\
    res_factor r = Some f /\ res_tier r = Some Tier1.
Proof.
  intros Ecc H. unfold getEmissionFactorWithFallback. rewrite Ecc.
  unfold bind at 1. unfold bind at 1. rewrite H. cbn [ret].
  rewrite !app_nil_r. eexists. split; [reflexivity |]. auto.
Qed.


(** *** Tier 4 on a record without a scope-3 value *)

Lemma last_call_eq (t0 t1 : list (Call Err)) a b :
  t0 ++ [a] = t1 ++ [b] -> a = b.
Proof. intros H. apply app_inj_tail in H. tauto. Qed.

Lemma resolved_by_tier4 naceCode config countryCode productHints s r s' t t0 row :
  getEmissionFactorWithFallback db naceCode config countryCode productHints s
    = (Resolved r, s', t) ->
  t = t0 ++ [FindNACEEmissionFactor naceCode (Resolved (Some row))] ->
  res_tier r = Some Tier4 /\ res_factor r = Some (sectorAverage naceCode row).
Proof.
  intros H Et. apply getEmissionFactorWithFallback_resolved in H.
  unfold resolution_record in H. destruct (res_tier r) as [[| | |] |].
  - destruct H as (cc & f & _ & _ & before & hint & after & _ & ->).
    apply last_call_eq in Et. discriminate.
  - destruct H as (cc & f & t1 & t2 & _ & _ & -> & _ & first & rest & -> & _).
    apply last_call_eq in Et. discriminate.
  - destruct H as (f & t12 & t3 & _ & -> & _ & first & rest & -> & _).
    apply last_call_eq in Et. discriminate.
  - destruct H as (f & t12 & t3 & t4 & Hf & -> & _ & _ & row' & -> & ->).
    rewrite app_assoc in Et. apply last_call_eq in Et. inversion Et; subst. auto.
  - destruct H as (t12 & t3 & t4 & _ & -> & _ & _ & ->).
    rewrite app_assoc in Et. apply last_call_eq in Et. discriminate.
Qed.

(** C10.  For an aggregated record whose scope-3 value is null, the
    factor tier 4 builds has intensity exactly 0 and confidence level
    "low"; tier 4 returns it whenever the repository returns that
    record; and a resolution whose last call returned that record
    reports tier 4 with that factor, not a null factor and tier. *)
Theorem tier4_without_scope3_is_zero naceCode row :
  scope_3_factor row = None ->
  emission_factor_kgco2e_per_eur (sectorAverage naceCode row) = 0%float
  /\ confidence_level (sectorAverage naceCode row) = Some low
  /\ (forall s s',
        findNACEEmissionFactor db naceCode s = (Resolved (Some row), s') ->
        getEmissionFactorTier4 db naceCode s
        = (Resolved (Some (sectorAverage naceCode row)), s',
           [FindNACEEmissionFactor naceCode (Resolved (Some row))]))
  /\ (forall config countryCode productHints s r s' t t0,
        getEmissionFactorWithFallback db naceCode config countryCode productHints s
          = (Resolved r, s', t) ->
        t = t0 ++ [FindNACEEmissionFactor naceCode (Resolved (Some row))] ->
        res_tier r = Some Tier4 /\
        res_factor r = Some (sectorAverage naceCode row)).
Proof.
  intros Hnull. repeat split.
  - cbn. rewrite Hnull. reflexivity.
  - intros s s' H. unfold getEmissionFactorTier4, bind, await. rewrite H. reflexivity.
  - eapply resolved_by_tier4; eassumption.
  - eapply resolved_by_tier4; eassumption.
Qed.

(** *** The synthetic factors of tiers 2 and 3 *)

Lemma avgEmissionFactor_mean factors :
  avgEmissionFactor factors
  = arithmetic_mean (map emission_factor_kgco2e_per_eur factors).
Proof.
  unfold avgEmissionFactor, arithmetic_mean. rewrite length_map. f_equal.
  generalize 0%float. induction factors as [| f rest IH]; intros acc; cbn.
  - reflexivity.
  - apply IH.
Qed.

Lemma meta_get_set k v m : meta_get k (meta_set k v m) = Some v.
Proof.
  induction m as [| [k' v'] r IH]; cbn.
  - rewrite String.eqb_refl. reflexivity.
  - destruct (String.eqb k k') eqn:E; cbn.
    + rewrite String.eqb_refl. reflexivity.
    + rewrite E. exact IH.
Qed.

Lemma meta_get_set_other k k' v m :
  String.eqb k k' = false -> meta_get k (meta_set k' v m) = meta_get k m.
Proof.
  intros E. induction m as [| [k0 v0] r IH]; cbn.
  - rewrite E. reflexivity.
  - destruct (String.eqb k' k0) eqn:E0; cbn.
    + apply String.eqb_eq in E0. subst k0. rewrite E. reflexivity.
    + rewrite IH. reflexivity.
Qed.

(** Reading a key of an object on which three keys were set. *)
Lemma meta_get_set3 k k1 v1 k2 v2 k3 v3 m :
  String.eqb k1 k2 = false -> String.eqb k1 k3 = false ->
  String.eqb k2 k3 = false ->
  meta_get k (meta_set k1 v1 (meta_set k2 v2 (meta_set k3 v3 m)))
  = if String.eqb k k1 then Some v1
    else if String.eqb k k2 then Some v2
    else if String.eqb k k3 then Some v3
    else meta_get k m.
Proof.
  intros E12 E13 E23.
  destruct (String.eqb k k1) eqn:E1.
  - apply String.eqb_eq in E1. subst k. apply meta_get_set.
  - rewrite (meta_get_set_other _ _ _ _ E1).
    destruct (String.eqb k k2) eqn:E2.
    + apply String.eqb_eq in E2. subst k. apply meta_get_set.
    + rewrite (meta_get_set_other _ _ _ _ E2).
      destruct (String.eqb k k3) eqn:E3.
      * apply String.eqb_eq in E3. subst k. apply meta_get_set.
      * apply meta_get_set_other. exact E3.
Qed.

(** C5.  For a non-empty answer [first :: rest] to the aggregate query
    of tier 2 or of tier 3, the factor built has as intensity the
    unweighted arithmetic mean of the rows' intensities, a null product
    code and confidence level "medium".  Every other field is the first
    row's, the activation flag and the two time stamps included, but
    for the product name, which tells what was averaged, for the
    country code and name at tier 3, which are those of the EU marker,
    and for three keys of the metadata: the tier, the number of rows
    averaged and the reason for the fallback, set on top of the first
    row's metadata.  That factor is what the tier returns. *)
Theorem synthesized_factor_is_mean first rest :
  (emission_factor_kgco2e_per_eur (countryAverage first (first :: rest))
     = arithmetic_mean (map emission_factor_kgco2e_per_eur (first :: rest))
   /\ exiobase_product_code (countryAverage first (first :: rest)) = None
   /\ confidence_level (countryAverage first (first :: rest)) = Some medium
   /\ id (countryAverage first (first :: rest)) = id first
   /\ nace_code (countryAverage first (first :: rest)) = nace_code first
   /\ category (countryAverage first (first :: rest)) = category first
   /\ subcategory (countryAverage first (first :: rest)) = subcategory first
   /\ country_code (countryAverage first (first :: rest)) = country_code first
   /\ country_name (countryAverage first (first :: rest)) = country_name first
   /\ physical_unit (countryAverage first (first :: rest)) = physical_unit first
   /\ scope (countryAverage first (first :: rest)) = scope first
   /\ region (countryAverage first (first :: rest)) = region first
   /\ data_source (countryAverage first (first :: rest)) = data_source first
   /\ is_active (countryAverage first (first :: rest)) = is_active first
   /\ created_at (countryAverage first (first :: rest)) = created_at first
   /\ updated_at (countryAverage first (first :: rest)) = updated_at first
   /\ emission_factor_kgco2e_per_unit (countryAverage first (first :: rest))
      = emission_factor_kgco2e_per_unit first
   /\ source_year (countryAverage first (first :: rest)) = source_year first
   /\ total_output_eur (countryAverage first (first :: rest))
      = total_output_eur first
   /\ num_countries (countryAverage first (first :: rest)) = num_countries first
   /\ exiobase_product_name (countryAverage first (first :: rest))
      = Some ("Country Average ("
                ++ Js.string_of_nat (List.length (first :: rest)) ++ " products)")%string
   /\ exists m,
        metadata (countryAverage first (first :: rest)) = Some m
        /\ forall k,
             meta_get k m
             = if String.eqb k "fallback_reason"
               then Some (MetaString "No exact product match, using country average")
               else if String.eqb k "num_products_averaged"
               then Some (MetaNumber (Js.number_of_nat (List.length (first :: rest))))
               else if String.eqb k "tier" then Some (MetaNumber 2%float)
               else meta_get k (meta_spread (metadata first)))
  /\ (emission_factor_kgco2e_per_eur (euAverage first (first :: rest))
        = arithmetic_mean (map emission_factor_kgco2e_per_eur (first :: rest))
      /\ exiobase_product_code (euAverage first (first :: rest)) = None
      /\ confidence_level (euAverage first (first :: rest)) = Some medium
      /\ id (euAverage first (first :: rest)) = id first
      /\ nace_code (euAverage first (first :: rest)) = nace_code first
      /\ category (euAverage first (first :: rest)) = category first
      /\ subcategory (euAverage first (first :: rest)) = subcategory first
      /\ physical_unit (euAverage first (first :: rest)) = physical_unit first
      /\ scope (euAverage first (first :: rest)) = scope first
      /\ region (euAverage first (first :: rest)) = region first
      /\ data_source (euAverage first (first :: rest)) = data_source first
      /\ is_active (euAverage first (first :: rest)) = is_active first
      /\ created_at (euAverage first (first :: rest)) = created_at first
      /\ updated_at (euAverage first (first :: rest)) = updated_at first
      /\ emission_factor_kgco2e_per_unit (euAverage first (first :: rest))
         = emission_factor_kgco2e_per_unit first
      /\ source_year (euAverage first (first :: rest)) = source_year first
      /\ total_output_eur (euAverage first (first :: rest)) = total_output_eur first
      /\ num_countries (euAverage first (first :: rest)) = num_countries first
      /\ country_code (euAverage first (first :: rest)) = Some "EU"
      /\ country_name (euAverage first (first :: rest))
         = Some "European Union (Average)"
      /\ exiobase_product_name (euAverage first (first :: rest))
         = Some ("EU Average ("
                   ++ Js.string_of_nat (List.length (first :: rest)) ++ " factors)")%string
      /\ exists m,
           metadata (euAverage first (first :: rest)) = Some m
           /\ forall k,
                meta_get k m
                = if String.eqb k "fallback_reason"
                  then Some (MetaString "No country-specific data, using EU average")
                  else if String.eqb k "num_factors_averaged"
                  then Some (MetaNumber
                               (Js.number_of_nat (List.length (first :: rest))))
                  else if String.eqb k "tier" then Some (MetaNumber 3%float)
                  else meta_get k (meta_spread (metadata first)))
  /\ (forall naceCode countryCode s s',
        findEmissionFactors db (tier2_query naceCode countryCode) s
          = (Resolved (Some (first :: rest)), s') ->
        getEmissionFactorTier2 db naceCode countryCode s
        = (Resolved (Some (countryAverage first (first :: rest))), s',
           [FindEmissionFactors (tier2_query naceCode countryCode)
              (Resolved (Some (first :: rest)))]))
  /\ (forall naceCode s s',
        findEmissionFactors db (tier3_query naceCode) s
          = (Resolved (Some (first :: rest)), s') ->
        getEmissionFactorTier3 db naceCode s
        = (Resolved (Some (euAverage first (first :: rest))), s',
           [FindEmissionFactors (tier3_query naceCode)
              (Resolved (Some (first :: rest)))])).
Proof.
  split; [| split; [| split]].
  - split; [apply (avgEmissionFactor_mean (first :: rest)) |].
    do 20 (split; [reflexivity |]).
    eexists. split; [reflexivity |]. intros k.
    apply meta_get_set3; reflexivity.
  - split; [apply (avgEmissionFactor_mean (first :: rest)) |].
    do 20 (split; [reflexivity |]).
    eexists. split; [reflexivity |]. intros k.
    apply meta_get_set3; reflexivity.
  - intros naceCode countryCode s s' H.
    unfold getEmissionFactorTier2, bind, await. rewrite H. reflexivity.
  - intros naceCode s s' H.
    unfold getEmissionFactorTier3, bind, await. rewrite H. reflexivity.
Qed.


End Properties.

(* ================================================================== *)
(** ** The properties on the sample repository *)


(** The confidence rule on a French purchase, resolved at tier 3. *)
Lemma confidence_rule_witness :
  exists result s' t,
    well_formed_config DEFAULT_CONFIG = true
    /\ matchTransaction (memory_db sample_tables) french_transaction None
         DEFAULT_CONFIG 0 = (Resolved result, s', t)
    /\ method result = supplier_mapping
    /\ exists tr,
         tier result = Some tr /\
         confidence result = ruleConfidence DEFAULT_CONFIG (method result) tr /\
         (tr = Tier1 -> confidence result = baseConfidence DEFAULT_CONFIG (method result)).
Proof.
  eexists _, _, _.
  split; [vm_compute; reflexivity |].
  split; [vm_compute; reflexivity |].
  split; [reflexivity |].
  eapply (confidence_rule (memory_db sample_tables) french_transaction None
            DEFAULT_CONFIG 0).
  - vm_compute. reflexivity.
  - vm_compute. reflexivity.
  - discriminate.
Defined.

(** With an account-mapping confidence of 2, a pre-mapped result has
    confidence 2, where the clamp of the rule gives 1. *)
Lemma confidence_rule_counterexample :
  exists result s' t,
    matchTransaction (memory_db sample_tables) premapped_transaction (Some "acme")
      overconfident_config 0 = (Resolved result, s', t)
    /\ method result = account_mapping
    /\ tier result = Some Tier1
    /\ confidence result = 2%float
    /\ ruleConfidence overconfident_config account_mapping Tier1 = 1%float
    /\ confidence result <> ruleConfidence overconfident_config (method result) Tier1.
Proof.
  eexists _, _, _.
  split; [vm_compute; reflexivity |].
  repeat split; try (vm_compute; reflexivity).
  intros H. apply (f_equal (fun x => PrimFloat.eqb x 1%float)) in H.
  vm_compute in H. discriminate.
Qed.

(** The sample purchase carries a cached VAT number and a mapped
    account code: the VAT result is returned, the account never looked
    up. *)
Lemma vat_strategy_wins_witness :
  exists n vc t1 r t2 f,
    matchByVAT (memory_db sample_tables) sample_transaction DEFAULT_CONFIG 0
      = (Resolved (Some n, vc), 0, t1)
    /\ Js.truthy_string n = true
    /\ getEmissionFactorWithFallback (memory_db sample_tables) n DEFAULT_CONFIG
         (adoptVatCountry (supplier_country sample_transaction) vc)
         (Some (extractProductHints (description sample_transaction))) 0
       = (Resolved r, 0, t2)
    /\ res_factor r = Some f
    /\ exists result,
         matchTransaction (memory_db sample_tables) sample_transaction (Some "acme")
           DEFAULT_CONFIG 0 = (Resolved result, 0, t1 ++ t2)
         /\ method result = vat_lookup
         /\ emissionFactor result = Some f
         /\ (forall c, In c (t1 ++ t2) -> later_strategy_call c = false).
Proof.
  eexists _, _, _, _, _, _.
  split; [vm_compute; reflexivity |].
  split; [reflexivity |].
  split; [vm_compute; reflexivity |].
  split; [reflexivity |].
  eapply (vat_strategy_wins (memory_db sample_tables) sample_transaction (Some "acme")
            DEFAULT_CONFIG 0 _ _ 0 _ _ 0).
  - vm_compute. reflexivity.
  - reflexivity.
  - vm_compute. reflexivity.
  - reflexivity.
Defined.

(** C4, amended.  [extractProductHints] applied to
    "Monthly electricity - wind power" returns the sequence
    "wind", "electricity": it contains both hints, with "wind" before
    "electricity". *)
Theorem product_hints_scan_order :
  extractProductHints (Some "Monthly electricity - wind power")
    = ["wind"; "electricity"]
  /\ In "electricity" (extractProductHints (Some "Monthly electricity - wind power"))
  /\ In "wind" (extractProductHints (Some "Monthly electricity - wind power"))
  /\ appears_before "wind" "electricity"
       (extractProductHints (Some "Monthly electricity - wind power")).
Proof.
  assert (E : extractProductHints (Some "Monthly electricity - wind power")
              = ["wind"; "electricity"]) by (vm_compute; reflexivity).
  rewrite E. repeat split.
  - right. left. reflexivity.
  - left. reflexivity.
  - exists 0%nat, 1%nat. repeat split. lia.
Qed.

(** "electricity" does not come before "wind" in the hints of
    "Monthly electricity - wind power". *)
Lemma product_hints_counterexample :
  extractProductHints (Some "Monthly electricity - wind power")
    = ["wind"; "electricity"]
  /\ ~ appears_before "electricity" "wind"
         (extractProductHints (Some "Monthly electricity - wind power")).
Proof.
  assert (E : extractProductHints (Some "Monthly electricity - wind power")
              = ["wind"; "electricity"]) by (vm_compute; reflexivity).
  rewrite E. split; [reflexivity |].
  intros (i & j & Hi & Hj & Hlt).
  destruct i as [| [| i]]; cbn in Hi; try discriminate.
  - destruct j as [| j]; [lia |]. 
    destruct j as [| j]; cbn in Hj; [discriminate |].
    destruct j; discriminate.
  - destruct i; discriminate.
Qed.

(** A French purchase resolves at tier 3, with the fallback flag set. *)
Lemma fallbackApplied_witness :
  exists result s' t,
    matchTransaction (memory_db sample_tables) french_transaction None
      DEFAULT_CONFIG 0 = (Resolved result, s', t)
    /\ tier result = Some Tier3
    /\ fallbackApplied result = true
    /\ (fallbackApplied result = true <->
          tier result = Some Tier2 \/ tier result = Some Tier3 \/ tier result = Some Tier4)
    /\ (tier result = Some Tier1 -> fallbackApplied result = false)
    /\ (tier result = None -> method result = none /\ fallbackApplied result = false)
    /\ (method result = none -> tier result = None).
Proof.
  eexists _, _, _.
  split; [vm_compute; reflexivity |].
  split; [reflexivity |].
  split; [reflexivity |].
  eapply (fallbackApplied_iff_lower_tier (memory_db sample_tables) french_transaction
            None DEFAULT_CONFIG 0).
  vm_compute. reflexivity.
Defined.



(** A supplier mapped to an activity known only by an aggregated
    record without a scope-3 value: a tier-4 match of intensity 0. *)
Lemma tier4_without_scope3_witness :
  scope_3_factor unscoped_row = None
  /\ emission_factor_kgco2e_per_eur (sectorAverage "99.00" unscoped_row) = 0%float
  /\ confidence_level (sectorAverage "99.00" unscoped_row) = Some low
  /\ exists result s' t,
       matchTransaction (memory_db sector_only_tables) french_transaction None
         DEFAULT_CONFIG 0 = (Resolved result, s', t)
       /\ tier result = Some Tier4
       /\ emissionFactor result = Some (sectorAverage "99.00" unscoped_row)
       /\ calculateEmissions (amount french_transaction) 0%float "EUR" 1%float = 0%float.
Proof.
  split; [reflexivity |].
  destruct (tier4_without_scope3_is_zero (memory_db sector_only_tables)
              "99.00" unscoped_row eq_refl) as (Hzero & Hlow & _).
  split; [exact Hzero |]. split; [exact Hlow |].
  eexists _, _, _. split; [vm_compute; reflexivity |].
  repeat split; vm_compute; reflexivity.
Defined.

(** Three rows of intensities 0.01, 0.02 and 0.03 average to 0.02, in
    binary64 as in the reals. *)
Example three_products_average :
  arithmetic_mean (map emission_factor_kgco2e_per_eur three_products) = 0.02%float
  /\ emission_factor_kgco2e_per_eur
       (countryAverage (product_row "ef-a" "01.11" "p01.a" "Wheat" "DE" 0.01%float)
          three_products) = 0.02%float
  /\ emission_factor_kgco2e_per_eur
       (euAverage (product_row "ef-a" "01.11" "p01.a" "Wheat" "DE" 0.01%float)
          three_products) = 0.02%float.
Proof. repeat split; vm_compute; reflexivity. Qed.

(** An unreachable VAT cache fails the whole match, although the account
    code and the supplier name of the purchase are both mapped. *)
Example vat_cache_outage :
  matchTransaction (memory_db outage_tables) sample_transaction (Some "acme")
    DEFAULT_CONFIG 0
  = (Rejected "VAT cache unreachable", 0,
     [GetVATCache "SE556036-2138" (Rejected "VAT cache unreachable")]).
Proof. vm_compute. reflexivity. Qed.

(** A stated supplier country is the one asked for, against the VAT
    prefix: the Polish row is found, not the Swedish one. *)
Example stated_country_is_asked_for :
  exists result t,
    matchTransaction (memory_db sample_tables) polish_transaction None
      DEFAULT_CONFIG 0 = (Resolved result, 0, t)
    /\ countryCode result = Some "PL"
    /\ option_map id (emissionFactor result) = Some "ef-2"
    /\ forallb (fun c => match query_country c with
                         | Some cc => String.eqb cc "PL"
                         | None => true
                         end) t = true.
Proof.
  eexists _, _. split; [vm_compute; reflexivity |]. repeat split.
Qed.



(** The utilities on the inputs the documentation uses. *)
Example normalize_vattenfall : normalizeSupplierName "Vattenfall AB" = "vattenfall".
Proof. vm_compute. reflexivity. Qed.

Example normalize_acme : normalizeSupplierName "ACME GmbH" = "acme".
Proof. vm_compute. reflexivity. Qed.

Example country_of_swedish_vat : getCountryFromVAT "se556036-2138" = Some "SE".
Proof. vm_compute. reflexivity. Qed.

Example country_of_short_vat : getCountryFromVAT "S" = None.
Proof. vm_compute. reflexivity. Qed.

(** An empty supplier country is no country: the VAT prefix is adopted. *)
Example empty_country_is_absent :
  adoptVatCountry (Some "") (Some "SE") = Some "SE"
  /\ adoptVatCountry (Some "PL") (Some "SE") = Some "PL"
  /\ adoptVatCountry None (Some "SE") = Some "SE".
Proof. repeat split. Qed.

Open Scope string_scope.
Open Scope list_scope.

(* ================================================================== *)
(** * Further properties of the matcher *)

(** ** Letter case *)

Lemma lower_upper_ascii c : Js.lower_ascii (Js.upper_ascii c) = Js.lower_ascii c.
Proof. destruct c as [[] [] [] [] [] [] [] []]; reflexivity. Qed.

Lemma lower_lower_ascii c : Js.lower_ascii (Js.lower_ascii c) = Js.lower_ascii c.
Proof. destruct c as [[] [] [] [] [] [] [] []]; reflexivity. Qed.

Lemma toLowerCase_toUpperCase s :
  Js.toLowerCase (Js.toUpperCase s) = Js.toLowerCase s.
Proof.
  induction s as [| c r IH]; cbn; [reflexivity |].
  rewrite lower_upper_ascii. f_equal. exact IH.
Qed.

Lemma toLowerCase_toLowerCase s :
  Js.toLowerCase (Js.toLowerCase s) = Js.toLowerCase s.
Proof.
  induction s as [| c r IH]; cbn; [reflexivity |].
  rewrite lower_lower_ascii. f_equal. exact IH.
Qed.

Lemma truthy_string_map f s :
  Js.truthy_string (Js.map_string f s) = Js.truthy_string s.
Proof. destruct s; reflexivity. Qed.

(** X1.  The product hints read from a description of ASCII text do
    not depend on its letter case: the description in upper case and
    the description in lower case give the hints of the description
    itself. *)
Theorem extractProductHints_ignores_case d :
  Js.ascii_text d = true ->
  extractProductHints (Some (Js.toUpperCase d)) = extractProductHints (Some d)
  /\ extractProductHints (Some (Js.toLowerCase d)) = extractProductHints (Some d).
Proof.
  intros _. unfold extractProductHints, Js.toUpperCase, Js.toLowerCase.
  rewrite !truthy_string_map.
  fold Js.toUpperCase. fold Js.toLowerCase.
  rewrite toLowerCase_toUpperCase, toLowerCase_toLowerCase. split; reflexivity.
Qed.

(** X3.  The key a supplier name of ASCII text is looked up under does
    not depend on the letter case of the name. *)
Theorem normalizeSupplierName_ignores_case name :
  Js.ascii_text name = true ->
  normalizeSupplierName (Js.toUpperCase name) = normalizeSupplierName name
  /\ normalizeSupplierName (Js.toLowerCase name) = normalizeSupplierName name.
Proof.
  intros _. unfold normalizeSupplierName.
  rewrite toLowerCase_toUpperCase, toLowerCase_toLowerCase. split; reflexivity.
Qed.

(** ** The hints, as a selection from the vocabulary *)

Lemma subseq_refl {A} (l : list A) : subseq l l.
Proof. induction l; constructor; assumption. Qed.

Lemma subseq_snoc_skip {A} (l l' : list A) x : subseq l l' -> subseq l (l' ++ [x]).
Proof.
  induction 1; cbn.
  - apply subseq_skip, subseq_nil.
  - apply subseq_skip. assumption.
  - apply subseq_take. assumption.
Qed.

Lemma subseq_snoc_take {A} (l l' : list A) x :
  subseq l l' -> subseq (l ++ [x]) (l' ++ [x]).
Proof.
  induction 1; cbn.
  - apply subseq_take, subseq_nil.
  - apply subseq_skip. assumption.
  - apply subseq_take. assumption.
Qed.

Lemma subseq_push b h l l' : subseq l l' -> subseq (push_if b h l) (l' ++ [h]).
Proof.
  intros H. destruct b; cbn.
  - apply subseq_snoc_take. exact H.
  - apply subseq_snoc_skip. exact H.
Qed.

Lemma subseq_length {A} (l l' : list A) :
  subseq l l' -> (List.length l <= List.length l')%nat.
Proof. induction 1; cbn; lia. Qed.

Lemma subseq_In {A} (l l' : list A) x : subseq l l' -> In x l -> In x l'.
Proof.
  induction 1; cbn; intros Hin; auto.
  destruct Hin; auto.
Qed.

Lemma subseq_NoDup {A} (l l' : list A) : subseq l l' -> NoDup l' -> NoDup l.
Proof.
  induction 1; intros Hnd.
  - constructor.
  - inversion Hnd; subst. auto.
  - inversion Hnd; subst. constructor; auto.
    intros Hin. apply H2. eapply subseq_In; eassumption.
Qed.

Lemma HINT_VOCABULARY_NoDup : NoDup HINT_VOCABULARY.
Proof.
  unfold HINT_VOCABULARY.
  repeat (constructor; [cbn; intuition discriminate |]). constructor.
Qed.

Lemma extractProductHints_subseq description :
  subseq (extractProductHints description) HINT_VOCABULARY.
Proof.
  unfold extractProductHints.
  destruct description as [d |]; [| repeat constructor].
  destruct (negb (Js.truthy_string d)); [repeat constructor |].
  cbv zeta.
  change HINT_VOCABULARY with
    (((((((((((([] ++ ["wind"]) ++ ["solar"]) ++ ["hydro"]) ++ ["nuclear"])
              ++ ["coal"]) ++ ["gas"]) ++ ["electricity"]) ++ ["air transport"])
          ++ ["rail"]) ++ ["freight"]) ++ ["renewable"]) ++ ["fossil"]).
  repeat apply subseq_push. constructor.
Qed.

(** X2.  Whatever the description, [extractProductHints] returns the
    keywords of its vocabulary it found, in the order of the vocabulary
    and each at most once: at most twelve hints, and none for an absent
    or empty description. *)
Theorem extractProductHints_selection description :
  subseq (extractProductHints description) HINT_VOCABULARY
  /\ NoDup (extractProductHints description)
  /\ (List.length (extractProductHints description) <= 12)%nat
  /\ (Js.truthy description = false -> extractProductHints description = []).
Proof.
  pose proof (extractProductHints_subseq description) as H.
  repeat split.
  - exact H.
  - exact (subseq_NoDup _ _ H HINT_VOCABULARY_NoDup).
  - exact (subseq_length _ _ H).
  - destruct description as [[| c r] |]; cbn; first [reflexivity | discriminate].
Qed.

(** ** The country of a VAT identifier *)

Lemma table_get_identity (codes : list string) k v :
  table_get (map (fun c => (c, c)) codes) k = Some v -> v = k /\ In k codes.
Proof.
  induction codes as [| c r IH]; cbn; [discriminate |].
  destruct (String.eqb k c) eqn:E.
  - apply String.eqb_eq in E. subst c. intros H. inversion H. auto.
  - intros H. destruct (IH H). auto.
Qed.

(** X4.  A country [getCountryFromVAT] returns is the first two
    characters of the identifier in upper case, and one of the prefixes
    of [VAT_COUNTRY_MAP]; the identifier has at least two characters. *)
Theorem getCountryFromVAT_sound vat c :
  getCountryFromVAT vat = Some c ->
  (2 <= String.length vat)%nat
  /\ c = Js.toUpperCase (String.substring 0 2 vat)
  /\ In c (map fst VAT_COUNTRY_MAP).
Proof.
  unfold getCountryFromVAT.
  destruct (Js.truthy_string vat); cbn [negb orb]; [| discriminate].
  destruct (String.length vat <? 2)%nat eqn:El; [discriminate |].
  apply Nat.ltb_ge in El. unfold Js.or_else.
  destruct (Js.truthy (table_get VAT_COUNTRY_MAP
                         (Js.toUpperCase (substring 0 2 vat)))); [| discriminate].
  intros H. unfold VAT_COUNTRY_MAP in H at 1.
  apply table_get_identity in H. destruct H as [-> Hin].
  repeat split; [exact El |].
  unfold VAT_COUNTRY_MAP. rewrite map_map. cbn [fst]. rewrite map_id. exact Hin.
Qed.

Lemma substring_two c1 c2 rest :
  String.substring 0 2 (String c1 (String c2 rest)) = String c1 (String c2 "").
Proof. cbn. destruct rest; reflexivity. Qed.

(** Only the first two characters of an identifier count. *)
Lemma getCountryFromVAT_prefix c1 c2 rest :
  getCountryFromVAT (String c1 (String c2 rest))
  = getCountryFromVAT (String c1 (String c2 "")).
Proof.
  unfold getCountryFromVAT.
  cbn [Js.truthy_string negb orb String.length Nat.ltb Nat.leb].
  rewrite !substring_two. reflexivity.
Qed.

(** X5.  Every prefix of [VAT_COUNTRY_MAP] is recognised, in upper and
    in lower case, whatever follows it in the identifier. *)
Theorem getCountryFromVAT_complete c rest :
  In c (map fst VAT_COUNTRY_MAP) ->
  getCountryFromVAT (c ++ rest)%string = Some c
  /\ getCountryFromVAT (Js.toLowerCase c ++ rest)%string = Some c.
Proof.
  intros H. cbn in H.
  repeat (destruct H as [<- | H];
          [split; cbn [append Js.toLowerCase Js.map_string];
           rewrite getCountryFromVAT_prefix; reflexivity |]).
  contradiction.
Qed.

(* ================================================================== *)
(** ** The range of the clamp *)

Lemma SFcompare_antisym (x y : spec_float) :
  SFcompare y x = option_map CompOpp (SFcompare x y).
Proof.
  destruct x as [sx | sx | | sx mx ex], y as [sy | sy | | sy my ey]; cbn;
    try reflexivity;
    try (destruct sx; reflexivity); try (destruct sy; reflexivity);
    try (destruct sx, sy; reflexivity).
  destruct sx, sy; cbn; try reflexivity;
    rewrite (Z.compare_antisym ey ex);
    destruct (ey ?= ex)%Z; cbn; try reflexivity;
    replace (Pos.compare_cont Eq my mx)
      with (CompOpp (Pos.compare_cont Eq mx my))
      by apply Pos.compare_cont_antisym;
    destruct (Pos.compare_cont Eq mx my); reflexivity.
Qed.

Lemma not_nan_spec (x : float) : is_nan x = false -> Prim2SF x <> S754_nan.
Proof.
  unfold is_nan. rewrite eqb_spec. unfold SFeqb. intros H E.
  rewrite E in H. discriminate.
Qed.

Lemma ltb_leb (x y : float) : (x <? y)%float = true -> (x <=? y)%float = true.
Proof.
  rewrite ltb_spec, leb_spec. unfold SFltb, SFleb.
  destruct (SFcompare (Prim2SF x) (Prim2SF y)) as [[] |]; auto.
Qed.

Lemma not_ltb_leb (x y : float) :
  is_nan x = false -> is_nan y = false ->
  (y <? x)%float = false -> (x <=? y)%float = true.
Proof.
  intros Hx Hy. apply not_nan_spec in Hx. apply not_nan_spec in Hy.
  rewrite ltb_spec, leb_spec. unfold SFltb, SFleb.
  rewrite (SFcompare_antisym (Prim2SF x) (Prim2SF y)).
  destruct (SFcompare (Prim2SF x) (Prim2SF y)) as [[] |] eqn:E; cbn;
    try reflexivity; try discriminate.
  exfalso.
  destruct (Prim2SF x), (Prim2SF y); cbn in E; congruence.
Qed.

(** Whatever number goes in, the clamp gives a number of [[0, 1]], or
    NaN for NaN. *)
Lemma clamp01_range (x : float) : unit_or_nan (clamp01 x) = true.
Proof.
  unfold clamp01, Js.min.
  change (is_nan 1) with false. change (get_sign 1) with false. cbn [orb].
  destruct (is_nan x) eqn:Hn; [reflexivity |].
  destruct (1 <? x)%float eqn:H1; [reflexivity |].
  assert (Hle : (x <=? 1)%float = true)
    by (apply not_ltb_leb; [exact Hn | reflexivity | exact H1]).
  assert (Hmax : unit_or_nan (Js.max 0%float x) = true);
    [| destruct (x <? 1)%float; exact Hmax].
  unfold Js.max, unit_or_nan.
  change (is_nan 0) with false. change (get_sign 0) with false. rewrite Hn. cbn [orb].
  destruct (0 <? x)%float eqn:H0.
  - rewrite Hn, (ltb_leb _ _ H0), Hle. reflexivity.
  - destruct (x <? 0)%float; reflexivity.
Qed.

(* ================================================================== *)
(** ** What [matchTransaction] calls, and when *)

Section Extras.

Context {State Err : Type}.
Variable db : DatabaseAdapter State Err.

Ltac run_ret H :=
  apply ret_inv in H;
  let E := fresh "E" in
  destruct H as (E & _ & _); inversion E; subst; clear E.

Ltac call_rules :=
  repeat first
    [ match goal with
      | H : forall n c h, ensures (getEmissionFactorWithFallback _ n _ c h) _ _
        |- ensures (getEmissionFactorWithFallback _ _ _ _ _) _ _ => apply H
      end
    | apply ensures_ret; exact I
    | apply ensures_await; [intros ? | intros ?; exact I]
    | apply (fun m k P R => ensures_bind m k P (fun _ => True) R); [| intros ? _]
    | progress cbv zeta
    | match goal with
      | |- ensures (match ?x with _ => _ end) _ _ => destruct x eqn:?
      end ].

(** The calls of [matchTransaction], by kind: the factor queries, and
    each lookup of the learning tables under the condition the source
    puts on it. *)
Lemma ensures_matchTransaction transaction companyId config (P : Call Err -> Prop) :
  (forall q r, P (FindEmissionFactor q r)) ->
  (forall q r, P (FindEmissionFactors q r)) ->
  (forall n r, P (FindNACEEmissionFactor n r)) ->
  (cacheVAT config = true -> forall v r, P (GetVATCache v r)) ->
  (Js.truthy companyId = true -> forall c a r, P (GetAccountMapping c a r)) ->
  (Js.truthy companyId = true -> forall i r, P (GetEmissionFactorById i r)) ->
  (forall n r, P (GetSupplierMapping n r)) ->
  (enableLearning config = true -> forall i r, P (IncrementSupplierUsage i r)) ->
  ensures (matchTransaction db transaction companyId config) P (fun _ => True).
Proof.
  intros Hf Hfs Hn Hv Ha Hi Hs Hu.
  assert (Hres : forall naceCode countryCode productHints,
             ensures (getEmissionFactorWithFallback db naceCode config
                        countryCode productHints) P (fun _ => True)).
  { intros. apply ensures_getEmissionFactorWithFallback; auto. }
  unfold matchTransaction. cbv zeta.
  apply (ensures_bind _ _ _ (fun _ => True)).
  - unfold strategy_vat, matchByVAT. call_rules; auto.
  - intros [cc [r1 |]] _; [apply ensures_ret; exact I |].
    apply (ensures_bind _ _ _ (fun _ => True)).
    + unfold strategy_account.
      destruct (Js.truthy (account_code transaction) && Js.truthy companyId) eqn:Ec;
        [| apply ensures_ret; exact I].
      apply andb_prop in Ec. destruct Ec as [_ Ec].
      unfold matchByAccountCode. call_rules; auto.
    + intros [r2 |] _; [apply ensures_ret; exact I |].
      apply (ensures_bind _ _ _ (fun _ => True)).
      * unfold strategy_supplier, matchBySupplierName. call_rules; auto.
        apply Hu. match goal with
                  | H : _ && _ = true |- _ => apply andb_prop in H; tauto
                  end.
      * intros [r3 |] _; apply ensures_ret; exact I.
Qed.


(** *** Switched-off lookups *)

Lemma strategy_vat_without_cache transaction config productHints countryCode
    s cc returned s' t :
  cacheVAT config = false ->
  strategy_vat db transaction config productHints countryCode s
    = (Resolved (cc, returned), s', t) ->
  returned = None /\ t = [].
Proof.
  intros Hc. unfold strategy_vat, matchByVAT. rewrite Hc.
  destruct (Js.truthy (vat_number transaction));
    [| unfold ret; intros H; inversion H; subst; split; reflexivity].
  destruct (vat_number transaction) as [vat |];
    [destruct (negb (Js.truthy_string vat)) |];
    unfold bind, ret; cbn; intros H; inversion H; subst; split; reflexivity.
Qed.

Lemma strategy_account_without_company transaction companyId config productHints
    countryCode s :
  Js.truthy companyId = false ->
  strategy_account db transaction companyId config productHints countryCode s
    = (Resolved None, s, []).
Proof.
  intros Hc. unfold strategy_account. rewrite Hc, andb_false_r. reflexivity.
Qed.

Lemma tiered_method config m result : tiered_result config m result -> method result = m.
Proof. intros (f & t & _ & _ & H & _). exact H. Qed.

Lemma bind_strategy_account {B} transaction companyId config productHints countryCode
    (k : option MatchResult -> M State Err B) s :
  Js.truthy companyId = false ->
  bind (strategy_account db transaction companyId config productHints countryCode) k s
  = k None s.
Proof.
  intros Hc. unfold bind.
  rewrite (strategy_account_without_company _ _ _ _ _ _ Hc).
  destruct (k None s) as [[o s2] t2]. reflexivity.
Qed.

(** X6.  With [cacheVAT] switched off, [matchTransaction] never reads
    the VAT cache, and no result has the method "vat_lookup". *)
Theorem vat_cache_disabled transaction companyId config s :
  cacheVAT config = false ->
  match matchTransaction db transaction companyId config s with
  | (o, _, t) =>
      (forall v r, ~ In (GetVATCache v r) t)
      /\ (forall result, o = Resolved result -> method result <> vat_lookup)
  end.
Proof.
  intros Hc.
  assert (HE : ensures (matchTransaction db transaction companyId config)
                 (fun c => forall v r, c <> GetVATCache v r) (fun _ => True)).
  { apply ensures_matchTransaction; try (intros; discriminate).
    rewrite Hc. discriminate. }
  specialize (HE s). unfold ensures_from in HE.
  destruct (matchTransaction db transaction companyId config s) as [[o s'] t] eqn:E.
  destruct HE as [HE _]. split.
  - intros v r Hin. exact (HE _ Hin v r eq_refl).
  - intros result ->. unfold matchTransaction in E.
    apply bind_resolved_inv in E.
    destruct E as ([cc r1] & s1 & t1 & t2 & H1 & E & _).
    destruct (strategy_vat_without_cache _ _ _ _ _ _ _ _ _ Hc H1) as [-> _].
    apply bind_resolved_inv in E.
    destruct E as ([r2 |] & s2 & t3 & t4 & H2 & E & _).
    + run_ret E. apply strategy_account_resolved in H2.
      destruct H2 as [(f & _ & _ & -> & _) | H2]; [discriminate |].
      rewrite (tiered_method _ _ _ H2). discriminate.
    + apply bind_resolved_inv in E.
      destruct E as ([r3 |] & s3 & t5 & t6 & H3 & E & _); run_ret E.
      * apply strategy_supplier_resolved in H3.
        rewrite (tiered_method _ _ _ H3). discriminate.
      * discriminate.
Qed.

(** X7.  With [enableLearning] switched off, [matchTransaction] never
    increments the usage counter of a supplier mapping. *)
Theorem learning_disabled transaction companyId config s :
  enableLearning config = false ->
  match matchTransaction db transaction companyId config s with
  | (_, _, t) => forall i r, ~ In (IncrementSupplierUsage i r) t
  end.
Proof.
  intros Hc.
  assert (HE : ensures (matchTransaction db transaction companyId config)
                 (fun c => forall i r, c <> IncrementSupplierUsage i r) (fun _ => True)).
  { apply ensures_matchTransaction; try (intros; discriminate).
    rewrite Hc. discriminate. }
  specialize (HE s). unfold ensures_from in HE.
  destruct (matchTransaction db transaction companyId config s) as [[o s'] t].
  destruct HE as [HE _]. intros i r Hin. exact (HE _ Hin i r eq_refl).
Qed.

(** X8.  Without a company identifier (absent or empty),
    [matchTransaction] reads neither an account mapping nor a factor by
    its id, and no result has the method "account_mapping". *)
Theorem account_mapping_needs_company transaction companyId config s :
  Js.truthy companyId = false ->
  match matchTransaction db transaction companyId config s with
  | (o, _, t) =>
      (forall c a r, ~ In (GetAccountMapping c a r) t)
      /\ (forall i r, ~ In (GetEmissionFactorById i r) t)
      /\ (forall result, o = Resolved result -> method result <> account_mapping)
  end.
Proof.
  intros Hc.
  assert (HE : ensures (matchTransaction db transaction companyId config)
                 (fun c => (forall c' a r, c <> GetAccountMapping c' a r)
                           /\ (forall i r, c <> GetEmissionFactorById i r))
                 (fun _ => True)).
  { apply ensures_matchTransaction;
      try (intros; split; intros; discriminate);
      rewrite Hc; discriminate. }
  specialize (HE s). unfold ensures_from in HE.
  destruct (matchTransaction db transaction companyId config s) as [[o s'] t] eqn:E.
  destruct HE as [HE _]. repeat split.
  - intros c a r Hin. exact (proj1 (HE _ Hin) c a r eq_refl).
  - intros i r Hin. exact (proj2 (HE _ Hin) i r eq_refl).
  - intros result ->. unfold matchTransaction in E.
    apply bind_resolved_inv in E.
    destruct E as ([cc [r1 |]] & s1 & t1 & t2 & H1 & E & _).
    + run_ret E. apply strategy_vat_resolved in H1.
      rewrite (tiered_method _ _ _ H1). discriminate.
    + rewrite (bind_strategy_account _ _ _ _ _ _ _ Hc) in E.
      apply bind_resolved_inv in E.
      destruct E as ([r3 |] & s3 & t5 & t6 & H3 & E & _); run_ret E.
      * apply strategy_supplier_resolved in H3.
        rewrite (tiered_method _ _ _ H3). discriminate.
      * discriminate.
Qed.


(** *** Results *)

(** X9.  A transaction without VAT identifier, without an account code
    that can be looked up, and with a supplier name the repository holds
    no mapping for, resolves to the no-match result after the single
    call that looked the normalised name up. *)
Theorem unknown_supplier_is_unmatched transaction companyId config s s' :
  Js.truthy (vat_number transaction) = false ->
  Js.truthy (account_code transaction) && Js.truthy companyId = false ->
  Js.truthy_string (supplier_name transaction) = true ->
  getSupplierMapping db (normalizeSupplierName (supplier_name transaction)) s
    = (Resolved None, s') ->
  matchTransaction db transaction companyId config s
  = (Resolved NO_MATCH, s',
     [GetSupplierMapping (normalizeSupplierName (supplier_name transaction))
        (Resolved None)]).
Proof.
  intros Hv Ha Hn Hs.
  unfold matchTransaction, strategy_vat, strategy_account, strategy_supplier,
    matchBySupplierName.
  rewrite Hv, Ha, Hn. cbn [negb]. unfold bind, await, ret. rewrite Hs. reflexivity.
Qed.

Lemma matchTransaction_well_formed transaction companyId config s result s' t :
  matchTransaction db transaction companyId config s = (Resolved result, s', t) ->
  method result <> manual
  /\ (emissionFactor result = None -> result = NO_MATCH)
  /\ (method result = none -> result = NO_MATCH)
  /\ (tier result = None -> result = NO_MATCH)
  /\ (method result <> account_mapping ->
      unit_or_nan (confidence result) = true).
Proof.
  intros H. apply matchTransaction_resolved in H.
  assert (Htiered : forall m, m <> manual -> m <> none ->
            tiered_result config m result ->
            method result <> manual
            /\ (emissionFactor result = None -> result = NO_MATCH)
            /\ (method result = none -> result = NO_MATCH)
            /\ (tier result = None -> result = NO_MATCH)
            /\ (method result <> account_mapping ->
                unit_or_nan (confidence result) = true)).
  { intros m Hm Hn (f & tr & Ef & Et & Em & Ec & _). rewrite Ef, Et, Em, Ec.
    repeat split; try congruence. intros _. apply clamp01_range. }
  destruct H as [-> | [(f & Ef & Et & Em & _) | [H | [H | H]]]].
  - repeat split; try reflexivity. discriminate.
  - rewrite Ef, Et, Em.
    repeat split; intros; try discriminate; exfalso; auto.
  - apply (Htiered vat_lookup); [discriminate | discriminate | exact H].
  - apply (Htiered account_mapping); [discriminate | discriminate | exact H].
  - apply (Htiered supplier_mapping); [discriminate | discriminate | exact H].
Qed.

(** X10.  Every result of [matchTransaction] is either the no-match
    result or carries a factor, a tier and one of the three automatic
    methods: the method is never "manual"; a result without factor,
    without tier or with the method "none" is the no-match result; and
    unless the method is "account_mapping" the confidence lies in
    [[0, 1]] or is NaN. *)
Theorem result_is_well_formed transaction companyId config s result s' t :
  matchTransaction db transaction companyId config s = (Resolved result, s', t) ->
  method result <> manual
  /\ (emissionFactor result = None -> result = NO_MATCH)
  /\ (method result = none -> result = NO_MATCH)
  /\ (tier result = None -> result = NO_MATCH)
  /\ (method result <> account_mapping ->
      unit_or_nan (confidence result) = true).
Proof. apply matchTransaction_well_formed. Qed.

(** *** The resolver without a country *)

Lemma truthy_value_falsy o : Js.truthy o = false -> truthy_value o = None.
Proof. destruct o as [c |]; cbn; [intros -> |]; reflexivity. Qed.

(** X11.  Without a country (absent or empty), the tier resolver
    makes no call that names a country, and never resolves to tier 1 or
    tier 2. *)
Theorem no_country_no_country_tiers naceCode config countryCode productHints s :
  Js.truthy countryCode = false ->
  match getEmissionFactorWithFallback db naceCode config countryCode productHints s with
  | (o, _, t) =>
      (forall c, In c t -> query_country c = None)
      /\ (forall r, o = Resolved r ->
            res_tier r <> Some Tier1 /\ res_tier r <> Some Tier2)
  end.
Proof.
  intros Hc. apply truthy_value_falsy in Hc.
  pose proof (ensures_resolver_asks_for db naceCode config countryCode productHints s) as HE.
  unfold ensures_from in HE.
  destruct (getEmissionFactorWithFallback db naceCode config countryCode productHints s)
    as [[o s'] t] eqn:E.
  destruct HE as [HE _]. split.
  - intros c Hin. specialize (HE c Hin). unfold asks_for in HE.
    destruct (query_country c) as [cc |]; [| reflexivity].
    specialize (HE cc eq_refl). congruence.
  - intros r ->. apply getEmissionFactorWithFallback_resolved in E.
    unfold resolution_record in E.
    destruct (res_tier r) as [[| | |] |]; split; try discriminate; intros _.
    + destruct E as (cc & f & Hcc & _). congruence.
    + destruct E as (cc & f & t1 & t2 & Hcc & _). congruence.
Qed.

(** *** How many calls *)

Lemma at_most_ret {A} (a : A) n : at_most n (@ret State Err A a).
Proof. intros s. cbn. lia. Qed.

Lemma at_most_await {A} (op : State -> Outcome Err A * State) log n :
  (1 <= n)%nat -> at_most n (await op log).
Proof. intros Hn s. unfold await. destruct (op s). cbn. exact Hn. Qed.

Lemma at_most_bind {A B} (m : M State Err A) (k : A -> M State Err B) a b n :
  at_most a m -> (forall x, at_most b (k x)) -> (a + b <= n)%nat ->
  at_most n (bind m k).
Proof.
  intros Hm Hk Hn s. unfold bind. specialize (Hm s).
  destruct (m s) as [[[x | e] s1] t1]; [| lia].
  specialize (Hk x s1). destruct (k x s1) as [[o s2] t2].
  rewrite length_app. lia.
Qed.

Lemma at_most_tier1_hint_loop naceCode countryCode hints :
  at_most (List.length hints) (tier1_hint_loop db naceCode countryCode hints).
Proof.
  induction hints as [| h rest IH]; cbn [tier1_hint_loop List.length].
  - apply at_most_ret.
  - apply (at_most_bind _ _ 1 (List.length rest)); [apply at_most_await; lia | | lia].
    intros [f |]; [apply at_most_ret | exact IH].
Qed.

Lemma at_most_tier1 naceCode countryCode hints :
  at_most (List.length hints + 1)
    (getEmissionFactorTier1 db naceCode countryCode (Some hints)).
Proof.
  unfold getEmissionFactorTier1.
  apply (at_most_bind _ _ (List.length hints) 1); [| | lia].
  - destruct hints as [| h l]; [apply at_most_ret |].
    apply at_most_tier1_hint_loop.
  - intros [f |]; [apply at_most_ret | apply at_most_await; lia].
Qed.

Lemma at_most_tier2 naceCode countryCode :
  at_most 1 (getEmissionFactorTier2 db naceCode countryCode).
Proof.
  unfold getEmissionFactorTier2.
  apply (at_most_bind _ _ 1 0); [apply at_most_await; lia | | lia].
  intros [[| first rest] |]; apply at_most_ret.
Qed.

Lemma at_most_tier3 naceCode : at_most 1 (getEmissionFactorTier3 db naceCode).
Proof.
  unfold getEmissionFactorTier3.
  apply (at_most_bind _ _ 1 0); [apply at_most_await; lia | | lia].
  intros [[| first rest] |]; apply at_most_ret.
Qed.

Lemma at_most_tier4 naceCode : at_most 1 (getEmissionFactorTier4 db naceCode).
Proof.
  unfold getEmissionFactorTier4.
  apply (at_most_bind _ _ 1 0); [apply at_most_await; lia | | lia].
  intros [row |]; apply at_most_ret.
Qed.

Lemma at_most_resolver naceCode config countryCode hints :
  at_most (List.length hints + 4)
    (getEmissionFactorWithFallback db naceCode config countryCode (Some hints)).
Proof.
  unfold getEmissionFactorWithFallback.
  apply (at_most_bind _ _ (List.length hints + 2) 2); [| | lia].
  - destruct countryCode as [cc |]; [| apply at_most_ret].
    destruct (Js.truthy_string cc); [| apply at_most_ret].
    apply (at_most_bind _ _ (List.length hints + 1) 1);
      [apply at_most_tier1 | | lia].
    intros [f |]; [apply at_most_ret |].
    apply (at_most_bind _ _ 1 0); [apply at_most_tier2 | | lia].
    intros [f |]; apply at_most_ret.
  - intros [r |]; [apply at_most_ret |].
    apply (at_most_bind _ _ 1 1); [apply at_most_tier3 | | lia].
    intros [f |]; [apply at_most_ret |].
    apply (at_most_bind _ _ 1 0); [apply at_most_tier4 | | lia].
    intros [f |]; apply at_most_ret.
Qed.

Lemma at_most_tiered {A} naceCode config countryCode hints n
    (k : Resolution -> M State Err A) :
  (forall r, at_most 0 (k r)) ->
  (List.length hints + 4 <= n)%nat ->
  at_most n
    (bind (getEmissionFactorWithFallback db naceCode config countryCode (Some hints)) k).
Proof.
  intros Hk Hn.
  apply (at_most_bind _ _ (List.length hints + 4) 0);
    [apply at_most_resolver | exact Hk | lia].
Qed.

(** X12.  [matchTransaction] makes at most
    [3 * (number of product hints + 4) + 5] calls to the repository, so
    never more than 53, on every transaction and however the repository
    answers. *)
Theorem matchTransaction_call_bound transaction companyId config s :
  match matchTransaction db transaction companyId config s with
  | (_, _, t) =>
      (List.length t
       <= 3 * (List.length (extractProductHints (description transaction)) + 4) + 5)%nat
      /\ (List.length t <= 53)%nat
  end.
Proof.
  set (hints := extractProductHints (description transaction)).
  set (R := (List.length hints + 4)%nat).
  assert (Hbound : at_most (3 * R + 5)
                     (matchTransaction db transaction companyId config)).
  { unfold matchTransaction. cbv zeta. fold hints.
    apply (at_most_bind _ _ (1 + R) (2 * R + 4)); [| | lia].
    - unfold strategy_vat.
      destruct (Js.truthy (vat_number transaction)); [| apply at_most_ret].
      apply (at_most_bind _ _ 1 R); [| | lia].
      + unfold matchByVAT.
        destruct (vat_number transaction) as [vat |]; [| apply at_most_ret].
        destruct (negb (Js.truthy_string vat)); [apply at_most_ret |].
        cbv zeta.
        apply (at_most_bind _ _ 1 0); [| intros [r |]; apply at_most_ret | lia].
        destruct (cacheVAT config); [| apply at_most_ret].
        apply (at_most_bind _ _ 1 0); [apply at_most_await; lia | | lia].
        intros [c |]; [destruct (is_valid c) |]; apply at_most_ret.
      + intros [n vc]. cbv zeta.
        destruct (truthy_value n); [| apply at_most_ret].
        apply at_most_tiered; [| unfold R; lia].
        intros r. destruct (res_factor r); apply at_most_ret.
    - intros [cc [r1 |]]; [apply at_most_ret |].
      apply (at_most_bind _ _ (2 + R) (2 + R)); [| | lia].
      + unfold strategy_account.
        destruct (Js.truthy (account_code transaction) && Js.truthy companyId);
          [| apply at_most_ret].
        apply (at_most_bind _ _ 1 (1 + R)); [| | lia].
        * unfold matchByAccountCode.
          destruct (account_code transaction) as [a |]; [| apply at_most_ret].
          destruct companyId as [c |]; [| apply at_most_ret].
          destruct (negb (Js.truthy_string a) || negb (Js.truthy_string c));
            [apply at_most_ret |].
          apply (at_most_bind _ _ 1 0); [apply at_most_await; lia | | lia].
          intros [m |]; apply at_most_ret.
        * intros [n i].
          apply (at_most_bind _ _ 1 R); [| | lia].
          -- destruct (truthy_value i); [| apply at_most_ret].
             apply (at_most_bind _ _ 1 0); [apply at_most_await; lia | | lia].
             intros [f |]; apply at_most_ret.
          -- intros [r |]; [apply at_most_ret |].
             destruct (truthy_value n); [| apply at_most_ret].
             apply at_most_tiered; [| unfold R; lia].
             intros r. destruct (res_factor r); apply at_most_ret.
      + intros [r2 |]; [apply at_most_ret |].
        apply (at_most_bind _ _ (2 + R) 0); [| intros [r3 |]; apply at_most_ret | lia].
        unfold strategy_supplier.
        apply (at_most_bind _ _ 2 R); [| | lia].
        * unfold matchBySupplierName.
          destruct (negb (Js.truthy_string (supplier_name transaction)));
            [apply at_most_ret |].
          cbv zeta.
          apply (at_most_bind _ _ 1 1); [apply at_most_await; lia | | lia].
          intros [m |]; [| apply at_most_ret].
          apply (at_most_bind _ _ 1 0); [| intros; apply at_most_ret | lia].
          destruct (enableLearning config && Js.truthy_string (snm_id m));
            [apply at_most_await; lia | apply at_most_ret].
        * intros n.
          destruct (truthy_value n); [| apply at_most_ret].
          apply at_most_tiered; [| unfold R; lia].
          intros r. destruct (res_factor r); apply at_most_ret. }
  specialize (Hbound s).
  destruct (matchTransaction db transaction companyId config s) as [[o s'] t].
  split; [exact Hbound |].
  pose proof (subseq_length _ _ (extractProductHints_subseq (description transaction)))
    as Hlen.
  fold hints in Hlen. cbn [List.length HINT_VOCABULARY] in Hlen.
  unfold R in Hbound. lia.
Qed.


(** *** The account strategy *)

(** X13.  When the VAT strategy does not apply and the account mapping
    names a pre-mapped factor that the repository holds,
    [matchTransaction] returns that factor after exactly two calls, with
    tier 1, the method "account_mapping", the base confidence of that
    method, the factor's own country and product code, and no fallback;
    the tier resolver is not run. *)
Theorem premapped_factor_wins transaction companyId config s
    company account m s1 i f s2 :
  Js.truthy (vat_number transaction) = false ->
  account_code transaction = Some account -> Js.truthy_string account = true ->
  companyId = Some company -> Js.truthy_string company = true ->
  getAccountMapping db company account s = (Resolved (Some m), s1) ->
  emission_factor_id m = Some i -> Js.truthy_string i = true ->
  getEmissionFactorById db i s1 = (Resolved (Some f), s2) ->
  exists result,
    matchTransaction db transaction companyId config s
    = (Resolved result, s2,
       [GetAccountMapping company account (Resolved (Some m));
        GetEmissionFactorById i (Resolved (Some f))])
    /\ emissionFactor result = Some f
    /\ naceCode result = ecm_nace_code m
    /\ countryCode result = country_code f
    /\ productCode result = exiobase_product_code f
    /\ tier result = Some Tier1
    /\ method result = account_mapping
    /\ confidence result = methodConfidence_account_mapping config
    /\ fallbackApplied result = false.
Proof.
  intros Hv Ha Hat -> Hct Hm Hi Hit Hf.
  unfold matchTransaction, strategy_vat, strategy_account, matchByAccountCode.
  rewrite Hv, Ha. cbn [Js.truthy]. rewrite Hat, Hct. cbn [andb negb orb].
  unfold bind, await, ret. rewrite Hm, Hi. cbn [truthy_value]. rewrite Hit, Hf.
  cbn. eexists. split; [reflexivity |]. cbn. auto 10.
Qed.



(** *** The supplier strategy *)


(** *** Batches *)

Lemma Faithful_batch_loop transactions companyId config results :
  Faithful (batch_loop db transactions companyId config results).
Proof.
  revert results. induction transactions as [| tx rest IH]; intros results;
    cbn [batch_loop].
  - apply Faithful_ret.
  - apply Faithful_bind; [apply Faithful_matchTransaction |].
    intros result. apply IH.
Qed.

(** X16.  A call the repository rejects ends
    [batchMatchTransactions]: the batch rejects with that error, the
    rejected call is the last one made, and no map of results is
    returned; a batch that resolves has seen no rejected call, and a
    batch none of whose calls is rejected resolves. *)
Theorem batch_failure_aborts transactions companyId config s :
  match batchMatchTransactions db transactions companyId config s with
  | (o, _, t) =>
      (forall c e, In c t -> rejection c = Some e ->
                   o = Rejected e /\ exists t0, t = t0 ++ [c])
      /\ (forall results, o = Resolved results -> quiet t)
      /\ (quiet t -> exists results, o = Resolved results)
  end.
Proof.
  pose proof (Faithful_batch_loop transactions companyId config [] s) as H.
  unfold batchMatchTransactions.
  destruct (batch_loop db transactions companyId config [] s) as [[[r | e] s'] t];
    cbn in H.
  - repeat split.
    + rewrite (H c H0) in H1. discriminate.
    + rewrite (H c H0) in H1. discriminate.
    + intros _ _. exact H.
    + intros _. exists r. reflexivity.
  - destruct H as (t0 & c0 & -> & Hq & Hc0). repeat split.
    + apply in_app_or in H. destruct H as [H | [<- | []]].
      * rewrite (Hq c H) in H0. discriminate.
      * congruence.
    + apply in_app_or in H. destruct H as [H | [<- | []]].
      * rewrite (Hq c H) in H0. discriminate.
      * exists t0. reflexivity.
    + intros results Hr. discriminate.
    + intros Hquiet. rewrite (Hquiet c0) in Hc0; [discriminate |].
      apply in_or_app. right. left. reflexivity.
Qed.

Lemma map_set_keys {V} k (v : V) m :
  map fst (map_set k v m)
  = if existsb (String.eqb k) (map fst m) then map fst m else map fst m ++ [k].
Proof.
  induction m as [| [k' v'] r IH]; cbn; [reflexivity |].
  destruct (String.eqb k k') eqn:E; cbn.
  - apply String.eqb_eq in E. subst k'. reflexivity.
  - rewrite IH. destruct (existsb (String.eqb k) (map fst r)); reflexivity.
Qed.

Lemma map_get_set {V} k (v : V) m : map_get k (map_set k v m) = Some v.
Proof.
  induction m as [| [k' v'] r IH]; cbn.
  - rewrite String.eqb_refl. reflexivity.
  - destruct (String.eqb k k') eqn:E; cbn.
    + rewrite String.eqb_refl. reflexivity.
    + rewrite E. exact IH.
Qed.

Lemma batch_loop_keys transactions companyId config results s res s' t :
  batch_loop db transactions companyId config results s = (Resolved res, s', t) ->
  map fst res = map fst results ++ distinct_ids (map fst results) transactions.
Proof.
  revert results s t. induction transactions as [| tx rest IH]; intros results s t H;
    cbn [batch_loop distinct_ids] in *.
  - apply ret_inv in H. destruct H as (E & _ & _). inversion E; subst.
    rewrite app_nil_r. reflexivity.
  - apply bind_resolved_inv in H.
    destruct H as (result & s1 & t1 & t2 & _ & H & _).
    apply IH in H. rewrite H, map_set_keys.
    destruct (existsb (String.eqb (tx_id tx)) (map fst results)).
    + reflexivity.
    + rewrite <- app_assoc. reflexivity.
Qed.

Lemma existsb_eqb_In k l : existsb (String.eqb k) l = true <-> In k l.
Proof.
  rewrite existsb_exists. split.
  - intros (x & Hin & E). apply String.eqb_eq in E. subst. exact Hin.
  - intros Hin. exists k. split; [exact Hin | apply String.eqb_refl].
Qed.

Lemma distinct_ids_NoDup seen transactions :
  NoDup seen -> NoDup (seen ++ distinct_ids seen transactions).
Proof.
  revert seen. induction transactions as [| tx rest IH]; intros seen Hnd;
    cbn [distinct_ids].
  - rewrite app_nil_r. exact Hnd.
  - destruct (existsb (String.eqb (tx_id tx)) seen) eqn:E; [apply IH; exact Hnd |].
    change (tx_id tx :: distinct_ids (seen ++ [tx_id tx]) rest)
      with ([tx_id tx] ++ distinct_ids (seen ++ [tx_id tx]) rest).
    rewrite app_assoc. apply IH.
    apply NoDup_app; [exact Hnd | repeat constructor; intros [] |].
    intros x Hx [<- | []].
    apply existsb_eqb_In in Hx. congruence.
Qed.

Lemma distinct_ids_length seen transactions :
  (List.length (distinct_ids seen transactions) <= List.length transactions)%nat.
Proof.
  revert seen. induction transactions as [| tx rest IH]; intros seen;
    cbn [distinct_ids List.length]; [lia |].
  destruct (existsb (String.eqb (tx_id tx)) seen).
  - specialize (IH seen). lia.
  - cbn [List.length]. specialize (IH (seen ++ [tx_id tx])). lia.
Qed.

(** X17.  The map a batch resolves to holds one entry for each
    distinct transaction id, in the order of first appearance: its keys
    are without repeats, there are at most as many as transactions, and
    every transaction of the batch finds a result under its id. *)
Theorem batch_result_keys transactions companyId config s results s' t :
  batchMatchTransactions db transactions companyId config s
    = (Resolved results, s', t) ->
  map fst results = distinct_ids [] transactions
  /\ NoDup (map fst results)
  /\ (List.length results <= List.length transactions)%nat
  /\ (forall tx, In tx transactions -> map_get (tx_id tx) results <> None).
Proof.
  intros H. apply batch_loop_keys in H. cbn in H.
  assert (Hlen : List.length results = List.length (distinct_ids [] transactions))
    by (rewrite <- H; symmetry; apply length_map).
  repeat split.
  - exact H.
  - rewrite H. apply (distinct_ids_NoDup [] transactions). constructor.
  - rewrite Hlen. apply distinct_ids_length.
  - intros tx Hin.
    assert (Hk : In (tx_id tx) (map fst results)).
    { rewrite H. clear H Hlen.
      assert (G : forall seen, In (tx_id tx) (seen ++ distinct_ids seen transactions)).
      { induction transactions as [| tx' rest IH]; [destruct Hin |].
        intros seen. cbn [distinct_ids].
        destruct Hin as [-> | Hin].
        - destruct (existsb (String.eqb (tx_id tx)) seen) eqn:E.
          + apply in_or_app. left. apply existsb_eqb_In. exact E.
          + apply in_or_app. right. left. reflexivity.
        - destruct (existsb (String.eqb (tx_id tx')) seen) eqn:E.
          + apply IH. exact Hin.
          + specialize (IH Hin (seen ++ [tx_id tx'])).
            rewrite <- app_assoc in IH. exact IH. }
      exact (G []). }
    clear H Hlen. induction results as [| [k v] r IH]; [destruct Hk |].
    cbn. destruct (String.eqb (tx_id tx) k) eqn:E; [discriminate |].
    apply IH. destruct Hk as [Hk | Hk]; [| exact Hk].
    cbn in Hk. subst k. rewrite String.eqb_refl in E. discriminate.
Qed.

(** X18.  A batch extended by one transaction resolves to the map of
    the shorter batch with the result of the last transaction set under
    its id: of two transactions with the same id, the later one's result
    is the one kept. *)
Theorem batch_last_wins transactions tx companyId config s results s' t :
  batchMatchTransactions db (transactions ++ [tx]) companyId config s
    = (Resolved results, s', t) ->
  exists before s1 t1 result t2,
    batchMatchTransactions db transactions companyId config s
      = (Resolved before, s1, t1)
    /\ matchTransaction db tx companyId config s1 = (Resolved result, s', t2)
    /\ results = map_set (tx_id tx) result before
    /\ t = t1 ++ t2
    /\ map_get (tx_id tx) results = Some result.
Proof.
  unfold batchMatchTransactions. generalize (@nil (string * MatchResult)).
  revert s t. induction transactions as [| tx0 rest IH]; intros s t acc H.
  - cbn [app batch_loop] in H. apply bind_resolved_inv in H.
    destruct H as (result & s1 & t1 & t2 & Hm & H & ->).
    apply ret_inv in H. destruct H as (E & -> & ->). inversion E; subst.
    exists acc, s, [], result, t1. rewrite app_nil_r.
    repeat split; try reflexivity; [exact Hm | apply map_get_set].
  - cbn [app batch_loop] in H. apply bind_resolved_inv in H.
    destruct H as (r0 & s0 & t0 & t2 & Hm & H & ->).
    apply IH in H.
    destruct H as (before & s1 & t1 & result & t3 & Hb & Hr & -> & -> & Hg).
    exists before, s1, (t0 ++ t1), result, t3.
    repeat split; try assumption; try reflexivity.
    + cbn [batch_loop]. unfold bind. rewrite Hm, Hb. reflexivity.
    + apply app_assoc.
Qed.

End Extras.

(* ================================================================== *)
(** ** Statistics *)

Section StatisticsProperties.

Variable numberToString : Js.number -> string.

Lemma tally_result_sum c result : tally_sum (tally_result c result) = S (tally_sum c).
Proof.
  unfold tally_result, tally_sum. destruct (tier result) as [[| | |] |]; cbn; lia.
Qed.

Lemma tally_fold_sum (results : JsMap MatchResult) c :
  tally_sum (fold_left (fun c kv => tally_result c (snd kv)) results c)
  = tally_sum c + List.length results.
Proof.
  revert c. induction results as [| kv r IH]; intros c; cbn [fold_left List.length].
  - lia.
  - rewrite IH, tally_result_sum. lia.
Qed.

(** X19.  In the statistics of any map of results, the four tier
    counts and the unmatched count add up to the total, which is the
    size of the map; [matched] is the sum of the four tier counts. *)
Theorem statistics_partition results :
  let st := getMatchingStatistics numberToString results in
  st_tier1 st + st_tier2 st + st_tier3 st + st_tier4 st + st_unmatched st = st_total st
  /\ st_matched st = st_tier1 st + st_tier2 st + st_tier3 st + st_tier4 st
  /\ st_matched st + st_unmatched st = st_total st
  /\ st_total st = List.length results.
Proof.
  cbv zeta. unfold getMatchingStatistics. cbn.
  pose proof (tally_fold_sum results
                {| n_tier1 := 0; n_tier2 := 0; n_tier3 := 0; n_tier4 := 0;
                   n_unmatched := 0; totalConfidence := 0%float |}) as H.
  unfold tally_sum in H. cbn in H. lia.
Qed.

(** X20.  The statistics of an empty map divide by zero: every rate
    is "NaN%" and the average confidence is "NaN". *)
Theorem statistics_of_nothing :
  let st := getMatchingStatistics numberToString [] in
  st_total st = 0
  /\ matchRate st = "NaN%" /\ avgConfidence st = "NaN"
  /\ tier1Rate st = "NaN%" /\ tier2Rate st = "NaN%"
  /\ tier3Rate st = "NaN%" /\ tier4Rate st = "NaN%".
Proof. cbv zeta. repeat split; vm_compute; reflexivity. Qed.

End StatisticsProperties.

(* ================================================================== *)
(** ** The statistics of a batch *)

Section BatchStatistics.

Context {State Err : Type}.
Variable db : DatabaseAdapter State Err.
Variable numberToString : Js.number -> string.

Lemma map_set_values {V} (P : V -> Prop) k v (m : JsMap V) :
  P v -> Forall P (map snd m) -> Forall P (map snd (map_set k v m)).
Proof.
  intros Hv. induction m as [| [k' v'] r IH]; cbn; intros Hm.
  - constructor; [exact Hv | constructor].
  - inversion Hm; subst. destruct (String.eqb k k'); cbn.
    + constructor; assumption.
    + constructor; [assumption | apply IH; assumption].
Qed.

Lemma batch_loop_values (P : MatchResult -> Prop) companyId config :
  (forall tx s result s' t,
     matchTransaction db tx companyId config s = (Resolved result, s', t) ->
     P result) ->
  forall transactions results s res s' t,
    Forall P (map snd results) ->
    batch_loop db transactions companyId config results s = (Resolved res, s', t) ->
    Forall P (map snd res).
Proof.
  intros HP. induction transactions as [| tx rest IH]; intros results s res s' t Hr H;
    cbn [batch_loop] in H.
  - apply ret_inv in H. destruct H as (E & _ & _). inversion E; subst. exact Hr.
  - apply bind_resolved_inv in H.
    destruct H as (result & s1 & t1 & t2 & Hm & H & _).
    apply IH in H; [exact H |].
    apply map_set_values; [exact (HP _ _ _ _ _ Hm) | exact Hr].
Qed.

Lemma tally_fold_unmatched (results : JsMap MatchResult) c :
  Forall (fun r => tier r = None <-> emissionFactor r = None) (map snd results) ->
  n_unmatched (fold_left (fun c kv => tally_result c (snd kv)) results c)
  = n_unmatched c + without_factor results.
Proof.
  unfold without_factor.
  revert c. induction results as [| [k r] rest IH]; intros c H;
    cbn [fold_left filter map snd List.length] in *.
  - lia.
  - inversion H as [| ? ? [H1 H2] Hrest]; subst. rewrite (IH _ Hrest).
    unfold tally_result. cbn [snd].
    destruct (emissionFactor r) as [f |] eqn:Ef.
    + destruct (tier r) as [[| | |] |]; cbn; try lia.
      specialize (H1 eq_refl). discriminate.
    + rewrite (H2 eq_refl). cbn. lia.
Qed.

(** X21.  In the statistics of the results of a batch, the unmatched
    count is the number of results without an emission factor, and
    [matched] the number of those with one. *)
Theorem batch_statistics_unmatched transactions companyId config s results s' t :
  batchMatchTransactions db transactions companyId config s
    = (Resolved results, s', t) ->
  let st := getMatchingStatistics numberToString results in
  st_unmatched st = without_factor results
  /\ st_matched st + without_factor results = List.length results.
Proof.
  intros H. cbv zeta.
  assert (Hw : Forall (fun r => tier r = None <-> emissionFactor r = None)
                 (map snd results)).
  { apply (batch_loop_values _ companyId config) with (3 := H); [| constructor].
    intros tx s0 result s0' t0 Hm.
    destruct (matchTransaction_well_formed db _ _ _ _ _ _ _ Hm)
      as (_ & Hf & _ & Ht & _).
    split; intros E; [rewrite (Ht E) | rewrite (Hf E)]; reflexivity. }
  pose proof (tally_fold_unmatched results
                {| n_tier1 := 0; n_tier2 := 0; n_tier3 := 0; n_tier4 := 0;
                   n_unmatched := 0; totalConfidence := 0%float |} Hw) as Hu.
  pose proof (tally_fold_sum results
                {| n_tier1 := 0; n_tier2 := 0; n_tier3 := 0; n_tier4 := 0;
                   n_unmatched := 0; totalConfidence := 0%float |}) as Hs.
  unfold getMatchingStatistics. cbn in *. unfold tally_sum in Hs. cbn in Hs.
  lia.
Qed.

End BatchStatistics.

(** ** The metadata of a synthetic factor *)

(** X22.  The metadata of an averaged factor are those of the first
    factor averaged, with "tier" set to 2 (country average) or 3 (EU
    average), with the number of factors averaged, and with
    "fallback_reason" set to the sentence of the tier; every other key
    reads as in the first factor. *)
Theorem synthetic_metadata first factors k :
  (exists m, metadata (countryAverage first factors) = Some m
     /\ meta_get "tier" m = Some (MetaNumber 2%float)
     /\ meta_get "num_products_averaged" m
        = Some (MetaNumber (Js.number_of_nat (List.length factors)))
     /\ meta_get "fallback_reason" m
        = Some (MetaString "No exact product match, using country average")
     /\ (String.eqb k "tier" = false ->
         String.eqb k "num_products_averaged" = false ->
         String.eqb k "fallback_reason" = false ->
         meta_get k m = meta_get k (meta_spread (metadata first))))
  /\ (exists m, metadata (euAverage first factors) = Some m
        /\ meta_get "tier" m = Some (MetaNumber 3%float)
        /\ meta_get "num_factors_averaged" m
           = Some (MetaNumber (Js.number_of_nat (List.length factors)))
        /\ meta_get "fallback_reason" m
           = Some (MetaString "No country-specific data, using EU average")
        /\ (String.eqb k "tier" = false ->
            String.eqb k "num_factors_averaged" = false ->
            String.eqb k "fallback_reason" = false ->
            meta_get k m = meta_get k (meta_spread (metadata first)))).
Proof.
  split; eexists; (split; [reflexivity |]); repeat split.
  - rewrite !meta_get_set_other by reflexivity. apply meta_get_set.
  - rewrite meta_get_set_other by reflexivity. apply meta_get_set.
  - apply meta_get_set.
  - intros H1 H2 H3. rewrite !meta_get_set_other by assumption. reflexivity.
  - rewrite !meta_get_set_other by reflexivity. apply meta_get_set.
  - rewrite meta_get_set_other by reflexivity. apply meta_get_set.
  - apply meta_get_set.
  - intros H1 H2 H3. rewrite !meta_get_set_other by assumption. reflexivity.
Qed.

(* ================================================================== *)
(** ** The further properties on the sample repository *)

Lemma extractProductHints_ignores_case_witness :
  Js.ascii_text "Monthly Electricity - Wind power" = true
  /\ extractProductHints (Some "Monthly Electricity - Wind power")
     = ["wind"; "electricity"]
  /\ extractProductHints (Some (Js.toUpperCase "Monthly Electricity - Wind power"))
     = extractProductHints (Some "Monthly Electricity - Wind power")
  /\ extractProductHints (Some (Js.toLowerCase "Monthly Electricity - Wind power"))
     = extractProductHints (Some "Monthly Electricity - Wind power").
Proof.
  split; [reflexivity |]. split; [vm_compute; reflexivity |].
  apply (extractProductHints_ignores_case "Monthly Electricity - Wind power").
  reflexivity.
Defined.

Lemma normalizeSupplierName_ignores_case_witness :
  Js.ascii_text "Vattenfall AB" = true
  /\ normalizeSupplierName "Vattenfall AB" = "vattenfall"
  /\ normalizeSupplierName (Js.toUpperCase "Vattenfall AB")
     = normalizeSupplierName "Vattenfall AB"
  /\ normalizeSupplierName (Js.toLowerCase "Vattenfall AB")
     = normalizeSupplierName "Vattenfall AB".
Proof.
  split; [reflexivity |]. split; [vm_compute; reflexivity |].
  apply (normalizeSupplierName_ignores_case "Vattenfall AB"). reflexivity.
Defined.

Lemma getCountryFromVAT_sound_witness :
  getCountryFromVAT "de811128135" = Some "DE"
  /\ (2 <= String.length "de811128135")%nat
  /\ "DE" = Js.toUpperCase (String.substring 0 2 "de811128135")
  /\ In "DE" (map fst VAT_COUNTRY_MAP).
Proof.
  split; [vm_compute; reflexivity |].
  apply (getCountryFromVAT_sound "de811128135" "DE"). vm_compute. reflexivity.
Defined.

Lemma getCountryFromVAT_complete_witness :
  In "FR" (map fst VAT_COUNTRY_MAP)
  /\ getCountryFromVAT ("FR" ++ "40303265045")%string = Some "FR"
  /\ getCountryFromVAT (Js.toLowerCase "FR" ++ "40303265045")%string = Some "FR".
Proof.
  assert (H : In "FR" (map fst VAT_COUNTRY_MAP))
    by (cbn; do 15 right; left; reflexivity).
  split; [exact H |].
  exact (getCountryFromVAT_complete "FR" "40303265045" H).
Defined.

Lemma vat_cache_disabled_witness :
  cacheVAT quiet_config = false
  /\ exists result t,
       matchTransaction (memory_db sample_tables) sample_transaction (Some "acme")
         quiet_config 0 = (Resolved result, 0, t)
       /\ method result = account_mapping
       /\ (forall v r, ~ In (GetVATCache v r) t)
       /\ (forall result', Resolved (Err := string) result = Resolved result' ->
                           method result' <> vat_lookup).
Proof.
  split; [reflexivity |].
  pose proof (vat_cache_disabled (memory_db sample_tables) sample_transaction
                (Some "acme") quiet_config 0 eq_refl) as H.
  destruct (matchTransaction (memory_db sample_tables) sample_transaction
              (Some "acme") quiet_config 0) as [[o s'] t] eqn:E.
  vm_compute in E. inversion E; subst.
  eexists _, _. split; [reflexivity |]. split; [reflexivity |]. exact H.
Defined.

Lemma learning_disabled_witness :
  enableLearning quiet_config = false
  /\ exists result t,
       matchTransaction (memory_db sample_tables) french_transaction None
         quiet_config 0 = (Resolved result, 0, t)
       /\ method result = supplier_mapping
       /\ (forall i r, ~ In (IncrementSupplierUsage i r) t).
Proof.
  split; [reflexivity |].
  pose proof (learning_disabled (memory_db sample_tables) french_transaction
                None quiet_config 0 eq_refl) as H.
  destruct (matchTransaction (memory_db sample_tables) french_transaction
              None quiet_config 0) as [[o s'] t] eqn:E.
  vm_compute in E. inversion E; subst.
  eexists _, _. split; [reflexivity |]. split; [reflexivity |]. exact H.
Defined.

Lemma account_mapping_needs_company_witness :
  Js.truthy None = false
  /\ exists result t,
       matchTransaction (memory_db sample_tables) premapped_transaction None
         DEFAULT_CONFIG 0 = (Resolved result, 0, t)
       /\ method result = none
       /\ (forall c a r, ~ In (GetAccountMapping c a r) t)
       /\ (forall i r, ~ In (GetEmissionFactorById i r) t)
       /\ (forall result', Resolved (Err := string) result = Resolved result' ->
                           method result' <> account_mapping).
Proof.
  split; [reflexivity |].
  pose proof (account_mapping_needs_company (memory_db sample_tables)
                premapped_transaction None DEFAULT_CONFIG 0 eq_refl) as H.
  destruct (matchTransaction (memory_db sample_tables) premapped_transaction
              None DEFAULT_CONFIG 0) as [[o s'] t] eqn:E.
  vm_compute in E. inversion E; subst.
  eexists _, _. split; [reflexivity |]. split; [reflexivity |]. exact H.
Defined.

Lemma unknown_supplier_witness :
  Js.truthy (vat_number unknown_transaction) = false
  /\ normalizeSupplierName (supplier_name unknown_transaction) = "nobody knows"
  /\ getSupplierMapping (memory_db sample_tables) "nobody knows" 0 = (Resolved None, 0)
  /\ matchTransaction (memory_db sample_tables) unknown_transaction (Some "acme")
       DEFAULT_CONFIG 0
     = (Resolved NO_MATCH, 0, [GetSupplierMapping "nobody knows" (Resolved None)]).
Proof.
  split; [reflexivity |].
  split; [vm_compute; reflexivity |].
  split; [vm_compute; reflexivity |].
  apply (unknown_supplier_is_unmatched (memory_db sample_tables) unknown_transaction
           (Some "acme") DEFAULT_CONFIG 0 0); vm_compute; reflexivity.
Defined.

Lemma result_is_well_formed_witness :
  exists result t,
    matchTransaction (memory_db sample_tables) french_transaction None
      DEFAULT_CONFIG 0 = (Resolved result, 1, t)
    /\ method result = supplier_mapping
    /\ method result <> manual
    /\ (emissionFactor result = None -> result = NO_MATCH)
    /\ (method result = none -> result = NO_MATCH)
    /\ (tier result = None -> result = NO_MATCH)
    /\ (method result <> account_mapping -> unit_or_nan (confidence result) = true).
Proof.
  eexists _, _. split; [vm_compute; reflexivity |]. split; [reflexivity |].
  eapply (result_is_well_formed (memory_db sample_tables) french_transaction None
            DEFAULT_CONFIG 0).
  vm_compute. reflexivity.
Defined.

Lemma no_country_witness :
  Js.truthy None = false
  /\ exists r t,
       getEmissionFactorWithFallback (memory_db sample_tables) "35.11" DEFAULT_CONFIG
         None (Some ["wind"]) 0 = (Resolved r, 0, t)
       /\ res_tier r = Some Tier3
       /\ (forall c, In c t -> query_country c = None).
Proof.
  split; [reflexivity |].
  pose proof (no_country_no_country_tiers (memory_db sample_tables) "35.11"
                DEFAULT_CONFIG None (Some ["wind"]) 0 eq_refl) as H.
  destruct (getEmissionFactorWithFallback (memory_db sample_tables) "35.11"
              DEFAULT_CONFIG None (Some ["wind"]) 0) as [[o s'] t] eqn:E.
  vm_compute in E. inversion E; subst.
  eexists _, _. split; [reflexivity |]. split; [reflexivity |]. exact (proj1 H).
Defined.

Lemma premapped_factor_wins_witness :
  exists m f,
    getAccountMapping (memory_db sample_tables) "acme" "5910" 0 = (Resolved (Some m), 0)
    /\ emission_factor_id m = Some "ef-2"
    /\ getEmissionFactorById (memory_db sample_tables) "ef-2" 0 = (Resolved (Some f), 0)
    /\ exists result,
         matchTransaction (memory_db sample_tables) premapped_transaction (Some "acme")
           DEFAULT_CONFIG 0
         = (Resolved result, 0,
            [GetAccountMapping "acme" "5910" (Resolved (Some m));
             GetEmissionFactorById "ef-2" (Resolved (Some f))])
         /\ emissionFactor result = Some f
         /\ naceCode result = ecm_nace_code m
         /\ countryCode result = country_code f
         /\ productCode result = exiobase_product_code f
         /\ tier result = Some Tier1
         /\ method result = account_mapping
         /\ confidence result = methodConfidence_account_mapping DEFAULT_CONFIG
         /\ fallbackApplied result = false.
Proof.
  eexists _, _.
  split; [vm_compute; reflexivity |].
  split; [reflexivity |].
  split; [vm_compute; reflexivity |].
  eapply (premapped_factor_wins (memory_db sample_tables) premapped_transaction
            (Some "acme") DEFAULT_CONFIG 0 "acme" "5910" _ 0 "ef-2" _ 0);
    first [reflexivity | vm_compute; reflexivity].
Defined.



Lemma batch_result_keys_witness :
  exists results s' t,
    batchMatchTransactions (memory_db sample_tables)
      [sample_transaction; french_transaction; sample_transaction] (Some "acme")
      DEFAULT_CONFIG 0 = (Resolved results, s', t)
    /\ map fst results = ["txn_001"; "txn_004"]
    /\ map fst results
       = distinct_ids [] [sample_transaction; french_transaction; sample_transaction]
    /\ NoDup (map fst results)
    /\ (List.length results <= 3)%nat
    /\ (forall tx,
          In tx [sample_transaction; french_transaction; sample_transaction] ->
          map_get (tx_id tx) results <> None).
Proof.
  eexists _, _, _. split; [vm_compute; reflexivity |]. split; [reflexivity |].
  eapply (batch_result_keys (memory_db sample_tables)
            [sample_transaction; french_transaction; sample_transaction]
            (Some "acme") DEFAULT_CONFIG 0).
  vm_compute. reflexivity.
Defined.

Lemma batch_last_wins_witness :
  exists results s' t,
    batchMatchTransactions (memory_db sample_tables)
      ([sample_transaction] ++ [resubmitted_transaction]) (Some "acme")
      DEFAULT_CONFIG 0 = (Resolved results, s', t)
    /\ List.length results = 1%nat
    /\ option_map tier (map_get "txn_001" results) = Some (Some Tier3)
    /\ exists before s1 t1 result t2,
         batchMatchTransactions (memory_db sample_tables) [sample_transaction]
           (Some "acme") DEFAULT_CONFIG 0 = (Resolved before, s1, t1)
         /\ matchTransaction (memory_db sample_tables) resubmitted_transaction
              (Some "acme") DEFAULT_CONFIG s1 = (Resolved result, s', t2)
         /\ results = map_set (tx_id resubmitted_transaction) result before
         /\ t = t1 ++ t2
         /\ map_get (tx_id resubmitted_transaction) results = Some result.
Proof.
  eexists _, _, _. split; [vm_compute; reflexivity |].
  split; [reflexivity |]. split; [reflexivity |].
  eapply (batch_last_wins (memory_db sample_tables) [sample_transaction]
            resubmitted_transaction (Some "acme") DEFAULT_CONFIG 0).
  vm_compute. reflexivity.
Defined.

Lemma batch_statistics_witness :
  exists results s' t,
    batchMatchTransactions (memory_db sample_tables)
      [sample_transaction; unknown_transaction; french_transaction] (Some "acme")
      DEFAULT_CONFIG 0 = (Resolved results, s', t)
    /\ without_factor results = 1%nat
    /\ matchRate (getMatchingStatistics (fun _ => "") results) = "66.7%"
    /\ st_unmatched (getMatchingStatistics (fun _ => "") results)
       = without_factor results
    /\ (st_matched (getMatchingStatistics (fun _ => "") results)
        + without_factor results = List.length results)%nat.
Proof.
  eexists _, _, _. split; [vm_compute; reflexivity |].
  split; [reflexivity |]. split; [vm_compute; reflexivity |].
  eapply (batch_statistics_unmatched (memory_db sample_tables) (fun _ => "")
            [sample_transaction; unknown_transaction; french_transaction]
            (Some "acme") DEFAULT_CONFIG 0).
  vm_compute. reflexivity.
Defined.

(** The statistics of ten results: six at tier 1, two at tier 2, one at
    tier 3, one unmatched. *)
Example statistics_of_ten :
  let r t c :=
    {| emissionFactor := None; naceCode := None; countryCode := None;
       productCode := None; confidence := c; tier := t; method := none;
       reasoning := ""; fallbackApplied := false |} in
  let st :=
    getMatchingStatistics (fun _ => "")
      [("1", r (Some Tier1) 0.95%float); ("2", r (Some Tier1) 0.95%float);
       ("3", r (Some Tier1) 0.95%float); ("4", r (Some Tier1) 0.95%float);
       ("5", r (Some Tier1) 0.95%float); ("6", r (Some Tier1) 0.95%float);
       ("7", r (Some Tier2) 0.85%float); ("8", r (Some Tier2) 0.85%float);
       ("9", r (Some Tier3) 0.75%float); ("10", r None 0%float)] in
  matchRate st = "90.0%" /\ tier1Rate st = "60.0%" /\ tier2Rate st = "20.0%"
  /\ tier3Rate st = "10.0%" /\ tier4Rate st = "0.0%" /\ st_matched st = 9%nat.
Proof. cbv zeta. repeat split; vm_compute; reflexivity. Qed.

(** [toFixed] rounds the exact binary value, the larger of two nearest. *)
Example toFixed_samples :
  toFixed (fun _ => "") 1.005%float 2 = "1.00"
  /\ toFixed (fun _ => "") 2.5%float 0 = "3"
  /\ toFixed (fun _ => "") 27.6%float 1 = "27.6"
  /\ toFixed (fun _ => "") (-0.04)%float 1 = "-0.0"
  /\ toFixed (fun _ => "") 0.846%float 2 = "0.85".
Proof. repeat split; vm_compute; reflexivity. Qed.
